(** * The rest_cherrypy gateway of salt-api: request pipeline and streams

    A shallow embedding of [saltapi/netapi/rest_cherrypy/app.py]: the
    content negotiator ([hypermedia_handler]), the body decoder
    ([hypermedia_in], the processors, [lowdata_fmt]), the lowstate executor
    ([LowDataAdapter.exec_lowstate]) and the resources built on it, the
    login resource and the two event streams.

    Python values are an inductive type, dictionaries are finite maps with
    string keys, exceptions are values of an error monad, and what the
    module reads from and writes to [cherrypy.request], [cherrypy.response]
    and [cherrypy.session] is one record threaded through a state monad.
    The collaborators the module calls but does not define (the execution
    engine, the eauth backend, the serializers, the event bus) are the
    fields of a type class. *)

From Stdlib Require Import ZArith QArith Ascii String.
From stdpp Require Import gmap strings list fin_maps pretty.

#[local] Set Warnings "-register-all".
#[local] Open Scope Z_scope.
#[local] Open Scope string_scope.
#[local] Open Scope list_scope.

(** ** Python values *)

Inductive PyVal :=
| PyNone
| PyBool (b : bool)
| PyInt (n : Z)
| PyFloat (q : Q)
| PyStr (s : string)
| PyList (l : list PyVal)
| PyDict (d : gmap string PyVal).

(** Floats are idealised as rationals: the arithmetic of the module on them
    is one subtraction and one division. *)

(** The exceptions the module raises, catches or lets through.
    [HTTPError], [HTTPRedirect] and [InternalRedirect] derive from
    [cherrypy.CherryPyException]; all of them derive from [Exception]. *)
Inductive PyExc :=
| HTTPError (status : Z) (message : string)
| HTTPRedirect (url : string)
| InternalRedirect (path : string)
| EauthAuthenticationError (detail : string)
| AttributeError (detail : string)
| KeyError (key : string)
| IndexError (detail : string)
| TypeError (detail : string)
| ValueError (detail : string)
| ZeroDivisionError (detail : string)
| UnicodeDecodeError (detail : string)
| SaltException (detail : string).

Definition is_CherryPyException (e : PyExc) : bool :=
  match e with
  | HTTPError _ _ | HTTPRedirect _ | InternalRedirect _ => true
  | _ => false
  end.

(** What [except ValueError] catches: [UnicodeDecodeError] is a subclass
    of [ValueError]. *)
Definition is_ValueError (e : PyExc) : bool :=
  match e with
  | ValueError _ | UnicodeDecodeError _ => true
  | _ => false
  end.

Definition is_EauthAuthenticationError (e : PyExc) : bool :=
  match e with
  | EauthAuthenticationError _ => true
  | _ => false
  end.

(** A computation returns a value or raises. *)
Inductive Res (A : Type) :=
| Ok (a : A)
| Raise (e : PyExc).
Arguments Ok {A} a.
Arguments Raise {A} e.

Definition res_bind {A B} (r : Res A) (k : A -> Res B) : Res B :=
  match r with
  | Ok a => k a
  | Raise e => Raise e
  end.

(** ** The operators of Python the module uses *)

Definition isinstance_list (v : PyVal) : bool :=
  match v with
  | PyList _ => true
  | _ => false
  end.

(** [bool(v)], the test of [if v:]. *)
Definition py_truthy (v : PyVal) : bool :=
  match v with
  | PyNone => false
  | PyBool b => b
  | PyInt n => negb (Z.eqb n 0)
  | PyFloat q => negb (Qeq_bool q 0)
  | PyStr s => negb (String.eqb s "")
  | PyList l => negb (Nat.eqb (length l) 0)
  | PyDict d => negb (Nat.eqb (size d) 0)
  end.

Definition is_substring (needle hay : string) : bool :=
  match String.index 0 needle hay with
  | Some _ => true
  | None => false
  end.

Definition is_str_eq (k : string) (v : PyVal) : bool :=
  match v with
  | PyStr s => String.eqb s k
  | _ => false
  end.

(** [k in v] for a string [k]: key membership on a dict, element membership
    on a list, substring on a string, [TypeError] on the rest. *)
Definition py_contains (k : string) (v : PyVal) : Res bool :=
  match v with
  | PyDict d => Ok (bool_decide (is_Some (d !! k)))
  | PyList l => Ok (existsb (is_str_eq k) l)
  | PyStr s => Ok (is_substring k s)
  | _ => Raise (TypeError "argument is not iterable")
  end.

(** [v[k]] for a string [k]. *)
Definition py_getitem (v : PyVal) (k : string) : Res PyVal :=
  match v with
  | PyDict d =>
      match d !! k with
      | Some x => Ok x
      | None => Raise (KeyError k)
      end
  | PyList _ => Raise (TypeError "list indices must be integers")
  | PyStr _ => Raise (TypeError "string indices must be integers")
  | _ => Raise (TypeError "object has no attribute __getitem__")
  end.

(** [v[k] = x] for a string [k]; the dict is updated in place, which the
    model renders by returning the updated dict. *)
Definition py_setitem (v : PyVal) (k : string) (x : PyVal) : Res PyVal :=
  match v with
  | PyDict d => Ok (PyDict (<[k := x]> d))
  | PyList _ => Raise (TypeError "list indices must be integers")
  | _ => Raise (TypeError "object does not support item assignment")
  end.

Definition default_val (d : gmap string PyVal) (k : string) (default : PyVal) : PyVal :=
  match d !! k with
  | Some x => x
  | None => default
  end.

(** [v.get(k, default)]. *)
Definition py_get (v : PyVal) (k : string) (default : PyVal) : Res PyVal :=
  match v with
  | PyDict d => Ok (default_val d k default)
  | _ => Raise (AttributeError "get")
  end.

(** [v[k]] for any subscript: dicts have string keys, lists and strings take
    integers, negative ones counting from the end. *)
Definition py_index {A} (l : list A) (i : Z) : option A :=
  let n := Z.of_nat (length l) in
  if (0 <=? i)%Z then l !! Z.to_nat i
  else if (0 <=? n + i)%Z then l !! Z.to_nat (n + i)
  else None.

Definition py_subscript (v k : PyVal) : Res PyVal :=
  match v, k with
  | PyDict _, PyStr key => py_getitem v key
  | PyDict _, (PyList _ | PyDict _) => Raise (TypeError "unhashable type")
  | PyDict _, _ => Raise (KeyError "")
  | PyList l, PyInt i =>
      match py_index l i with
      | Some x => Ok x
      | None => Raise (IndexError "list index out of range")
      end
  | PyList _, _ => Raise (TypeError "list indices must be integers")
  | PyStr s, PyInt i =>
      match py_index (String.list_ascii_of_string s) i with
      | Some c => Ok (PyStr (String c ""))
      | None => Raise (IndexError "string index out of range")
      end
  | PyStr _, _ => Raise (TypeError "string indices must be integers")
  | _, _ => Raise (TypeError "object has no attribute __getitem__")
  end.

(** Numbers: [bool] is a subclass of [int]. *)
Inductive PyNum :=
| NumInt (n : Z)
| NumFloat (q : Q).

Definition as_number (v : PyVal) : option PyNum :=
  match v with
  | PyBool b => Some (NumInt (if b then 1 else 0))
  | PyInt n => Some (NumInt n)
  | PyFloat q => Some (NumFloat q)
  | _ => None
  end.

Definition to_Q (n : PyNum) : Q :=
  match n with
  | NumInt z => inject_Z z
  | NumFloat q => q
  end.

(** [a - b]. *)
Definition py_sub (a b : PyVal) : Res PyVal :=
  match as_number a, as_number b with
  | Some (NumInt x), Some (NumInt y) => Ok (PyInt (x - y))
  | Some x, Some y => Ok (PyFloat (to_Q x - to_Q y))
  | _, _ => Raise (TypeError "unsupported operand type(s) for -")
  end.

(** [a / b] of Python 2: floor division on two integers, true division
    when a float takes part. *)
Definition py_div (a b : PyVal) : Res PyVal :=
  match as_number a, as_number b with
  | Some (NumInt x), Some (NumInt y) =>
      if Z.eqb y 0 then Raise (ZeroDivisionError "integer division or modulo by zero")
      else Ok (PyInt (x / y))
  | Some x, Some y =>
      if Qeq_bool (to_Q y) 0 then Raise (ZeroDivisionError "float division by zero")
      else Ok (PyFloat (to_Q x / to_Q y))
  | _, _ => Raise (TypeError "unsupported operand type(s) for /")
  end.

(** ** Strings *)

Definition nl : string := String (Ascii.ascii_of_nat 10) "".

Definition ascii_upper (c : ascii) : ascii :=
  let n := Ascii.nat_of_ascii c in
  if (97 <=? n)%nat && (n <=? 122)%nat then Ascii.ascii_of_nat (n - 32)
  else c.

(** [s.upper()]. *)
Fixpoint upper (s : string) : string :=
  match s with
  | EmptyString => EmptyString
  | String c r => String (ascii_upper c) (upper r)
  end.

Definition is_space (c : ascii) : bool :=
  Ascii.eqb c " " || Ascii.eqb c (Ascii.ascii_of_nat 9).

Fixpoint lstrip (s : string) : string :=
  match s with
  | EmptyString => EmptyString
  | String c r => if is_space c then lstrip r else s
  end.

Fixpoint rstrip (s : string) : string :=
  match s with
  | EmptyString => EmptyString
  | String c r =>
      match rstrip r with
      | EmptyString => if is_space c then EmptyString else String c EmptyString
      | r' => String c r'
      end
  end.

Fixpoint before_semicolon (s : string) : string :=
  match s with
  | EmptyString => EmptyString
  | String c r => if Ascii.eqb c ";" then EmptyString
                  else String c (before_semicolon r)
  end.

(** The media type of a [Content-Type] header, without its parameters: what
    CherryPy looks up among the body processors. *)
Definition content_type_value (header : string) : string :=
  rstrip (lstrip (before_semicolon header)).

Definition starts_with (p s : string) : bool := String.prefix p s.

Definition ends_with (suffix s : string) : bool :=
  let n := String.length s in
  let m := String.length suffix in
  (m <=? n)%nat && String.eqb (String.substring (n - m) m s) suffix.

Fixpoint join (sep : string) (l : list string) : string :=
  match l with
  | [] => ""
  | [x] => x
  | x :: rest => x +:+ sep +:+ join sep rest
  end.

(** ** What a request reads and writes *)

(** The two entries of [ct_out_map]. *)
Inductive Serializer :=
| JsonDumps
| YamlSafeDump.

(** One element of the parsed [Accept] header, as CherryPy hands it over:
    the media range and whether its quality value is above zero. *)
Record AcceptElement := {
  ae_value : string;
  ae_qvalue_positive : bool
}.

(** What [saltapi.APIClient.run] gives back: a value, or an iterator that
    produces [items] and then stops or raises. *)
Inductive EngineRet :=
| RetValue (v : PyVal)
| RetIterator (items : list PyVal) (failure : option PyExc).

(** The events of a request that the properties below speak about. *)
Inductive Ev :=
| EvReleaseLock                              (* cherrypy.session.release_lock() *)
| EvRun (chunk : PyVal)                      (* self.api.run(chunk) is called *)
| EvYield (v : PyVal)                        (* exec_lowstate yields v *)
| EvSerialize (content_type : string) (v : PyVal)  (* out(ret) is called *)
| EvSpawn                                    (* proc.start() *)
| EvPipeRecv                                 (* pipe.recv() returned *)
| EvSubscribe                                (* get_event(...).iter_events(full=True) *)
| EvSend (frame : string)                    (* a frame or a block leaves for the client *)
| EvSleep.                                   (* time.sleep(0.1) *)

Record LogRecord := {
  log_level : string;
  log_message : string;
  log_args : list PyVal;
  log_exc_info : option PyExc
}.

Record Serving := {
  (* [cherrypy.request.method] *)
  request_method : string;
  (* [cherrypy.request.path_info] *)
  request_path_info : string;
  (* [cherrypy.request.headers], raw values *)
  request_headers : gmap string string;
  (* [cherrypy.request.headers.elements('Accept')] *)
  request_accept : list AcceptElement;
  (* the raw entity body *)
  request_body : string;
  (* [cherrypy.request.process_request_body] *)
  request_process_request_body : bool;
  (* [cherrypy.request.unserialized_data], [None] while not set *)
  request_unserialized_data : option PyVal;
  (* [cherrypy.request.lowstate], [None] while not set *)
  request_lowstate : option PyVal;
  (* [cherrypy.response.status] *)
  response_status : Z;
  (* [cherrypy.response.headers] *)
  response_headers : gmap string string;
  (* [cherrypy.response.processors] *)
  response_processors : gmap string Serializer;
  (* [cherrypy.session.id] *)
  session_id : string;
  (* the items of [cherrypy.session] *)
  session_data : gmap string PyVal;
  (* whether the request holds the session lock *)
  session_locked : bool;
  (* [cherrypy.session.cache]: id to items *)
  session_cache : gmap string (gmap string PyVal);
  (* [cherrypy.session.timeout]: the minutes a session may stay idle
     before it is dropped, given by [tools.sessions.timeout] *)
  session_timeout : Z;
  (* [cherrypy.config['debug']] *)
  config_debug : bool;
  (* [self.opts], the master configuration *)
  saltopts : PyVal;
  (* what was handed to [logger], oldest first *)
  log : list LogRecord;
  (* the events of the request, oldest first *)
  trace : list Ev
}.

Definition set_request_process_request_body (x : bool) (s : Serving)
    : Serving :=
  Build_Serving (request_method s) (request_path_info s) (request_headers s)
    (request_accept s) (request_body s) x (request_unserialized_data s)
    (request_lowstate s) (response_status s) (response_headers s)
    (response_processors s) (session_id s) (session_data s)
    (session_locked s) (session_cache s)
    (session_timeout s) (config_debug s) (saltopts s)
    (log s) (trace s).

Definition set_request_unserialized_data (x : option PyVal) (s : Serving)
    : Serving :=
  Build_Serving (request_method s) (request_path_info s) (request_headers s)
    (request_accept s) (request_body s) (request_process_request_body s) x
    (request_lowstate s) (response_status s) (response_headers s)
    (response_processors s) (session_id s) (session_data s)
    (session_locked s) (session_cache s)
    (session_timeout s) (config_debug s) (saltopts s)
    (log s) (trace s).

Definition set_request_lowstate (x : option PyVal) (s : Serving) : Serving :=
  Build_Serving (request_method s) (request_path_info s) (request_headers s)
    (request_accept s) (request_body s) (request_process_request_body s)
    (request_unserialized_data s) x (response_status s) (response_headers s)
    (response_processors s) (session_id s) (session_data s)
    (session_locked s) (session_cache s)
    (session_timeout s) (config_debug s) (saltopts s)
    (log s) (trace s).

Definition set_response_status (x : Z) (s : Serving) : Serving :=
  Build_Serving (request_method s) (request_path_info s) (request_headers s)
    (request_accept s) (request_body s) (request_process_request_body s)
    (request_unserialized_data s) (request_lowstate s) x
    (response_headers s) (response_processors s) (session_id s)
    (session_data s) (session_locked s) (session_cache s)
    (session_timeout s) (config_debug s)
    (saltopts s) (log s) (trace s).

Definition set_response_headers (x : gmap string string) (s : Serving)
    : Serving :=
  Build_Serving (request_method s) (request_path_info s) (request_headers s)
    (request_accept s) (request_body s) (request_process_request_body s)
    (request_unserialized_data s) (request_lowstate s) (response_status s) x
    (response_processors s) (session_id s) (session_data s)
    (session_locked s) (session_cache s)
    (session_timeout s) (config_debug s) (saltopts s)
    (log s) (trace s).

Definition set_response_processors (x : gmap string Serializer) (s : Serving)
    : Serving :=
  Build_Serving (request_method s) (request_path_info s) (request_headers s)
    (request_accept s) (request_body s) (request_process_request_body s)
    (request_unserialized_data s) (request_lowstate s) (response_status s)
    (response_headers s) x (session_id s) (session_data s)
    (session_locked s) (session_cache s)
    (session_timeout s) (config_debug s) (saltopts s)
    (log s) (trace s).

Definition set_session_data (x : gmap string PyVal) (s : Serving) : Serving :=
  Build_Serving (request_method s) (request_path_info s) (request_headers s)
    (request_accept s) (request_body s) (request_process_request_body s)
    (request_unserialized_data s) (request_lowstate s) (response_status s)
    (response_headers s) (response_processors s) (session_id s) x
    (session_locked s) (session_cache s)
    (session_timeout s) (config_debug s) (saltopts s)
    (log s) (trace s).

Definition set_session_locked (x : bool) (s : Serving) : Serving :=
  Build_Serving (request_method s) (request_path_info s) (request_headers s)
    (request_accept s) (request_body s) (request_process_request_body s)
    (request_unserialized_data s) (request_lowstate s) (response_status s)
    (response_headers s) (response_processors s) (session_id s)
    (session_data s) x (session_cache s)
    (session_timeout s) (config_debug s) (saltopts s)
    (log s) (trace s).

Definition set_log (x : list LogRecord) (s : Serving) : Serving :=
  Build_Serving (request_method s) (request_path_info s) (request_headers s)
    (request_accept s) (request_body s) (request_process_request_body s)
    (request_unserialized_data s) (request_lowstate s) (response_status s)
    (response_headers s) (response_processors s) (session_id s)
    (session_data s) (session_locked s) (session_cache s)
    (session_timeout s) (config_debug s)
    (saltopts s) x (trace s).

Definition set_trace (x : list Ev) (s : Serving) : Serving :=
  Build_Serving (request_method s) (request_path_info s) (request_headers s)
    (request_accept s) (request_body s) (request_process_request_body s)
    (request_unserialized_data s) (request_lowstate s) (response_status s)
    (response_headers s) (response_processors s) (session_id s)
    (session_data s) (session_locked s) (session_cache s)
    (session_timeout s) (config_debug s)
    (saltopts s) (log s) x.

(** ** The monad of handlers: state and exceptions *)

Definition M (A : Type) : Type := Serving -> Res A * Serving.

Definition ret {A} (a : A) : M A := fun s => (Ok a, s).

Definition raise {A} (e : PyExc) : M A := fun s => (Raise e, s).

Definition bind {A B} (m : M A) (k : A -> M B) : M B :=
  fun s =>
    match m s with
    | (Ok a, s') => k a s'
    | (Raise e, s') => (Raise e, s')
    end.

Definition lift {A} (r : Res A) : M A := fun s => (r, s).

Definition gets {A} (f : Serving -> A) : M A := fun s => (Ok (f s), s).

Definition modify (f : Serving -> Serving) : M unit := fun s => (Ok tt, f s).

Notation "'let!' x ':=' r 'in' k" := (res_bind r (fun x => k))
  (at level 10, x name, r at level 100, k at level 200, only parsing).
Notation "'let*' x ':=' m 'in' k" := (bind m (fun x => k))
  (at level 10, x name, m at level 100, k at level 200, only parsing).
Notation "m '>>' k" := (bind m (fun _ => k))
  (at level 61, left associativity, only parsing).

Definition emit (e : Ev) : M unit :=
  modify (fun s => set_trace (trace s ++ [e]) s).

Definition emit_all (es : list Ev) : M unit :=
  modify (fun s => set_trace (trace s ++ es) s).

Definition logger (level message : string) (args : list PyVal)
    (exc_info : option PyExc) : M unit :=
  modify (fun s =>
    set_log (log s ++ [{| log_level := level; log_message := message;
                          log_args := args; log_exc_info := exc_info |}]) s).

(** [cherrypy.session.release_lock()]. *)
Definition release_lock : M unit :=
  modify (set_session_locked false) >> emit EvReleaseLock.

(** Reading an attribute of [cherrypy.request] that nothing has set raises
    [AttributeError]. *)
Definition getattr {A} (name : string) (f : Serving -> option A) : M A :=
  fun s =>
    match f s with
    | Some a => (Ok a, s)
    | None => (Raise (AttributeError name), s)
    end.

(** The calls the engine has received so far in this request. *)
Fixpoint calls_of (t : list Ev) : list PyVal :=
  match t with
  | [] => []
  | EvRun c :: t' => c :: calls_of t'
  | _ :: t' => calls_of t'
  end.

(** ** Collaborators *)

(** The functions the module calls and does not define. The engine gets the
    calls it has already received, so that its answers may depend on them. *)
Class Collaborators := {
  api_run : list PyVal -> PyVal -> Res EngineRet;   (* saltapi.APIClient.run *)
  json_dumps : PyVal -> Res string;                 (* json.dumps *)
  yaml_safe_dump : PyVal -> Res string;             (* yaml.safe_dump *)
  json_loads : string -> Res PyVal;                 (* json.loads *)
  yaml_safe_load : string -> Res PyVal;             (* yaml.safe_load *)
  process_urlencoded : string -> Res PyVal;         (* cherrypy._cpreqbody.process_urlencoded *)
  mk_token : PyVal -> Res PyVal;                    (* salt.auth.Resolver.mk_token *)
  get_tok : PyVal -> Res PyVal;                     (* salt.auth.LoadAuth.get_tok *)
  salt_info_process : PyVal -> PyVal -> list string * option PyExc;  (* event_processor.SaltInfo.process *)
  format_exc : PyExc -> string;                     (* traceback.format_exc *)
  str_nonstring : PyVal -> string                   (* str(v) of a v that is not a string *)
}.

Section Gateway.

Context `{Collaborators}.

(** ** The lowstate executor *)

(** The body of the loop of [exec_lowstate] up to the call of the engine:
    the additions to one chunk. *)
Definition prepare_chunk (client token chunk : PyVal) : Res PyVal :=
  let! c1 := (if py_truthy token then py_setitem chunk "token" token
              else Ok chunk) in
  let! c2 := (if py_truthy client then py_setitem c1 "client" client
              else Ok c1) in
  let! has_arg := py_contains "arg" c2 in
  if has_arg then
    let! a := py_getitem c2 "arg" in
    if isinstance_list a then Ok c2 else py_setitem c2 "arg" (PyList [a])
  else Ok c2.

(** [ret = self.api.run(chunk)] and the yields that follow it. *)
Definition run_chunk (chunk : PyVal) : M (list PyVal) :=
  let* history := gets (fun s => calls_of (trace s)) in
  emit (EvRun chunk) >>
  let* r := lift (api_run history chunk) in
  match r with
  | RetValue v => emit (EvYield v) >> ret [v]
  | RetIterator items failure =>
      emit_all (map EvYield items) >>
      match failure with
      | None => ret items
      | Some e => raise e
      end
  end.

Fixpoint exec_chunks (client token : PyVal) (chunks : list PyVal)
    : M (list PyVal) :=
  match chunks with
  | [] => ret []
  | chunk :: rest =>
      let* c := lift (prepare_chunk client token chunk) in
      let* ys := run_chunk c in
      let* zs := exec_chunks client token rest in
      ret (ys ++ zs)
  end.

(** [cherrypy.session.release_lock()] in a request for a resource whose
    [_cp_config] has [tools.sessions.on] as given. With the tool off the
    request has no session: [cherrypy.session] stands for
    [cherrypy.serving.session], which the sessions tool alone sets, and the
    look-up of the attribute fails. *)
Definition session_release_lock (sessions_on : bool) : M unit :=
  if sessions_on then release_lock else raise (AttributeError "session").

(** [list(self.exec_lowstate(client, token))]: every caller runs the
    generator to its end, and the result is the list of what it yields.
    [sessions_on] is [tools.sessions.on] in the [_cp_config] of the class
    of [self]. *)
Definition exec_lowstate_in (sessions_on : bool) (client token : PyVal)
    : M (list PyVal) :=
  let* lowstate := getattr "lowstate" request_lowstate in
  session_release_lock sessions_on >>
  match lowstate with
  | PyList chunks => exec_chunks client token chunks
  | _ => raise (HTTPError 400 "Lowstates must be a list")
  end.

(** The executor in the resources that keep
    [LowDataAdapter._cp_config]'s ['tools.sessions.on': True]. *)
Definition exec_lowstate (client token : PyVal) : M (list PyVal) :=
  exec_lowstate_in true client token.

(** ** The body decoder *)

(** The values of [ct_in_map]. The decorator [process_request_body] is
    [functools.wraps] applied to the decorator itself: it hands the
    processor back as it is, so the processors carry no test of
    [process_request_body] of their own. *)
Inductive Processor :=
| urlencoded_processor
| json_processor
| yaml_processor
| text_processor.

Definition ct_in_map (content_type : string) : option Processor :=
  if String.eqb content_type "application/x-www-form-urlencoded"
  then Some urlencoded_processor
  else if String.eqb content_type "application/json" then Some json_processor
  else if String.eqb content_type "application/x-yaml" then Some yaml_processor
  else if String.eqb content_type "text/yaml" then Some yaml_processor
  else if String.eqb content_type "text/plain" then Some text_processor
  else None.

Definition set_unserialized_data (v : PyVal) : M unit :=
  modify (set_request_unserialized_data (Some v)).

Definition run_processor (p : Processor) : M unit :=
  let* body := gets request_body in
  match p with
  | urlencoded_processor =>
      let* params := lift (process_urlencoded body) in
      set_unserialized_data params
  | json_processor =>
      match json_loads body with
      | Ok v => set_unserialized_data v
      | Raise e =>
          if is_ValueError e then raise (HTTPError 400 "Invalid JSON document")
          else raise e
      end
  | yaml_processor =>
      match yaml_safe_load body with
      | Ok v => set_unserialized_data v
      | Raise e =>
          if is_ValueError e then raise (HTTPError 400 "Invalid YAML document")
          else raise e
      end
  | text_processor =>
      match json_loads body with
      | Ok v => set_unserialized_data v
      | Raise e =>
          if is_ValueError e then set_unserialized_data (PyStr body)
          else raise e
      end
  end.

(** The tool [hypermedia_in], hooked before the request body is read. It
    installs [ct_in_map] and the default processor, which [body_process]
    below reads. *)
Definition hypermedia_in : M unit :=
  let* method := gets request_method in
  let* headers := gets request_headers in
  if String.eqb (upper method) "POST"
     && String.eqb (default "0" (headers !! "Content-Length")) "0"
  then modify (set_request_process_request_body false)
  else ret tt.

(** What CherryPy does between the hooks [before_request_body] and
    [before_handler]: when [request.process_request_body] is true it
    requires a declared length and runs the processor of the media type,
    or the default processor when there is none; otherwise it leaves the
    body alone. *)
Definition body_process : M unit :=
  let* flag := gets request_process_request_body in
  if flag then
    let* headers := gets request_headers in
    match headers !! "Content-Length", headers !! "Transfer-Encoding" with
    | None, None => raise (HTTPError 411 "")
    | _, _ =>
        match ct_in_map (content_type_value
                           (default "" (headers !! "Content-Type"))) with
        | Some p => run_processor p
        | None => raise (HTTPError 406 "Content type not supported")
        end
    end
  else ret tt.

(** The tool [lowdata_fmt], hooked before the handler. The [arg] of a form
    is replaced inside the dict that [unserialized_data] also names. *)
Definition lowdata_fmt : M unit :=
  let* method := gets request_method in
  if negb (String.eqb (upper method) "POST") then ret tt
  else
    let* data := getattr "unserialized_data" request_unserialized_data in
    let* headers := gets request_headers in
    match headers !! "Content-Type" with
    | None => raise (KeyError "Content-Type")
    | Some content_type =>
        if String.eqb content_type "application/x-www-form-urlencoded" then
          let* has_arg := lift (py_contains "arg" data) in
          let* data' :=
            (if has_arg then
               let* a := lift (py_getitem data "arg") in
               if isinstance_list a then ret data
               else lift (py_setitem data "arg" (PyList [a]))
             else ret data) in
          set_unserialized_data data' >>
          modify (set_request_lowstate (Some (PyList [data'])))
        else modify (set_request_lowstate (Some data))
    end.

(** The decoding of one request: the two tools in the order of their hooks,
    with CherryPy's processing of the body between them. *)
Definition decode_request : M unit :=
  hypermedia_in >> body_process >> lowdata_fmt.

(** ** The content negotiator *)

Definition ct_out_map : list (string * Serializer) :=
  [("application/json", JsonDumps); ("application/x-yaml", YamlSafeDump)].

Definition run_serializer (p : Serializer) (v : PyVal) : Res string :=
  match p with
  | JsonDumps => json_dumps v
  | YamlSafeDump => yaml_safe_dump v
  end.

(** [cherrypy.lib.cptools.accept], after CherryPy's source: the first range
    of positive quality that is [*/*], a [type/*] that some offered type
    starts with, or an offered type itself. *)
Fixpoint accept_ranges (ranges : list AcceptElement) (media : list string)
    : option string :=
  match ranges with
  | [] => None
  | element :: rest =>
      if ae_qvalue_positive element then
        if String.eqb (ae_value element) "*/*" then head media
        else if ends_with "/*" (ae_value element) then
          let mtype := String.substring 0 (String.length (ae_value element) - 1)
                         (ae_value element) in
          match List.find (starts_with mtype) media with
          | Some m => Some m
          | None => accept_ranges rest media
          end
        else if existsb (String.eqb (ae_value element)) media
             then Some (ae_value element)
        else accept_ranges rest media
      else accept_ranges rest media
  end.

Definition accept (media : list string) : M string :=
  let* ranges := gets request_accept in
  let* headers := gets request_headers in
  match ranges with
  | [] => ret (default "" (head media))
  | _ =>
      match accept_ranges ranges media with
      | Some m => ret m
      | None =>
          raise (HTTPError 406
            ((match headers !! "Accept" with
              | None => "Your client did not send an Accept header."
              | Some ah => "Your client sent this Accept header: " +:+ ah +:+ "."
              end)
             +:+ " But this resource only emits these media types: "
             +:+ join ", " media +:+ "."))
      end
  end.

Definition set_response_header (name value : string) : M unit :=
  modify (fun s => set_response_headers (<[name := value]> (response_headers s)) s).

(** The part of [hypermedia_handler] under [try]: the handler is run, and
    what it raises is redirected, passed on or turned into a result. *)
Definition guarded_handler (inner : M PyVal) : M PyVal :=
  fun s =>
    match (modify (set_response_processors (list_to_map ct_out_map))
           >> inner) s with
    | (Ok v, s') => (Ok v, s')
    | (Raise exc, s') =>
        if is_EauthAuthenticationError exc
        then (Raise (InternalRedirect "/login"), s')
        else if is_CherryPyException exc then (Raise exc, s')
        else
          (let* path_info := gets request_path_info in
           logger "debug" "Error while processing request for: %s"
             [PyStr path_info] (Some exc) >>
           modify (set_response_status 500) >>
           let* status := gets response_status in
           let* debug := gets config_debug in
           ret (PyDict (<["status" := PyInt status]>
                  (<["return" := PyStr (if debug then format_exc exc
                                        else "An unexpected error occurred")]>
                     ∅)))) s'
    end.

(** The part of [hypermedia_handler] after the [try]: the choice of the
    output format and the transformation of the result. *)
Definition negotiate (v : PyVal) : M string :=
  let* best := accept (map fst ct_out_map) in
  set_response_header "Content-Type" best >>
  let* processors := gets response_processors in
  match processors !! best with
  | None => raise (KeyError best)
  | Some out => emit (EvSerialize best v) >> lift (run_serializer out v)
  end.

Definition hypermedia_handler (inner : M PyVal) : M string :=
  let* v := guarded_handler inner in
  negotiate v.

(** ** The resources on the lowstate executor *)

(** [cherrypy.session.get(key)]. *)
Definition session_get (key : string) : M PyVal :=
  gets (fun s => default_val (session_data s) key PyNone).

(** [cherrypy.session[key] = v]. *)
Definition session_set (key : string) (v : PyVal) : M unit :=
  modify (fun s => set_session_data (<[key := v]> (session_data s)) s).

(** The tool [salt_auth_tool]. *)
Definition salt_auth_tool : M unit :=
  let* data := gets session_data in
  match data !! "token" with
  | None => raise (InternalRedirect "/login")
  | Some _ => set_response_header "Cache-Control" "private"
  end.

Definition LowDataAdapter_POST : M PyVal :=
  let* token := session_get "token" in
  let* results := exec_lowstate PyNone token in
  ret (PyDict {["return" := PyList results]}).

(** ['{0}'.format(v)]. *)
Definition py_format (v : PyVal) : string :=
  match v with
  | PyStr s => s
  | _ => str_nonstring v
  end.

(** [u'{0}'.format(v)], a template that is a [unicode] string: the text
    that [format] gives for [v] is a byte string, which Python 2 decodes
    with the ASCII codec before it puts it in. *)
Definition is_ascii (text : string) : bool :=
  forallb (fun c => (Ascii.nat_of_ascii c <? 128)%nat)
    (String.list_ascii_of_string text).

Definition py_uformat (v : PyVal) : Res string :=
  let text := py_format v in
  if is_ascii text then Ok text
  else Raise (UnicodeDecodeError "'ascii' codec can't decode byte").

(** [[{'href': '/jobs/{0}'.format(i['jid'])} for i in job_data if i]]. *)
Fixpoint job_links (job_data : list PyVal) : Res (list PyVal) :=
  match job_data with
  | [] => Ok []
  | i :: rest =>
      if py_truthy i then
        let! jid := py_getitem i "jid" in
        let! links := job_links rest in
        Ok (PyDict {["href" := PyStr ("/jobs/" +:+ py_format jid)]} :: links)
      else job_links rest
  end.

Definition Minions_POST : M PyVal :=
  let* token := session_get "token" in
  let* job_data := exec_lowstate (PyStr "local_async") token in
  modify (set_response_status 202) >>
  let* jobs := lift (job_links job_data) in
  ret (PyDict (<["return" := PyList job_data]>
         (<["_links" := PyDict {["jobs" := PyList jobs]}]> ∅))).

Definition Minions_GET (mid : PyVal) : M PyVal :=
  modify (set_request_lowstate (Some (PyList [PyDict
    (<["client" := PyStr "local"]>
       (<["tgt" := if py_truthy mid then mid else PyStr "*"]>
          (<["fun" := PyStr "grains.items"]> ∅)))]))) >>
  let* token := session_get "token" in
  let* results := exec_lowstate PyNone token in
  ret (PyDict {["return" := PyList results]}).

Definition Jobs_GET (jid : PyVal) : M PyVal :=
  let lookup := PyDict
    (<["client" := PyStr "runner"]>
       (<["fun" := PyStr (if py_truthy jid then "jobs.lookup_jid"
                          else "jobs.list_jobs")]>
          (<["jid" := jid]> ∅))) in
  let list_job := PyDict
    (<["client" := PyStr "runner"]>
       (<["fun" := PyStr "jobs.list_job"]> (<["jid" := jid]> ∅))) in
  let lowstate := if py_truthy jid then [lookup; list_job] else [lookup] in
  modify (set_request_lowstate (Some (PyList lowstate))) >>
  let* token := session_get "token" in
  let* job_ret_info := exec_lowstate PyNone token in
  if py_truthy jid then
    match job_ret_info with
    | [job_ret; job_info] =>
        ret (PyDict (<["info" := PyList [job_info]]>
               (<["return" := PyList [job_ret]]> ∅)))
    | _ => raise (ValueError "wrong number of values to unpack")
    end
  else
    match job_ret_info with
    | job_ret :: _ => ret (PyDict {["return" := PyList [job_ret]]})
    | [] => raise (IndexError "list index out of range")
    end.

(** [Run.POST]; [Run._cp_config] sets ['tools.sessions.on': False]. *)
Definition Run_POST : M PyVal :=
  let* results := exec_lowstate_in false PyNone PyNone in
  ret (PyDict {["return" := PyList results]}).

(** ** The login resource *)

(** [self.opts['external_auth'][token['eauth']][token['name']]] under its
    [except (AttributeError, IndexError)]. *)
Definition lookup_perms (token : PyVal) : M PyVal :=
  let* opts := gets saltopts in
  match (let! external_auth := py_getitem opts "external_auth" in
         let! eauth := py_getitem token "eauth" in
         let! backend := py_subscript external_auth eauth in
         let! name := py_getitem token "name" in
         py_subscript backend name) with
  | Ok perms => ret perms
  | Raise (AttributeError _ as exc) | Raise (IndexError _ as exc) =>
      let* eauth := lift (py_get token "eauth" PyNone) in
      let* name := lift (py_get token "name" PyNone) in
      logger "debug"
        "Configuration for external_auth malformed for eauth '{0}', and user '{1}'."
        [eauth; name] (Some exc) >>
      raise (HTTPError 500 "Configuration for external_auth could not be read.")
  | Raise exc => raise exc
  end.

Definition Login_POST : M PyVal :=
  let* lowstate := getattr "lowstate" request_lowstate in
  let* creds :=
    (match lowstate with
     | PyList (c :: _) => ret c
     | PyList [] => raise (IndexError "list index out of range")
     | _ => ret lowstate
     end) in
  let* token := lift (mk_token creds) in
  let* has_token := lift (py_contains "token" token) in
  if negb has_token then
    raise (HTTPError 401 "Could not authenticate using provided credentials")
  else
    let* sid := gets session_id in
    set_response_header "X-Auth-Token" sid >>
    let* backend_token := lift (py_getitem token "token") in
    session_set "token" backend_token >>
    let* expire := lift (py_getitem token "expire") in
    let* start := lift (py_getitem token "start") in
    let* lifetime := lift (py_sub expire start) in
    let* timeout := lift (py_div lifetime (PyInt 60)) in
    session_set "timeout" timeout >>
    let* perms := lookup_perms token in
    let* sid' := gets session_id in
    let* expire' := lift (py_getitem token "expire") in
    let* start' := lift (py_getitem token "start") in
    let* name := lift (py_getitem token "name") in
    let* eauth := lift (py_getitem token "eauth") in
    ret (PyDict {["return" := PyList [PyDict
           (<["token" := PyStr sid']>
              (<["expire" := expire']>
                 (<["start" := start']>
                    (<["user" := name]>
                       (<["eauth" := eauth]>
                          (<["perms" := perms]> ∅))))))]]}).

(** ** The event streams *)

(** The session token of a stream: from the session named in the URL when
    there is one, from the session of the request otherwise. *)
Definition stream_salt_token (token : PyVal) : M PyVal :=
  if py_truthy token then
    let* cache := gets session_cache in
    let orig_session : gmap string PyVal :=
      match token with
      | PyStr t => default ∅ (cache !! t)
      | _ => ∅
      end in
    ret (default_val orig_session "token" PyNone)
  else session_get "token".

(** [not salt_token or not self.auth.get_tok(salt_token)]. *)
Definition token_refused (salt_token : PyVal) : M bool :=
  if py_truthy salt_token then
    let* found := lift (get_tok salt_token) in
    ret (negb (py_truthy found))
  else ret true.

(** The loop of [listen]: [events] is what [stream.next()] hands over, one
    event a turn, for as long as the client is served. *)
Fixpoint listen_loop (events : list PyVal) : M unit :=
  match events with
  | [] => ret tt
  | data :: rest =>
      let* tag := lift (py_get data "tag" (PyStr "")) in
      let* tag_text := lift (py_uformat tag) in
      emit (EvSend ("tag: " +:+ tag_text +:+ nl)) >>
      let* encoded := lift (json_dumps data) in
      let* data_text := lift (py_uformat (PyStr encoded)) in
      emit (EvSend ("data: " +:+ data_text +:+ nl +:+ nl)) >>
      listen_loop rest
  end.

(** The generator [listen] of [Events.GET], pulled by the server once the
    handler has returned. *)
Definition listen (events : list PyVal) : M unit :=
  emit EvSubscribe >>
  emit (EvSend ("retry: " +:+ "400" +:+ nl)) >>
  listen_loop events.

(** [Events.GET] up to [return listen()]. *)
Definition Events_GET (token : PyVal) : M unit :=
  let* salt_token := stream_salt_token token in
  let* refused := token_refused salt_token in
  if refused then raise (InternalRedirect "/login")
  else
    release_lock >>
    set_response_header "Content-Type" "text/event-stream" >>
    set_response_header "Cache-Control" "no-cache" >>
    set_response_header "Connection" "keep-alive".

(** A request to [/events] and the stream it opens. *)
Definition Events_GET_stream (token : PyVal) (events : list PyVal) : M unit :=
  Events_GET token >> listen events.

(** One turn of the loop of [event_stream]: the delivery of [data] under
    its [except UnicodeDecodeError]. *)
Definition deliver (format_events : bool) (salt_token data : PyVal) : M unit :=
  fun s =>
    let attempt : M unit :=
      if format_events then
        let '(frames, failure) := salt_info_process data salt_token in
        emit_all (map EvSend frames) >>
        match failure with
        | None => ret tt
        | Some exc => raise exc
        end
      else
        let* encoded := lift (json_dumps data) in
        emit (EvSend ("data: " +:+ encoded +:+ nl +:+ nl)) in
    match attempt s with
    | (Raise (UnicodeDecodeError _), s') =>
        logger "error" "Error: Salt event has non UTF-8 data:\n{0}" [data]
          None s'
    | other => other
    end.

Fixpoint event_stream_loop (format_events : bool) (salt_token : PyVal)
    (events : list PyVal) : M unit :=
  match events with
  | [] => ret tt
  | data :: rest =>
      (if py_truthy data then deliver format_events salt_token data
       else ret tt) >>
      emit EvSleep >>
      event_stream_loop format_events salt_token rest
  end.

(** The function [event_stream] that [WebsocketEndpoint.GET] starts in a
    process of its own. *)
Definition event_stream (format_events : bool) (salt_token : PyVal)
    (events : list PyVal) : M unit :=
  emit EvPipeRecv >>
  emit EvSubscribe >>
  event_stream_loop format_events salt_token events.

(** [WebsocketEndpoint.GET] up to [proc.start()]; the salt token it
    resolved is what the process gets. *)
Definition WebsocketEndpoint_GET (token : PyVal) : M PyVal :=
  let* salt_token := stream_salt_token token in
  let* refused := token_refused salt_token in
  if refused then raise (HTTPError 401 "")
  else
    release_lock >>
    emit EvSpawn >>
    ret salt_token.

(** A request to [/ws] and the process it starts, in the order of cause. *)
Definition WebsocketEndpoint_GET_stream (token : PyVal) (format_events : bool)
    (events : list PyVal) : M unit :=
  let* salt_token := WebsocketEndpoint_GET token in
  event_stream format_events salt_token events.

End Gateway.

(** ** Notions the statements use *)

(** What the executor yields for one answer of the engine. *)
Definition yields_of (r : EngineRet) : list PyVal :=
  match r with
  | RetValue v => [v]
  | RetIterator items _ => items
  end.

Definition iterator_failure (r : EngineRet) : option PyExc :=
  match r with
  | RetValue _ => None
  | RetIterator _ failure => failure
  end.

(** The events of one descriptor: the call, then its yields. *)
Definition block (chunk : PyVal) (r : EngineRet) : list Ev :=
  EvRun chunk :: map EvYield (yields_of r).

(** A descriptor after the additions of the executor, in the words of the
    specification: the fixed token and the fixed client are put in when
    they are given, and an [arg] that is not a list becomes a list of one
    element. *)
Definition with_fixed (key : string) (fixed : PyVal) (d : gmap string PyVal)
    : gmap string PyVal :=
  if py_truthy fixed then <[key := fixed]> d else d.

Definition as_sequence (a : PyVal) : PyVal :=
  if isinstance_list a then a else PyList [a].

Definition arg_normalized (d : gmap string PyVal) : gmap string PyVal :=
  match d !! "arg" with
  | Some a => <["arg" := as_sequence a]> d
  | None => d
  end.

Definition annotated (client token : PyVal) (d : gmap string PyVal)
    : gmap string PyVal :=
  arg_normalized (with_fixed "client" client (with_fixed "token" token d)).

(** One range of an [Accept] header is met by one of the offered media
    types: the range has a positive quality and is [*/*], a [type/*] that
    an offered type starts with, or an offered type. *)
Definition range_matches (media : list string) (element : AcceptElement)
    : bool :=
  ae_qvalue_positive element
  && (String.eqb (ae_value element) "*/*"
      || (ends_with "/*" (ae_value element)
          && existsb
               (starts_with
                  (String.substring 0 (String.length (ae_value element) - 1)
                     (ae_value element))) media)
      || existsb (String.eqb (ae_value element)) media).

(** The media types the negotiator offers. *)
Definition supported_media : list string := map fst ct_out_map.

(** The media type the negotiator settles on, if any: the first offered
    one when the request has no [Accept] header, the first match of the
    ranges of the header otherwise. *)
Definition negotiated (media : list string) (ranges : list AcceptElement)
    : option string :=
  match ranges with
  | [] => head media
  | _ => accept_ranges ranges media
  end.

(** The credentials that a login reads out of a lowstate: the first
    element of a list, as a form gives it, or the value itself. *)
Definition credentials_of (lowstate : PyVal) : option PyVal :=
  match lowstate with
  | PyList (c :: _) => Some c
  | PyList [] => None
  | _ => Some lowstate
  end.

(** The result that takes the place of an exception of the handler. *)
Definition error_envelope (status : Z) (text : string) : PyVal :=
  PyDict (<["status" := PyInt status]> (<["return" := PyStr text]> ∅)).

(** The lock along a trace: no call of the engine and no subscription to
    the event bus happens while the request holds the session lock.
    [locked] tells whether the lock is held where the trace starts. *)
Fixpoint downstream_unlocked (locked : bool) (t : list Ev) : bool :=
  match t with
  | [] => true
  | EvReleaseLock :: rest => downstream_unlocked false rest
  | EvRun _ :: rest => negb locked && downstream_unlocked locked rest
  | EvSubscribe :: rest => negb locked && downstream_unlocked locked rest
  | _ :: rest => downstream_unlocked locked rest
  end.

(** Three things a computation may do to the trace: leave it as it is, add
    to its end, or add a stretch in which the session lock is released
    before the first call of the engine and the first subscription, even
    when the request holds the lock at the start. *)
Definition quiet {A} (m : M A) : Prop :=
  forall s, trace (m s).2 = trace s.

Definition appends {A} (m : M A) : Prop :=
  forall s, exists t, trace (m s).2 = trace s ++ t.

Definition lock_released_before_downstream {A} (m : M A) : Prop :=
  forall s, exists t,
    trace (m s).2 = trace s ++ t /\ downstream_unlocked true t = true.

(** A computation that, when it returns, has released the lock, and when
    it raises, has left the trace alone. *)
Definition releases {A} (m : M A) : Prop :=
  forall s,
    match (m s).1 with
    | Ok _ => exists t, trace (m s).2 = trace s ++ EvReleaseLock :: t
    | Raise _ => trace (m s).2 = trace s
    end.

(** The job ids among the answers to an asynchronous submission: those of
    the answers that are true. *)
Definition job_ids (job_data : list PyVal) : list PyVal :=
  omap (fun i =>
          if py_truthy i then
            match py_getitem i "jid" with
            | Ok jid => Some jid
            | Raise _ => None
            end
          else None) job_data.

(** The frames a stream sends, in their order. *)
Fixpoint sent (t : list Ev) : list string :=
  match t with
  | [] => []
  | EvSend frame :: rest => frame :: sent rest
  | _ :: rest => sent rest
  end.

Section Replies.

Context `{Collaborators}.

(** The engine answers [rets] to [chunks], called one after the other,
    each call after the yields of the one before, and no iterator fails. *)
Inductive engine_replies : list PyVal -> list PyVal -> list EngineRet -> Prop :=
| replies_nil history : engine_replies history [] []
| replies_cons history chunk chunks r rets :
    api_run history chunk = Ok r ->
    iterator_failure r = None ->
    engine_replies (history ++ [chunk]) chunks rets ->
    engine_replies history (chunk :: chunks) (r :: rets).

End Replies.

Section Links.

Context `{Collaborators}.

(** The link to one job. *)
Definition job_href (jid : PyVal) : PyVal :=
  PyDict {["href" := PyStr ("/jobs/" +:+ py_format jid)]}.

(** The frames the WebSocket stream owes for a run of events, without
    server-side formatting: one for each event that is true and that
    [json.dumps] takes. *)
Definition websocket_frames (events : list PyVal) : list string :=
  flat_map (fun data =>
              if py_truthy data then
                match json_dumps data with
                | Ok encoded => ["data: " +:+ encoded +:+ nl +:+ nl]
                | Raise _ => []
                end
              else []) events.

End Links.

(** ** The tools and resources beside the executor *)

Definition isinstance_dict (v : PyVal) : bool :=
  match v with
  | PyDict _ => true
  | _ => false
  end.

Definition is_none (v : PyVal) : bool :=
  match v with
  | PyNone => true
  | _ => false
  end.

(** [x in v] where [x] is a string or [None], as [headers.get(name, None)]
    gives it. *)
Definition py_in_header (x : option string) (v : PyVal) : Res bool :=
  match x with
  | Some k => py_contains k v
  | None =>
      match v with
      | PyDict _ => Ok false
      | PyList l => Ok (existsb is_none l)
      | PyStr _ =>
          Raise (TypeError "'in <string>' requires string as left operand")
      | _ => Raise (TypeError "argument is not iterable")
      end
  end.

Definition header_value (x : option string) : PyVal :=
  match x with
  | Some v => PyStr v
  | None => PyNone
  end.

(** The tool [salt_ip_verify_tool], hooked before the handler. What it
    returns is the dict of its [return] statement, or [None] when it runs
    to its end. *)
Definition salt_ip_verify_tool : M (option PyVal) :=
  let allow : M (option PyVal) :=
    set_response_header "Access-Control-Allow-Origin" "*" >> ret None in
  let* salt_config := gets saltopts in
  if py_truthy salt_config then
    let* cherrypy_conf := lift (py_get salt_config "rest_cherrypy" PyNone) in
    if py_truthy cherrypy_conf then
      let* auth_ip_list :=
        lift (py_get cherrypy_conf "authorized_ips" PyNone) in
      if py_truthy auth_ip_list then
        logger "debug" "Found IP list: {0}" [auth_ip_list] None >>
        let* headers := gets request_headers in
        let rem_ip := headers !! "Remote-Addr" in
        logger "debug" "Request from IP: {0}" [header_value rem_ip] None >>
        let* listed := lift (py_in_header rem_ip auth_ip_list) in
        if negb listed then
          logger "error" "Blocked IP: {0}" [header_value rem_ip] None >>
          modify (set_response_status 403) >>
          let* status := gets response_status in
          ret (Some (PyDict (<["status" := PyInt status]>
                               (<["return" := PyStr "Bad IP"]> ∅))))
        else allow
      else allow
    else allow
  else allow.

(** The tool [hypermedia_out]: the handler is wrapped (which
    [hypermedia_handler] models by taking the handler as its argument) and
    the header for cross-origin requests is set. *)
Definition hypermedia_out : M unit :=
  set_response_header "Access-Control-Allow-Origin" "*".

(** [Webhook.tag_base]. *)
Definition tag_base : list string := ["salt"; "netapi"; "hook"].

(** [Webhook.POST]; [fire_event] is [self.event.fire_event] and [args] are
    the segments of the path after the URL of the hook. *)
Definition Webhook_POST (fire_event : PyVal -> string -> Res PyVal)
    (args : list string) : M PyVal :=
  let tag := join "/" (tag_base ++ args) in
  let* data := getattr "unserialized_data" request_unserialized_data in
  let* headers := gets request_headers in
  let* fired :=
    lift (fire_event
            (PyDict (<["post" := data]>
                       (<["headers" := PyDict (PyStr <$> headers)]> ∅)))
            tag) in
  ret (PyDict {["success" := fired]}).

(** ** The URL map and the configuration *)

(** The classes that [API.url_map] binds paths to. *)
Inductive Resource :=
| LowDataAdapter
| Login
| Logout
| Minions
| Run
| Jobs
| Events
| Stats
| WebsocketEndpoint
| Webhook
| App.

(** [API.url_map] as the class is defined. *)
Definition url_map : gmap string Resource :=
  list_to_map
    [("index", LowDataAdapter); ("login", Login); ("logout", Logout);
     ("minions", Minions); ("run", Run); ("jobs", Jobs); ("events", Events);
     ("stats", Stats)].

(** [s.lstrip('/')]. *)
Fixpoint lstrip_slash (s : string) : string :=
  match s with
  | EmptyString => EmptyString
  | String c r => if Ascii.eqb c "/" then lstrip_slash r else s
  end.

(** [self.apiopts.get(key, default).lstrip('/')]. *)
Definition configured_path (apiopts : gmap string PyVal) (key default : string)
    : Res string :=
  match default_val apiopts key (PyStr default) with
  | PyStr path => Ok (lstrip_slash path)
  | _ => Raise (AttributeError "lstrip")
  end.

(** [API._update_url_map]: the map is updated in place, which the model
    renders by returning the updated map. *)
Definition _update_url_map (has_websockets : bool)
    (apiopts : gmap string PyVal) (urls : gmap string Resource)
    : Res (gmap string Resource) :=
  let urls1 := if has_websockets then <["ws" := WebsocketEndpoint]> urls
               else urls in
  let! hook := configured_path apiopts "webhook_url" "hook" in
  let urls2 := <[hook := Webhook]> urls1 in
  if bool_decide (is_Some (apiopts !! "app")) then
    let! app := configured_path apiopts "app_path" "app" in
    Ok (<[app := App]> urls2)
  else Ok urls2.

(** [v == False]: a number that is zero, [bool] being a number. *)
Definition py_eq_False (v : PyVal) : bool :=
  match as_number v with
  | Some n => Qeq_bool (to_Q n) 0
  | None => false
  end.

(** The section ['global'] of the configuration that [API.get_conf]
    builds, which it also merges into [cherrypy.config]. *)
Definition get_conf_global (apiopts : gmap string PyVal)
    : gmap string PyVal :=
  let conf : gmap string PyVal :=
    <["server.socket_host" := default_val apiopts "host" (PyStr "0.0.0.0")]>
      (<["server.socket_port" := default_val apiopts "port" (PyInt 8000)]>
         (<["server.thread_pool" :=
              default_val apiopts "thread_pool" (PyInt 100)]>
            (<["server.socket_queue_size" :=
                 default_val apiopts "queue_size" (PyInt 30)]>
               (<["max_request_body_size" :=
                    default_val apiopts "max_request_body_size"
                      (PyInt 1048576)]>
                  (<["debug" := default_val apiopts "debug" (PyBool false)]>
                     ∅))))) in
  if py_eq_False (default_val apiopts "debug" (PyBool false))
  then <["environment" := PyStr "production"]> conf
  else conf.

Section StreamNotions.

Context `{Collaborators}.

(** The two blocks the SSE stream owes for one event, when the event has a
    tag to read, [json.dumps] takes it, and the text of the tag and of the
    encoding is ASCII. *)
Definition sse_frames (data : PyVal) : list Ev :=
  match py_get data "tag" (PyStr ""), json_dumps data with
  | Ok tag, Ok encoded =>
      [EvSend ("tag: " +:+ py_format tag +:+ nl);
       EvSend ("data: " +:+ encoded +:+ nl +:+ nl)]
  | _, _ => []
  end.

Definition sse_deliverable (data : PyVal) : Prop :=
  (exists tag, py_get data "tag" (PyStr "") = Ok tag /\
               is_ascii (py_format tag) = true) /\
  (exists encoded, json_dumps data = Ok encoded /\
                   is_ascii encoded = true).

End StreamNotions.

(** ['tools.sessions.timeout'] in [LowDataAdapter._cp_config]. *)
Definition sessions_timeout : Z := 60 * 10.

(** ** A deployment to evaluate the model on

    One instance of the collaborators, small enough to compute with: an
    engine that hands out a job for [local_async], an iterator for
    [local_batch] and a value otherwise, and serializers that refuse byte
    strings that are not UTF-8, as [json.dumps] of Python 2 does. *)

(** Well-formedness of a byte string as UTF-8: [pending] continuation
    bytes are still due. *)
Fixpoint utf8_valid (pending : nat) (bytes : list ascii) : bool :=
  match bytes with
  | [] => Nat.eqb pending 0
  | b :: rest =>
      let n := Ascii.nat_of_ascii b in
      match pending with
      | O =>
          if (n <? 128)%nat then utf8_valid 0 rest
          else if (194 <=? n)%nat && (n <=? 223)%nat then utf8_valid 1 rest
          else if (224 <=? n)%nat && (n <=? 239)%nat then utf8_valid 2 rest
          else if (240 <=? n)%nat && (n <=? 244)%nat then utf8_valid 3 rest
          else false
      | S p =>
          if (128 <=? n)%nat && (n <=? 191)%nat then utf8_valid p rest
          else false
      end
  end.

Definition utf8_safe_string (s : string) : bool :=
  utf8_valid 0 (String.list_ascii_of_string s).

Fixpoint utf8_safe (v : PyVal) : bool :=
  match v with
  | PyStr s => utf8_safe_string s
  | PyList l => forallb utf8_safe l
  | PyDict d =>
      map_fold (fun k x acc => utf8_safe_string k && utf8_safe x && acc) true d
  | _ => true
  end.

Definition quote : string := String (Ascii.ascii_of_nat 34) "".

Definition quoted (s : string) : string := quote +:+ s +:+ quote.

(** A compact rendering of a value; a float shows as a fraction. *)
Fixpoint sample_encode (v : PyVal) : string :=
  match v with
  | PyNone => "null"
  | PyBool true => "true"
  | PyBool false => "false"
  | PyInt n => pretty n
  | PyFloat q => pretty (Qnum q) +:+ "/" +:+ pretty (Z.pos (Qden q))
  | PyStr s => quoted s
  | PyList l => "[" +:+ join ", " (map sample_encode l) +:+ "]"
  | PyDict d =>
      "{" +:+ join ", "
        (map_fold (fun k x acc => (quoted k +:+ ": " +:+ sample_encode x) :: acc)
           [] d) +:+ "}"
  end.

Definition sample_dumps (prefix : string) (v : PyVal) : Res string :=
  if utf8_safe v then Ok (prefix +:+ sample_encode v)
  else Raise (UnicodeDecodeError "'utf8' codec can't decode byte").

Definition sample_loads (body : string) : Res PyVal :=
  if negb (utf8_safe_string body)
  then Raise (UnicodeDecodeError "'utf8' codec can't decode byte")
  else if String.eqb body "[]" then Ok (PyList [])
  else if String.eqb body "{}" then Ok (PyDict ∅)
  else if String.eqb body "null" then Ok PyNone
  else Raise (ValueError "No JSON object could be decoded").

Definition sample_jid : string := "20130603122505459265".

Definition sample_job : PyVal :=
  PyDict (<["jid" := PyStr sample_jid]>
            (<["minions" := PyList [PyStr "ms-0"; PyStr "ms-1"]]> ∅)).

Definition sample_api_run (history : list PyVal) (chunk : PyVal)
    : Res EngineRet :=
  match py_get chunk "client" PyNone with
  | Ok (PyStr client) =>
      if String.eqb client "local_async" then Ok (RetValue sample_job)
      else if String.eqb client "local_batch" then
        Ok (RetIterator [PyDict {["ms-0" := PyBool true]};
                         PyDict {["ms-1" := PyBool true]}] None)
      else Ok (RetValue (PyDict (<["ms-0" := PyBool true]>
                                   (<["ms-1" := PyBool true]> ∅))))
  | _ => Raise (SaltException "No client specified")
  end.

Definition sample_backend_token : string := "ab3f9c1d77e0".

Definition sample_mk_token (creds : PyVal) : Res PyVal :=
  match py_get creds "password" PyNone, py_get creds "username" PyNone,
        py_get creds "eauth" PyNone with
  | Ok (PyStr password), Ok name, Ok eauth =>
      if String.eqb password "saltpass" then
        Ok (PyDict (<["token" := PyStr sample_backend_token]>
                      (<["start" := PyFloat (1363805943 # 1)]>
                         (<["expire" := PyFloat (1363849143 # 1)]>
                            (<["name" := name]> (<["eauth" := eauth]> ∅))))))
      else Ok (PyDict ∅)
  | _, _, _ => Ok (PyDict ∅)
  end.

Definition sample_get_tok (token : PyVal) : Res PyVal :=
  match token with
  | PyStr t =>
      if String.eqb t sample_backend_token
      then Ok (PyDict {["name" := PyStr "saltuser"]})
      else Ok (PyDict ∅)
  | _ => Ok (PyDict ∅)
  end.

Definition sample_process (data salt_token : PyVal)
    : list string * option PyExc :=
  if utf8_safe data then ([sample_encode data], None)
  else ([], Some (UnicodeDecodeError "'utf8' codec can't decode byte")).

(** Two descriptors: a command with a scalar [arg], and a batch command
    whose [arg] is a list and whose answer is an iterator. *)
Definition sample_ping : gmap string PyVal :=
  <["client" := PyStr "local"]>
    (<["tgt" := PyStr "*"]>
       (<["fun" := PyStr "test.kwarg"]> (<["arg" := PyStr "one=1"]> ∅))).

Definition sample_batch_command : gmap string PyVal :=
  <["client" := PyStr "local_batch"]>
    (<["tgt" := PyStr "*"]>
       (<["fun" := PyStr "test.ping"]> (<["arg" := PyList []]> ∅))).

Definition sample_batch : list (gmap string PyVal) :=
  [sample_ping; sample_batch_command].

(** The first descriptor as a form, and a stand-in for CherryPy's parser
    of forms that knows this one body. *)
Definition sample_form_body : string :=
  "fun=test.kwarg&arg=one%3D1&client=local&tgt=*".

Definition sample_process_urlencoded (body : string) : Res PyVal :=
  if String.eqb body sample_form_body then Ok (PyDict sample_ping)
  else Ok (PyDict ∅).

Definition sample : Collaborators := {|
  api_run := sample_api_run;
  json_dumps := sample_dumps "";
  yaml_safe_dump := sample_dumps "--- ";
  json_loads := sample_loads;
  yaml_safe_load := sample_loads;
  process_urlencoded := sample_process_urlencoded;
  mk_token := sample_mk_token;
  get_tok := sample_get_tok;
  salt_info_process := sample_process;
  format_exc := fun _ => "Traceback (most recent call last): ...";
  str_nonstring := sample_encode
|}.

(** A request as it reaches the resource: a [POST] of JSON by a client that
    accepts JSON, in a session that holds a token and its lock. *)
Definition sample_serving (lowstate : option PyVal) : Serving := {|
  request_method := "POST";
  request_path_info := "/";
  request_headers :=
    <["Content-Type" := "application/json"]>
      (<["Content-Length" := "42"]> (<["Accept" := "application/json"]> ∅));
  request_accept :=
    [{| ae_value := "application/json"; ae_qvalue_positive := true |}];
  request_body := "";
  request_process_request_body := true;
  request_unserialized_data := lowstate;
  request_lowstate := lowstate;
  response_status := 200;
  response_headers := ∅;
  response_processors := ∅;
  session_id := "6d1b722e";
  session_data := {["token" := PyStr sample_backend_token]};
  session_locked := true;
  session_cache := ∅;
  session_timeout := sessions_timeout;
  config_debug := false;
  saltopts :=
    PyDict {["external_auth" :=
      PyDict {["pam" :=
        PyDict {["saltuser" := PyList [PyStr "test.*"; PyStr "grains.*"]]}]}]};
  log := [];
  trace := []
|}.

(** The same request sent as a form. *)
Definition sample_form_serving : Serving := {|
  request_method := "POST";
  request_path_info := "/";
  request_headers :=
    <["Content-Type" := "application/x-www-form-urlencoded"]>
      (<["Content-Length" := "45"]> (<["Accept" := "application/x-yaml"]> ∅));
  request_accept :=
    [{| ae_value := "application/x-yaml"; ae_qvalue_positive := true |}];
  request_body := sample_form_body;
  request_process_request_body := true;
  request_unserialized_data := None;
  request_lowstate := None;
  response_status := 200;
  response_headers := ∅;
  response_processors := ∅;
  session_id := "6d1b722e";
  session_data := {["token" := PyStr sample_backend_token]};
  session_locked := true;
  session_cache := ∅;
  session_timeout := sessions_timeout;
  config_debug := false;
  saltopts := PyDict ∅;
  log := [];
  trace := []
|}.

(** A client that only takes HTML posts a single mapping as JSON. *)
Definition sample_html_serving : Serving := {|
  request_method := "POST";
  request_path_info := "/";
  request_headers :=
    <["Content-Type" := "application/json"]>
      (<["Content-Length" := "42"]> (<["Accept" := "text/html"]> ∅));
  request_accept := [{| ae_value := "text/html"; ae_qvalue_positive := true |}];
  request_body := "";
  request_process_request_body := true;
  request_unserialized_data := Some (PyDict sample_ping);
  request_lowstate := Some (PyDict sample_ping);
  response_status := 200;
  response_headers := ∅;
  response_processors := ∅;
  session_id := "6d1b722e";
  session_data := {["token" := PyStr sample_backend_token]};
  session_locked := true;
  session_cache := ∅;
  session_timeout := sessions_timeout;
  config_debug := false;
  saltopts := PyDict ∅;
  log := [];
  trace := []
|}.

(** A [POST] without a body, as it arrives: the length declared is zero
    and nothing has been decoded yet. *)
Definition sample_empty_post : Serving := {|
  request_method := "POST";
  request_path_info := "/";
  request_headers :=
    <["Content-Type" := "application/json"]>
      (<["Content-Length" := "0"]> (<["Accept" := "application/json"]> ∅));
  request_accept :=
    [{| ae_value := "application/json"; ae_qvalue_positive := true |}];
  request_body := "";
  request_process_request_body := true;
  request_unserialized_data := None;
  request_lowstate := None;
  response_status := 200;
  response_headers := ∅;
  response_processors := ∅;
  session_id := "6d1b722e";
  session_data := {["token" := PyStr sample_backend_token]};
  session_locked := true;
  session_cache := ∅;
  session_timeout := sessions_timeout;
  config_debug := false;
  saltopts := PyDict ∅;
  log := [];
  trace := []
|}.

(** Two events of the bus: the return of a job whose payload holds the
    byte 0xff, which no UTF-8 text contains, and an event that is plain
    ASCII. *)
Definition sample_unsafe_event : PyVal :=
  PyDict (<["tag" := PyStr "salt/job/20140112010149808995/ret/jerry"]>
            (<["data" := PyDict
                 {["return" := PyStr (String (Ascii.ascii_of_nat 255) "")]}]>
               ∅)).

Definition sample_safe_event : PyVal :=
  PyDict (<["tag" := PyStr "salt/auth"]>
            (<["data" := PyDict {["id" := PyStr "jerry"]}]> ∅)).

(** The credentials of the sample user. *)
Definition sample_creds : PyVal :=
  PyDict (<["username" := PyStr "saltuser"]>
            (<["password" := PyStr "saltpass"]>
               (<["eauth" := PyStr "pam"]> ∅))).

(** A request as it arrives, with nothing decoded yet, in a session that
    holds a token and its lock. *)
Definition sample_arrival (method : string) (headers : gmap string string)
    (body : string) (opts : PyVal) : Serving := {|
  request_method := method;
  request_path_info := "/";
  request_headers := headers;
  request_accept :=
    [{| ae_value := "application/json"; ae_qvalue_positive := true |}];
  request_body := body;
  request_process_request_body := true;
  request_unserialized_data := None;
  request_lowstate := None;
  response_status := 200;
  response_headers := ∅;
  response_processors := ∅;
  session_id := "6d1b722e";
  session_data := {["token" := PyStr sample_backend_token]};
  session_locked := true;
  session_cache := ∅;
  session_timeout := sessions_timeout;
  config_debug := false;
  saltopts := opts;
  log := [];
  trace := []
|}.

Definition sample_json_headers (length : string) : gmap string string :=
  <["Content-Type" := "application/json; charset=UTF-8"]>
    (<["Content-Length" := length]> ∅).

(** A master configuration that admits two addresses. *)
Definition sample_restricted_opts : PyVal :=
  PyDict {["rest_cherrypy" :=
    PyDict (<["port" := PyInt 8000]>
              (<["authorized_ips" :=
                   PyList [PyStr "10.0.0.1"; PyStr "10.0.0.2"]]> ∅))]}.

(** The credentials of the sample user with a wrong password, and those of
    a user that the backend knows and the master configuration does not. *)
Definition sample_wrong_creds : PyVal :=
  PyDict (<["username" := PyStr "saltuser"]>
            (<["password" := PyStr "guess"]>
               (<["eauth" := PyStr "pam"]> ∅))).

Definition sample_stranger_creds : PyVal :=
  PyDict (<["username" := PyStr "mallory"]>
            (<["password" := PyStr "saltpass"]>
               (<["eauth" := PyStr "pam"]> ∅))).

(** The token that [sample_mk_token] hands to a user. *)
Definition sample_token (name : string) : gmap string PyVal :=
  <["token" := PyStr sample_backend_token]>
    (<["start" := PyFloat (1363805943 # 1)]>
       (<["expire" := PyFloat (1363849143 # 1)]>
          (<["name" := PyStr name]> (<["eauth" := PyStr "pam"]> ∅)))).

(** A descriptor that names no client, which the sample engine refuses. *)
Definition sample_clientless : gmap string PyVal :=
  <["tgt" := PyStr "*"]> (<["fun" := PyStr "test.ping"]> ∅).

(** A deployment whose encoder meets a value it has no rendering for, as
    [json.dumps] does with a date: the values here have no dates, and the
    key [_stamp] stands for one. *)
Definition sample_strict_dumps (v : PyVal) : Res string :=
  match py_contains "_stamp" v with
  | Ok true => Raise (TypeError "datetime.datetime is not JSON serializable")
  | _ => sample_dumps "" v
  end.

Definition sample_strict : Collaborators := {|
  api_run := sample_api_run;
  json_dumps := sample_strict_dumps;
  yaml_safe_dump := sample_dumps "--- ";
  json_loads := sample_loads;
  yaml_safe_load := sample_loads;
  process_urlencoded := sample_process_urlencoded;
  mk_token := sample_mk_token;
  get_tok := sample_get_tok;
  salt_info_process := sample_process;
  format_exc := fun _ => "Traceback (most recent call last): ...";
  str_nonstring := sample_encode
|}.

Definition sample_stamped_event : PyVal :=
  PyDict (<["tag" := PyStr "salt/auth"]> (<["_stamp" := PyNone]> ∅)).

(** An event of a minion whose id holds the byte 0xe9, an e with an acute
    accent in Latin-1, and so does its tag. *)
Definition sample_latin_event : PyVal :=
  PyDict (<["tag" :=
             PyStr ("salt/minion/caf" +:+ String (Ascii.ascii_of_nat 233) ""
                    +:+ "/start")]>
            (<["data" := PyDict {["id" := PyStr "jerry"]}]> ∅)).

(** An event bus that takes every event. *)
Definition sample_fire_event (data : PyVal) (tag : string) : Res PyVal :=
  Ok (PyBool true).

(** * Properties *)

Section ExecutorFacts.

Context `{Collaborators}.

Lemma calls_of_app (t1 t2 : list Ev) :
  calls_of (t1 ++ t2) = calls_of t1 ++ calls_of t2.
Proof.
  induction t1 as [|e t1 IH]; [reflexivity|].
  destruct e; simpl; rewrite IH; reflexivity.
Qed.

Lemma calls_of_yields (vs : list PyVal) : calls_of (map EvYield vs) = [].
Proof. induction vs; simpl; auto. Qed.

Lemma calls_of_block (chunk : PyVal) (r : EngineRet) :
  calls_of (block chunk r) = [chunk].
Proof. unfold block. simpl. rewrite calls_of_yields. reflexivity. Qed.

Lemma with_fixed_lookup (key : string) (fixed : PyVal) (d : gmap string PyVal)
    (k : string) :
  with_fixed key fixed d !! k =
    if decide (key = k) then (if py_truthy fixed then Some fixed else d !! k)
    else d !! k.
Proof.
  unfold with_fixed. destruct (py_truthy fixed).
  - rewrite lookup_insert. reflexivity.
  - destruct (decide (key = k)); reflexivity.
Qed.

Lemma arg_normalized_lookup (d : gmap string PyVal) (k : string) :
  arg_normalized d !! k =
    if decide ("arg" = k) then as_sequence <$> d !! "arg" else d !! k.
Proof.
  unfold arg_normalized. destruct (d !! "arg") as [a|] eqn:Ha.
  - rewrite lookup_insert. destruct (decide ("arg" = k)); reflexivity.
  - destruct (decide ("arg" = k)) as [<-|]; [|reflexivity].
    rewrite Ha. reflexivity.
Qed.

(** The additions of the code to a dict are those of [annotated]. *)
Lemma prepare_chunk_dict (client token : PyVal) (d : gmap string PyVal) :
  prepare_chunk client token (PyDict d)
  = Ok (PyDict (annotated client token d)).
Proof.
  unfold prepare_chunk, annotated, arg_normalized.
  change (if py_truthy token then py_setitem (PyDict d) "token" token
          else Ok (PyDict d))
    with (if py_truthy token then Ok (PyDict (<["token" := token]> d))
          else Ok (PyDict d)).
  replace (if py_truthy token then Ok (PyDict (<["token" := token]> d))
           else Ok (PyDict d))
    with (Ok (PyDict (with_fixed "token" token d)))
    by (unfold with_fixed; destruct (py_truthy token); reflexivity).
  cbn [res_bind].
  set (d1 := with_fixed "token" token d).
  replace (if py_truthy client then py_setitem (PyDict d1) "client" client
           else Ok (PyDict d1))
    with (Ok (PyDict (with_fixed "client" client d1)))
    by (unfold with_fixed; destruct (py_truthy client); reflexivity).
  cbn [res_bind py_contains].
  set (d2 := with_fixed "client" client d1).
  destruct (d2 !! "arg") as [a|] eqn:Ha.
  - rewrite bool_decide_eq_true_2 by eauto.
    cbn [py_getitem]. rewrite Ha. cbn [res_bind].
    unfold as_sequence. destruct (isinstance_list a).
    + rewrite insert_id by exact Ha. reflexivity.
    + reflexivity.
  - rewrite bool_decide_eq_false_2 by (intros [? ?]; discriminate).
    reflexivity.
Qed.

Lemma run_chunk_unfold (chunk : PyVal) (s : Serving) :
  run_chunk chunk s =
    let s1 := set_trace (trace s ++ [EvRun chunk]) s in
    match api_run (calls_of (trace s)) chunk with
    | Raise e => (Raise e, s1)
    | Ok (RetValue v) => (Ok [v], set_trace (trace s1 ++ [EvYield v]) s1)
    | Ok (RetIterator items failure) =>
        (match failure with
         | None => Ok items
         | Some e => Raise e
         end, set_trace (trace s1 ++ map EvYield items) s1)
    end.
Proof.
  unfold run_chunk, bind, gets, emit, emit_all, modify, lift, ret, raise.
  cbn.
  destruct (api_run (calls_of (trace s)) chunk) as [[v|items [e|]]|e];
    reflexivity.
Qed.

(** When the engine answers, a chunk leaves its block in the trace. *)
Lemma run_chunk_replied (chunk : PyVal) (r : EngineRet) (s : Serving) :
  api_run (calls_of (trace s)) chunk = Ok r ->
  iterator_failure r = None ->
  run_chunk chunk s = (Ok (yields_of r), set_trace (trace s ++ block chunk r) s).
Proof.
  intros Hr Hf. rewrite run_chunk_unfold, Hr. cbn.
  destruct r as [v|items failure]; cbn in *.
  - rewrite <- app_assoc. reflexivity.
  - subst failure. rewrite <- app_assoc. reflexivity.
Qed.

(** In every case the engine has been called on the chunk, once. *)
Lemma run_chunk_calls (chunk : PyVal) (s : Serving) :
  calls_of (trace (run_chunk chunk s).2) = calls_of (trace s) ++ [chunk].
Proof.
  rewrite run_chunk_unfold. cbn.
  destruct (api_run (calls_of (trace s)) chunk) as [[v|items failure]|e]; cbn;
    rewrite ?calls_of_app; cbn; rewrite ?calls_of_yields, ?app_nil_r;
    reflexivity.
Qed.

Lemma exec_chunks_replied (client token : PyVal) (ds : list (gmap string PyVal))
    (rets : list EngineRet) (s : Serving) :
  let prepared := map (fun d => PyDict (annotated client token d)) ds in
  engine_replies (calls_of (trace s)) prepared rets ->
  exec_chunks client token (map PyDict ds) s
  = (Ok (concat (map yields_of rets)),
     set_trace (trace s ++ concat (zip_with block prepared rets)) s).
Proof.
  cbn zeta. revert rets s.
  induction ds as [|d ds IH]; intros rets s Hrep.
  - inversion Hrep; subst. cbn. rewrite app_nil_r.
    unfold ret. destruct s; reflexivity.
  - cbn [map] in Hrep. inversion Hrep as [|h c cs r rs Hr Hf Hrest]; subst.
    cbn [map exec_chunks]. unfold bind at 1, lift at 1.
    rewrite prepare_chunk_dict.
    unfold bind at 1.
    rewrite (run_chunk_replied _ r s Hr Hf).
    unfold bind at 1.
    rewrite (IH rs).
    + unfold ret. cbn. rewrite <- app_assoc. reflexivity.
    + cbn. rewrite calls_of_app, calls_of_block. exact Hrest.
Qed.


End ExecutorFacts.

Section ExecutorClaims.

Context `{Collaborators}.

Lemma exec_lowstate_unfold (client token lowstate : PyVal) (s : Serving) :
  request_lowstate s = Some lowstate ->
  exec_lowstate client token s =
    match lowstate with
    | PyList chunks => exec_chunks client token chunks
    | _ => raise (HTTPError 400 "Lowstates must be a list")
    end (set_trace (trace s ++ [EvReleaseLock]) (set_session_locked false s)).
Proof.
  intros Hlow.
  unfold exec_lowstate, exec_lowstate_in, session_release_lock, bind, getattr.
  rewrite Hlow. reflexivity.
Qed.

Lemma annotated_lookup (client token : PyVal) (d : gmap string PyVal) :
  annotated client token d !! "token"
    = (if py_truthy token then Some token else d !! "token") /\
  annotated client token d !! "client"
    = (if py_truthy client then Some client else d !! "client") /\
  annotated client token d !! "arg" = as_sequence <$> d !! "arg" /\
  (forall k : string, k <> "token" -> k <> "client" -> k <> "arg" ->
     annotated client token d !! k = d !! k).
Proof.
  unfold annotated. repeat split.
  - rewrite arg_normalized_lookup, !with_fixed_lookup. cbn.
    destruct (py_truthy token); reflexivity.
  - rewrite arg_normalized_lookup, !with_fixed_lookup. cbn.
    destruct (py_truthy client); reflexivity.
  - rewrite arg_normalized_lookup, !with_fixed_lookup. reflexivity.
  - intros k Ht Hc Ha.
    rewrite arg_normalized_lookup, !with_fixed_lookup.
    repeat (destruct (decide _) as [E|_]; [symmetry in E; contradiction|]).
    reflexivity.
Qed.



End ExecutorClaims.

Section NegotiatorClaims.

Context `{Collaborators}.

Lemma find_none_existsb {A} (f : A -> bool) (l : list A) :
  existsb f l = false -> List.find f l = None.
Proof.
  induction l as [|x l IH]; cbn; [reflexivity|].
  destruct (f x); cbn; [discriminate|exact IH].
Qed.

Lemma accept_ranges_unmatched (media : list string)
    (ranges : list AcceptElement) :
  Forall (fun e => range_matches media e = false) ranges ->
  accept_ranges ranges media = None.
Proof.
  induction 1 as [|e ranges He _ IH]; cbn; [reflexivity|].
  unfold range_matches in He.
  destruct (ae_qvalue_positive e); cbn in He; [|exact IH].
  apply orb_false_iff in He as [He Hexact].
  apply orb_false_iff in He as [Hstar Hsub].
  rewrite Hstar.
  destruct (ends_with "/*" (ae_value e)); cbn in Hsub.
  - rewrite (find_none_existsb _ _ Hsub). exact IH.
  - rewrite Hexact. exact IH.
Qed.

Lemma accept_unmatched (s : Serving) :
  request_accept s <> [] ->
  Forall (fun e => range_matches supported_media e = false) (request_accept s) ->
  exists msg, accept supported_media s = (Raise (HTTPError 406 msg), s).
Proof.
  intros Hne Hall. unfold accept, bind, gets.
  destruct (request_accept s) as [|e ranges] eqn:Hr; [contradiction|].
  rewrite (accept_ranges_unmatched _ _ Hall). eexists. reflexivity.
Qed.

Lemma accept_negotiated (best : string) (s : Serving) :
  negotiated supported_media (request_accept s) = Some best ->
  accept supported_media s = (Ok best, s).
Proof.
  unfold negotiated, accept, bind, gets.
  destruct (request_accept s) as [|e ranges].
  - cbn. intros [= <-]. reflexivity.
  - intros ->. reflexivity.
Qed.

Lemma negotiate_unmatched (v : PyVal) (s : Serving) :
  request_accept s <> [] ->
  Forall (fun e => range_matches supported_media e = false) (request_accept s) ->
  exists msg, negotiate v s = (Raise (HTTPError 406 msg), s).
Proof.
  intros Hne Hall. destruct (accept_unmatched s Hne Hall) as [msg Hmsg].
  exists msg. unfold negotiate, bind.
  change (map fst ct_out_map) with supported_media. rewrite Hmsg.
  reflexivity.
Qed.

Lemma negotiate_negotiated (v : PyVal) (best : string) (out : Serializer)
    (s : Serving) :
  negotiated supported_media (request_accept s) = Some best ->
  response_processors s !! best = Some out ->
  negotiate v s
  = (run_serializer out v,
     set_trace (trace s ++ [EvSerialize best v])
       (set_response_headers (<["Content-Type" := best]> (response_headers s))
          s)).
Proof.
  intros Hbest Hout. unfold negotiate, bind.
  change (map fst ct_out_map) with supported_media.
  rewrite (accept_negotiated _ _ Hbest).
  unfold set_response_header, modify, gets, emit, lift. cbn.
  rewrite Hout. reflexivity.
Qed.

Lemma guarded_handler_unfold (inner : M PyVal) (s s1 : Serving)
    (r : Res PyVal) :
  inner (set_response_processors (list_to_map ct_out_map) s) = (r, s1) ->
  guarded_handler inner s =
    match r with
    | Ok v => (Ok v, s1)
    | Raise exc =>
        if is_EauthAuthenticationError exc
        then (Raise (InternalRedirect "/login"), s1)
        else if is_CherryPyException exc then (Raise exc, s1)
        else (Ok (error_envelope 500
                    (if config_debug s1 then format_exc exc
                     else "An unexpected error occurred")),
              set_response_status 500
                (set_log
                   (log s1 ++ [{| log_level := "debug";
                                  log_message :=
                                    "Error while processing request for: %s";
                                  log_args := [PyStr (request_path_info s1)];
                                  log_exc_info := Some exc |}]) s1))
    end.
Proof.
  intros Hin. unfold guarded_handler, bind at 1, modify at 1. rewrite Hin.
  destruct r as [v|exc]; [reflexivity|].
  destruct (is_EauthAuthenticationError exc); [reflexivity|].
  destruct (is_CherryPyException exc); reflexivity.
Qed.

(** C7. What the handler raises, CherryPy's own exceptions apart: an eauth
    error leaves [hypermedia_handler] as an internal redirect to [/login],
    and nothing is written for the client; any other exception sets the
    status to 500, is logged with the exception attached, and is replaced
    by the result [{status: 500, return: text}], where [text] is the fixed
    message ["An unexpected error occurred"] unless [debug] is configured,
    in which case it is the traceback. This result is what the negotiator
    then transforms for the client. *)
Theorem handler_exception_normalised (inner : M PyVal) (exc : PyExc)
    (s s1 : Serving) :
  inner (set_response_processors (list_to_map ct_out_map) s) = (Raise exc, s1) ->
  is_CherryPyException exc = false ->
  if is_EauthAuthenticationError exc then
    hypermedia_handler inner s = (Raise (InternalRedirect "/login"), s1)
  else
    let text := if config_debug s1 then format_exc exc
                else "An unexpected error occurred" in
    let logged :=
      {| log_level := "debug";
         log_message := "Error while processing request for: %s";
         log_args := [PyStr (request_path_info s1)];
         log_exc_info := Some exc |} in
    let s2 := set_response_status 500 (set_log (log s1 ++ [logged]) s1) in
    guarded_handler inner s = (Ok (error_envelope 500 text), s2) /\
    hypermedia_handler inner s = negotiate (error_envelope 500 text) s2 /\
    (config_debug s1 = false -> text = "An unexpected error occurred") /\
    (forall best out,
       negotiated supported_media (request_accept s1) = Some best ->
       response_processors s1 !! best = Some out ->
       hypermedia_handler inner s
       = (run_serializer out (error_envelope 500 text),
          set_trace (trace s1 ++ [EvSerialize best (error_envelope 500 text)])
            (set_response_headers
               (<["Content-Type" := best]> (response_headers s1)) s2))).
Proof.
  intros Hin Hcp.
  pose proof (guarded_handler_unfold inner s s1 _ Hin) as Hg.
  cbn in Hg. rewrite Hcp in Hg.
  destruct (is_EauthAuthenticationError exc).
  - unfold hypermedia_handler, bind. rewrite Hg. reflexivity.
  - cbn zeta. split; [exact Hg|]. split; [|split].
    + unfold hypermedia_handler, bind. rewrite Hg. reflexivity.
    + intros ->. reflexivity.
    + intros best out Hbest Hout.
      unfold hypermedia_handler, bind at 1. rewrite Hg.
      rewrite (negotiate_negotiated _ best out); [reflexivity| |];
        cbn; assumption.
Qed.

(** C3, as the code has it. When no range of the [Accept] header is met by
    a supported media type, a handler that returns, or that raises
    anything but an eauth error or an exception of CherryPy, ends in
    [HTTPError] 406: the error is raised by [accept] before the output
    transformation, so that no serializer is called and no [Content-Type]
    is set, and it leaves [hypermedia_handler] as an exception for
    CherryPy to render. An exception of CherryPy that the handler raises
    goes through as it is, and an eauth error becomes the redirect to
    [/login]. *)
Theorem unsupported_accept_raises_406 (inner : M PyVal) (s s1 : Serving)
    (r : Res PyVal) :
  inner (set_response_processors (list_to_map ct_out_map) s) = (r, s1) ->
  request_accept s1 <> [] ->
  Forall (fun e => range_matches supported_media e = false)
    (request_accept s1) ->
  match r with
  | Ok _ =>
      exists msg, hypermedia_handler inner s = (Raise (HTTPError 406 msg), s1)
  | Raise exc =>
      if is_EauthAuthenticationError exc then
        hypermedia_handler inner s = (Raise (InternalRedirect "/login"), s1)
      else if is_CherryPyException exc then
        hypermedia_handler inner s = (Raise exc, s1)
      else
        exists msg s2,
          hypermedia_handler inner s = (Raise (HTTPError 406 msg), s2) /\
          trace s2 = trace s1 /\
          response_headers s2 = response_headers s1 /\
          response_status s2 = 500
  end.
Proof.
  intros Hin Hne Hall.
  pose proof (guarded_handler_unfold inner s s1 _ Hin) as Hg.
  unfold hypermedia_handler, bind. rewrite Hg.
  destruct r as [v|exc].
  - destruct (negotiate_unmatched v s1 Hne Hall) as [msg Hmsg].
    exists msg. exact Hmsg.
  - destruct (is_EauthAuthenticationError exc); [reflexivity|].
    destruct (is_CherryPyException exc); [reflexivity|].
    match goal with
    | |- context [negotiate ?v ?s2] =>
        destruct (negotiate_unmatched v s2 Hne Hall) as [msg Hmsg];
        exists msg, s2; rewrite Hmsg
    end.
    repeat split.
Qed.

End NegotiatorClaims.

Section DecoderFacts.

Context `{Collaborators}.

(** A [POST] that declares no content: the body is not decoded, nothing
    sets [unserialized_data], and [lowdata_fmt] fails on reading it. *)
Lemma decode_request_empty_post (s : Serving) :
  upper (request_method s) = "POST" ->
  default "0" (request_headers s !! "Content-Length") = "0" ->
  request_unserialized_data s = None ->
  decode_request s
  = (Raise (AttributeError "unserialized_data"),
     set_request_process_request_body false s).
Proof.
  intros Hm Hlen Hdata.
  unfold decode_request, hypermedia_in, body_process, lowdata_fmt.
  unfold bind, gets, modify, getattr. rewrite Hm, Hlen. cbn.
  rewrite Hm. cbn. rewrite Hdata. reflexivity.
Qed.

(** X8. [lowdata_fmt] compares the whole header with the media type. A form
    whose [Content-Type] carries a parameter is still given to
    [urlencoded_processor], which goes by the media type alone, but its
    mapping becomes the lowstate as it is, not a batch of one. *)
Lemma lowdata_fmt_form_with_parameter (data : PyVal) (content_type : string)
    (s : Serving) :
  upper (request_method s) = "POST" ->
  request_unserialized_data s = Some data ->
  request_headers s !! "Content-Type" = Some content_type ->
  content_type <> "application/x-www-form-urlencoded" ->
  content_type_value content_type = "application/x-www-form-urlencoded" ->
  ct_in_map (content_type_value content_type) = Some urlencoded_processor /\
  lowdata_fmt s = (Ok tt, set_request_lowstate (Some data) s).
Proof.
  intros Hm Hd Hct Hne Hval. split; [rewrite Hval; reflexivity|].
  unfold lowdata_fmt, bind, gets, getattr. rewrite Hm. cbn.
  rewrite Hd. cbn. rewrite Hct. cbn.
  destruct (String.eqb_spec content_type "application/x-www-form-urlencoded")
    as [E|_]; [contradiction|]. reflexivity.
Qed.

Example content_type_value_charset :
  content_type_value "application/x-www-form-urlencoded; charset=UTF-8"
  = "application/x-www-form-urlencoded".
Proof. reflexivity. Qed.

End DecoderFacts.

Section StreamFacts.

Context `{Collaborators}.

(** The loop of the SSE stream stops at an event that [json.dumps] refuses:
    the line of the tag has left, the exception leaves the generator, and
    the events after it are not read. *)
Lemma listen_loop_unsafe (data tag : PyVal) (rest : list PyVal)
    (detail : string) (s : Serving) :
  py_get data "tag" (PyStr "") = Ok tag ->
  is_ascii (py_format tag) = true ->
  json_dumps data = Raise (UnicodeDecodeError detail) ->
  listen_loop (data :: rest) s
  = (Raise (UnicodeDecodeError detail),
     set_trace (trace s ++ [EvSend ("tag: " +:+ py_format tag +:+ nl)]) s).
Proof.
  intros Htag Hascii Hdumps. cbn [listen_loop].
  unfold bind, lift, emit, modify, py_uformat.
  rewrite Htag, Hascii, Hdumps. reflexivity.
Qed.

(** The loop of the WebSocket stream logs such an event and goes on with
    the next. *)
Lemma event_stream_loop_unsafe (salt_token data : PyVal) (rest : list PyVal)
    (detail : string) (s : Serving) :
  py_truthy data = true ->
  json_dumps data = Raise (UnicodeDecodeError detail) ->
  event_stream_loop false salt_token (data :: rest) s
  = event_stream_loop false salt_token rest
      (set_trace (trace s ++ [EvSleep])
         (set_log
            (log s ++ [{| log_level := "error";
                          log_message :=
                            "Error: Salt event has non UTF-8 data:\n{0}";
                          log_args := [data];
                          log_exc_info := None |}]) s)).
Proof.
  intros Htrue Hdumps. cbn [event_stream_loop]. rewrite Htrue.
  unfold bind at 1. unfold bind at 1. unfold deliver.
  unfold bind at 1, lift at 1. rewrite Hdumps.
  reflexivity.
Qed.

Lemma sent_app (t1 t2 : list Ev) : sent (t1 ++ t2) = sent t1 ++ sent t2.
Proof.
  induction t1 as [|e t1 IH]; [reflexivity|].
  destruct e; cbn; rewrite IH; reflexivity.
Qed.

Lemma event_stream_loop_encoded (salt_token data : PyVal)
    (rest : list PyVal) (encoded : string) (s : Serving) :
  py_truthy data = true ->
  json_dumps data = Ok encoded ->
  event_stream_loop false salt_token (data :: rest) s
  = event_stream_loop false salt_token rest
      (set_trace
         (trace s ++ [EvSend ("data: " +:+ encoded +:+ nl +:+ nl); EvSleep])
         s).
Proof.
  intros Htrue Hdumps. cbn [event_stream_loop]. rewrite Htrue.
  unfold bind at 1. unfold bind at 1. unfold deliver.
  unfold bind at 1, lift at 1. rewrite Hdumps.
  unfold emit, modify. cbn [fst snd trace set_trace].
  rewrite <- app_assoc. reflexivity.
Qed.

Lemma event_stream_loop_empty_event (salt_token data : PyVal)
    (rest : list PyVal) (s : Serving) :
  py_truthy data = false ->
  event_stream_loop false salt_token (data :: rest) s
  = event_stream_loop false salt_token rest
      (set_trace (trace s ++ [EvSleep]) s).
Proof.
  intros Hfalse. cbn [event_stream_loop]. rewrite Hfalse. reflexivity.
Qed.

(** X15. As long as [json.dumps] fails with nothing but [UnicodeDecodeError],
    the loop of the WebSocket stream gets through any run of events and
    sends the frame of every event it could encode. *)
Lemma event_stream_loop_delivers (salt_token : PyVal) (events : list PyVal)
    (s : Serving) :
  Forall (fun data => forall exc, json_dumps data = Raise exc ->
                      exists detail, exc = UnicodeDecodeError detail) events ->
  (event_stream_loop false salt_token events s).1 = Ok tt /\
  sent (trace (event_stream_loop false salt_token events s).2)
  = sent (trace s) ++ websocket_frames events.
Proof.
  intros Hall. revert s.
  induction Hall as [|data events Hdata _ IH]; intros s.
  - cbn. rewrite app_nil_r. auto.
  - cbn [websocket_frames flat_map]. fold (websocket_frames events).
    destruct (py_truthy data) eqn:Htrue.
    + destruct (json_dumps data) as [encoded|exc] eqn:Hdumps.
      * rewrite (event_stream_loop_encoded _ _ _ _ _ Htrue Hdumps).
        match goal with
        | |- context [event_stream_loop false salt_token events ?s1] =>
            destruct (IH s1) as [Hok Hsent]
        end.
        split; [exact Hok|]. rewrite Hsent.
        cbn [trace set_trace]. rewrite sent_app. cbn [sent].
        rewrite <- app_assoc. reflexivity.
      * destruct (Hdata exc eq_refl) as [detail ->].
        rewrite (event_stream_loop_unsafe _ _ _ _ _ Htrue Hdumps).
        match goal with
        | |- context [event_stream_loop false salt_token events ?s1] =>
            destruct (IH s1) as [Hok Hsent]
        end.
        split; [exact Hok|]. rewrite Hsent.
        cbn [trace set_trace set_log]. rewrite sent_app. cbn [sent].
        rewrite app_nil_r. reflexivity.
    + rewrite (event_stream_loop_empty_event _ _ _ _ Htrue).
      match goal with
      | |- context [event_stream_loop false salt_token events ?s1] =>
          destruct (IH s1) as [Hok Hsent]
      end.
      split; [exact Hok|]. rewrite Hsent.
      cbn [trace set_trace]. rewrite sent_app. cbn [sent].
      rewrite app_nil_r. reflexivity.
Qed.

End StreamFacts.

(** C5, on the code: a [POST] of length zero is not decoded, but it does
    not give an empty batch either. [hypermedia_in] switches the decoding
    off, so that [unserialized_data] is never set, and [lowdata_fmt]
    raises [AttributeError] on reading it; the lowstate stays unset. *)
Theorem empty_post_attribute_error :
  decode_request (H := sample) sample_empty_post
  = (Raise (AttributeError "unserialized_data"),
     set_request_process_request_body false sample_empty_post) /\
  request_unserialized_data
    (decode_request (H := sample) sample_empty_post).2 = None /\
  request_lowstate (decode_request (H := sample) sample_empty_post).2 = None.
Proof.
  rewrite (decode_request_empty_post (H := sample) sample_empty_post)
    by reflexivity.
  repeat split.
Qed.

(** C9, on the code: the SSE stream of [/events] has no handler for
    [UnicodeDecodeError]. On an event whose payload is not UTF-8 the
    generator ends with the exception after the line of the tag, nothing
    is logged, and the next event is never sent; the WebSocket stream of
    [/ws], given the same two events, logs the first and sends the
    second. *)
Theorem sse_stream_ends_on_unsafe_event :
  let events := [sample_unsafe_event; sample_safe_event] in
  let sse := Events_GET_stream (H := sample) PyNone events
               (sample_serving None) in
  let ws := WebsocketEndpoint_GET_stream (H := sample) PyNone false events
              (sample_serving None) in
  sse.1 = Raise (UnicodeDecodeError "'utf8' codec can't decode byte") /\
  sent (trace sse.2)
  = ["retry: 400" +:+ nl;
     "tag: salt/job/20140112010149808995/ret/jerry" +:+ nl] /\
  log sse.2 = [] /\
  ws.1 = Ok tt /\
  sent (trace ws.2)
  = ["data: " +:+ sample_encode sample_safe_event +:+ nl +:+ nl] /\
  map log_level (log ws.2) = ["error"].
Proof.
  vm_compute. repeat split.
Qed.

(** C6, on the code: [lowdata_fmt] takes a request for a form only when
    its [Content-Type] is the bare media type. The sample form sent with
    a [charset] parameter is still parsed as a form, by the processor
    that CherryPy finds under the media type, but its mapping becomes the
    lowstate as it is: not a batch of one, its scalar [arg] not made a
    list; [LowDataAdapter.POST] then refuses it with [HTTPError] 400 and
    the engine is not called. The same body under the bare media type is
    wrapped, its [arg] is made a list, and the engine answers. *)
Theorem form_with_parameter_not_wrapped :
  let content_type := "application/x-www-form-urlencoded; charset=UTF-8" in
  let s :=
    sample_arrival "POST"
      (<["Content-Type" := content_type]> (<["Content-Length" := "45"]> ∅))
      sample_form_body (PyDict ∅) in
  let post :=
    decode_request (H := sample) >> LowDataAdapter_POST (H := sample) in
  ct_in_map (content_type_value content_type) = Some urlencoded_processor /\
  process_urlencoded (Collaborators := sample) sample_form_body
  = Ok (PyDict sample_ping) /\
  sample_ping !! "arg" = Some (PyStr "one=1") /\
  (decode_request (H := sample) s).1 = Ok tt /\
  request_lowstate (decode_request (H := sample) s).2
  = Some (PyDict sample_ping) /\
  (post s).1 = Raise (HTTPError 400 "Lowstates must be a list") /\
  calls_of (trace (post s).2) = [] /\
  request_lowstate (decode_request (H := sample) sample_form_serving).2
  = Some (PyList [PyDict (<["arg" := PyList [PyStr "one=1"]]> sample_ping)]) /\
  (post sample_form_serving).1
  = Ok (PyDict {["return" :=
          PyList [PyDict (<["ms-0" := PyBool true]>
                            (<["ms-1" := PyBool true]> ∅))]]}).
Proof.
  vm_compute. repeat split.
Qed.

Section MinionsClaims.

Context `{Collaborators}.

Lemma job_ids_cons (i : PyVal) (job_data : list PyVal) :
  job_ids (i :: job_data) =
    if py_truthy i then
      match py_getitem i "jid" with
      | Ok jid => jid :: job_ids job_data
      | Raise _ => job_ids job_data
      end
    else job_ids job_data.
Proof.
  unfold job_ids. cbn [omap list_omap].
  destruct (py_truthy i); [|reflexivity].
  destruct (py_getitem i "jid"); reflexivity.
Qed.

Lemma job_links_ids (job_data : list PyVal) :
  Forall (fun i => py_truthy i = true ->
                   exists jid, py_getitem i "jid" = Ok jid) job_data ->
  job_links job_data = Ok (map job_href (job_ids job_data)).
Proof.
  induction 1 as [|i job_data Hi _ IH]; [reflexivity|].
  rewrite job_ids_cons. cbn [job_links].
  destruct (py_truthy i) eqn:Ht.
  - destruct (Hi eq_refl) as [jid Hjid]. rewrite Hjid. cbn [res_bind].
    rewrite IH. reflexivity.
  - exact IH.
Qed.

(** C8. A [POST] to [/minions] in a session that holds a token: every
    descriptor goes to the engine with [client] set to ['local_async'];
    when the engine answers, the status of the response is 202, [return]
    is the list of the answers, and [_links.jobs] has one entry
    [{href: '/jobs/' + jid}] for the job id of each answer that is true,
    in the order of the answers. *)
Theorem minions_post_accepted (ds : list (gmap string PyVal))
    (rets : list EngineRet) (token : PyVal) (s : Serving) :
  session_data s !! "token" = Some token ->
  request_lowstate s = Some (PyList (map PyDict ds)) ->
  let prepared :=
    map (fun d => PyDict (annotated (PyStr "local_async") token d)) ds in
  let job_data := concat (map yields_of rets) in
  engine_replies (calls_of (trace s)) prepared rets ->
  Forall (fun i => py_truthy i = true ->
                   exists jid, py_getitem i "jid" = Ok jid) job_data ->
  (forall d, annotated (PyStr "local_async") token d !! "client"
             = Some (PyStr "local_async")) /\
  (forall jid : string,
     job_href (PyStr jid) = PyDict {["href" := PyStr ("/jobs/" +:+ jid)]}) /\
  let final := (Minions_POST s).2 in
  (Minions_POST s).1
  = Ok (PyDict (<["return" := PyList job_data]>
          (<["_links" :=
               PyDict {["jobs" := PyList (map job_href (job_ids job_data))]}]>
             ∅))) /\
  response_status final = 202 /\
  calls_of (trace final) = calls_of (trace s) ++ prepared.
Proof.
  intros Htok Hlow prepared job_data Hrep Hjobs.
  split; [|split].
  - intros d. destruct (annotated_lookup (PyStr "local_async") token d)
      as (_ & Hc & _). exact Hc.
  - reflexivity.
  - assert (Hrun : Minions_POST s
      = (Ok (PyDict (<["return" := PyList job_data]>
               (<["_links" :=
                    PyDict {["jobs" :=
                      PyList (map job_href (job_ids job_data))]}]> ∅))),
         set_response_status 202
           (set_trace
              (trace s ++ EvReleaseLock :: concat (zip_with block prepared rets))
              (set_session_locked false s)))).
    { unfold Minions_POST, bind at 1, session_get, gets.
      unfold default_val. rewrite Htok.
      unfold bind at 1.
      rewrite (exec_lowstate_unfold _ _ _ _ Hlow).
      rewrite (exec_chunks_replied (PyStr "local_async") token ds rets).
      - unfold bind, modify, lift. fold job_data.
        rewrite (job_links_ids job_data Hjobs). cbn.
        rewrite <- app_assoc. reflexivity.
      - cbn. rewrite calls_of_app. cbn. rewrite app_nil_r. exact Hrep. }
    cbn zeta. rewrite Hrun. cbn. split; [reflexivity|].
    split; [reflexivity|].
    rewrite calls_of_app. cbn. f_equal.
    clear Hrun Hjobs job_data. subst prepared.
    remember (calls_of (trace s)) as history eqn:Hh. clear Hh.
    induction Hrep as [|history chunk chunks r rets' _ _ _ IH];
      [reflexivity|].
    cbn. rewrite calls_of_app, calls_of_yields. cbn. f_equal. exact IH.
Qed.

End MinionsClaims.

Section LoginClaims.

Context `{Collaborators}.

Lemma py_getitem_dict (d : gmap string PyVal) (k : string) (v : PyVal) :
  d !! k = Some v -> py_getitem (PyDict d) k = Ok v.
Proof. intros Hk. cbn. rewrite Hk. reflexivity. Qed.

(** The state of a login up to the look-up of the permissions. *)
Lemma Login_POST_to_perms (lowstate creds : PyVal) (t : gmap string PyVal)
    (backend_token expire start lifetime timeout : PyVal) (s : Serving) :
  request_lowstate s = Some lowstate ->
  credentials_of lowstate = Some creds ->
  mk_token creds = Ok (PyDict t) ->
  t !! "token" = Some backend_token ->
  t !! "expire" = Some expire ->
  t !! "start" = Some start ->
  py_sub expire start = Ok lifetime ->
  py_div lifetime (PyInt 60) = Ok timeout ->
  Login_POST s
  = bind (lookup_perms (PyDict t))
      (fun perms =>
         let* sid := gets session_id in
         let* expire' := lift (py_getitem (PyDict t) "expire") in
         let* start' := lift (py_getitem (PyDict t) "start") in
         let* name := lift (py_getitem (PyDict t) "name") in
         let* eauth := lift (py_getitem (PyDict t) "eauth") in
         ret (PyDict {["return" := PyList [PyDict
                (<["token" := PyStr sid]>
                   (<["expire" := expire']>
                      (<["start" := start']>
                         (<["user" := name]>
                            (<["eauth" := eauth]>
                               (<["perms" := perms]> ∅))))))]]}))
      (set_session_data
         (<["timeout" := timeout]>
            (<["token" := backend_token]> (session_data s)))
         (set_response_headers
            (<["X-Auth-Token" := session_id s]> (response_headers s)) s)).
Proof.
  intros Hlow Hcreds Hmk Htok Hexp Hstart Hsub Hdiv.
  unfold Login_POST, bind at 1, getattr. rewrite Hlow.
  unfold credentials_of in Hcreds.
  destruct lowstate as [| | | | |[|c l]|]; try discriminate;
    injection Hcreds as <-.
  all: unfold bind at 1, ret at 1.
  all: unfold bind at 1, lift at 1; rewrite Hmk.
  all: unfold bind at 1, lift at 1; cbn [py_contains].
  all: rewrite bool_decide_eq_true_2 by eauto; cbn [negb].
  all: unfold bind at 1, gets at 1.
  all: unfold bind at 1, set_response_header at 1, modify at 1.
  all: unfold bind at 1, lift at 1; rewrite (py_getitem_dict t _ _ Htok).
  all: unfold bind at 1, session_set at 1, modify at 1.
  all: unfold bind at 1, lift at 1; rewrite (py_getitem_dict t _ _ Hexp).
  all: unfold bind at 1, lift at 1; rewrite (py_getitem_dict t _ _ Hstart).
  all: unfold bind at 1, lift at 1; rewrite Hsub.
  all: unfold bind at 1, lift at 1; rewrite Hdiv.
  all: unfold bind at 1, session_set at 1, modify at 1.
  all: reflexivity.
Qed.

(** C10, as the code has it. A [POST] to [/login] that succeeds, with the
    credentials as the first element of a list or as the lowstate itself:
    the header [X-Auth-Token] and the [token] of the result are the id of
    the session; the token the eauth backend issued goes into the session
    under [token] and into nothing else of what the request changes; and
    the lifetime of that token divided by 60, which for the floats that
    the backend takes from the clock is [(expire - start) / 60], is put
    into the session as the item [timeout]. The idle timeout of the
    session is what it was. *)
Theorem login_token_is_session_id (lowstate creds : PyVal)
    (t : gmap string PyVal)
    (backend_token expire start name eauth lifetime timeout perms : PyVal)
    (external_auth backend : PyVal) (s : Serving) :
  request_lowstate s = Some lowstate ->
  credentials_of lowstate = Some creds ->
  mk_token creds = Ok (PyDict t) ->
  t !! "token" = Some backend_token ->
  t !! "expire" = Some expire ->
  t !! "start" = Some start ->
  t !! "name" = Some name ->
  t !! "eauth" = Some eauth ->
  py_sub expire start = Ok lifetime ->
  py_div lifetime (PyInt 60) = Ok timeout ->
  py_getitem (saltopts s) "external_auth" = Ok external_auth ->
  py_subscript external_auth eauth = Ok backend ->
  py_subscript backend name = Ok perms ->
  Login_POST s
  = (Ok (PyDict {["return" := PyList [PyDict
           (<["token" := PyStr (session_id s)]>
              (<["expire" := expire]>
                 (<["start" := start]>
                    (<["user" := name]>
                       (<["eauth" := eauth]>
                          (<["perms" := perms]> ∅))))))]]}),
     set_session_data
       (<["timeout" := timeout]>
          (<["token" := backend_token]> (session_data s)))
       (set_response_headers
          (<["X-Auth-Token" := session_id s]> (response_headers s)) s)) /\
  session_timeout (Login_POST s).2 = session_timeout s /\
  (forall e b : Q, expire = PyFloat e -> start = PyFloat b ->
     timeout = PyFloat ((e - b) / inject_Z 60)).
Proof.
  intros Hlow Hcreds Hmk Htok Hexp Hstart Hname Heauth Hsub Hdiv Hext Hback
    Hperms.
  assert (Hrun : Login_POST s
    = (Ok (PyDict {["return" := PyList [PyDict
             (<["token" := PyStr (session_id s)]>
                (<["expire" := expire]>
                   (<["start" := start]>
                      (<["user" := name]>
                         (<["eauth" := eauth]>
                            (<["perms" := perms]> ∅))))))]]}),
       set_session_data
         (<["timeout" := timeout]>
            (<["token" := backend_token]> (session_data s)))
         (set_response_headers
            (<["X-Auth-Token" := session_id s]> (response_headers s)) s))).
  { rewrite (Login_POST_to_perms lowstate creds t backend_token expire start
               lifetime timeout s Hlow Hcreds Hmk Htok Hexp Hstart Hsub Hdiv).
    unfold bind at 1. unfold lookup_perms, bind at 1, gets at 1.
    cbn [saltopts set_session_data set_response_headers].
    rewrite Hext. cbn [res_bind].
    rewrite (py_getitem_dict t _ _ Heauth). cbn [res_bind].
    rewrite Hback. cbn [res_bind].
    rewrite (py_getitem_dict t _ _ Hname). cbn [res_bind].
    rewrite Hperms.
    unfold ret at 1, bind, gets, lift, ret.
    rewrite (py_getitem_dict t _ _ Hexp). cbv beta iota.
    rewrite (py_getitem_dict t _ _ Hstart). reflexivity. }
  split; [exact Hrun|]. split.
  - rewrite Hrun. reflexivity.
  - intros e b -> ->. cbn in Hsub. injection Hsub as <-.
    cbn in Hdiv. injection Hdiv as <-. reflexivity.
Qed.

End LoginClaims.

Section LockFacts.

Context `{Collaborators}.

Lemma downstream_unlocked_free (t : list Ev) :
  downstream_unlocked false t = true.
Proof. induction t as [|e t IH]; [reflexivity|]. destruct e; exact IH. Qed.

Lemma quiet_ret {A} (a : A) : quiet (ret a).
Proof. intros s. reflexivity. Qed.

Lemma quiet_raise {A} (e : PyExc) : quiet (raise (A := A) e).
Proof. intros s. reflexivity. Qed.

Lemma quiet_lift {A} (r : Res A) : quiet (lift r).
Proof. intros s. reflexivity. Qed.

Lemma quiet_gets {A} (f : Serving -> A) : quiet (gets f).
Proof. intros s. reflexivity. Qed.

Lemma quiet_getattr {A} (name : string) (f : Serving -> option A) :
  quiet (getattr name f).
Proof. intros s. unfold getattr. destruct (f s); reflexivity. Qed.

Lemma quiet_modify (f : Serving -> Serving) :
  (forall s, trace (f s) = trace s) -> quiet (modify f).
Proof. intros Hf s. apply Hf. Qed.

Lemma quiet_bind {A B} (m : M A) (k : A -> M B) :
  quiet m -> (forall a, quiet (k a)) -> quiet (bind m k).
Proof.
  intros Hm Hk s. unfold bind. specialize (Hm s).
  destruct (m s) as [[a|e] s1]; cbn in *; [|exact Hm].
  rewrite (Hk a s1). exact Hm.
Qed.

Lemma appends_quiet {A} (m : M A) : quiet m -> appends m.
Proof. intros Hm s. exists []. rewrite app_nil_r. apply Hm. Qed.

Lemma appends_emit (e : Ev) : appends (emit e).
Proof. intros s. exists [e]. reflexivity. Qed.

Lemma appends_emit_all (es : list Ev) : appends (emit_all es).
Proof. intros s. exists es. reflexivity. Qed.

Lemma appends_bind {A B} (m : M A) (k : A -> M B) :
  appends m -> (forall a, appends (k a)) -> appends (bind m k).
Proof.
  intros Hm Hk s. unfold bind. destruct (Hm s) as [t Ht].
  destruct (m s) as [[a|e] s1]; cbn in *; [|exists t; exact Ht].
  destruct (Hk a s1) as [t' Ht']. exists (t ++ t').
  rewrite Ht', Ht, app_assoc. reflexivity.
Qed.

Lemma disciplined_quiet {A} (m : M A) :
  quiet m -> lock_released_before_downstream m.
Proof.
  intros Hm s. exists []. rewrite app_nil_r. split; [apply Hm|reflexivity].
Qed.

Lemma disciplined_after_quiet {A B} (m : M A) (k : A -> M B) :
  quiet m -> (forall a, lock_released_before_downstream (k a)) ->
  lock_released_before_downstream (bind m k).
Proof.
  intros Hm Hk s. unfold bind. specialize (Hm s).
  destruct (m s) as [[a|e] s1]; cbn in *.
  - destruct (Hk a s1) as (t & Ht & Hd). exists t. rewrite Ht, Hm. auto.
  - exists []. rewrite app_nil_r. auto.
Qed.

Lemma disciplined_before_quiet {A B} (m : M A) (k : A -> M B) :
  lock_released_before_downstream m -> (forall a, quiet (k a)) ->
  lock_released_before_downstream (bind m k).
Proof.
  intros Hm Hk s. unfold bind. destruct (Hm s) as (t & Ht & Hd).
  destruct (m s) as [[a|e] s1]; cbn in *.
  - exists t. rewrite (Hk a s1). auto.
  - exists t. auto.
Qed.

Lemma disciplined_after_release {A B} (m : M A) (k : A -> M B) :
  releases m -> (forall a, appends (k a)) ->
  lock_released_before_downstream (bind m k).
Proof.
  intros Hm Hk s. unfold bind. specialize (Hm s).
  destruct (m s) as [[a|e] s1]; cbn in *.
  - destruct Hm as [t Ht]. destruct (Hk a s1) as [t' Ht'].
    exists (EvReleaseLock :: t ++ t'). split.
    + rewrite Ht', Ht, <- app_assoc. reflexivity.
    + apply downstream_unlocked_free.
  - exists []. rewrite app_nil_r. auto.
Qed.

Lemma releases_release_lock : releases release_lock.
Proof. intros s. exists []. reflexivity. Qed.

Lemma releases_after_quiet {A B} (m : M A) (k : A -> M B) :
  quiet m -> (forall a, releases (k a)) -> releases (bind m k).
Proof.
  intros Hm Hk s. unfold bind. specialize (Hm s).
  destruct (m s) as [[a|e] s1]; cbn in *; [|exact Hm].
  specialize (Hk a s1). destruct ((k a s1).1); rewrite <- Hm; exact Hk.
Qed.

Lemma releases_before_appends {A B} (m : M A) (k : A -> M B) :
  releases m -> (forall a, appends (k a)) ->
  (forall a s, exists b, (k a s).1 = Ok b) ->
  releases (bind m k).
Proof.
  intros Hm Hk Hok s. unfold bind. specialize (Hm s).
  destruct (m s) as [[a|e] s1]; cbn in *; [|exact Hm].
  destruct Hm as [t Ht]. destruct (Hk a s1) as [t' Ht'].
  destruct (Hok a s1) as [b Hb]. rewrite Hb.
  exists (t ++ t'). rewrite Ht', Ht, <- app_assoc. reflexivity.
Qed.

Lemma releases_raise {A} (e : PyExc) : releases (raise (A := A) e).
Proof. intros s. reflexivity. Qed.

Lemma appends_run_chunk (chunk : PyVal) : appends (run_chunk chunk).
Proof.
  unfold run_chunk.
  apply appends_bind; [apply appends_quiet, quiet_gets|]. intros history.
  apply appends_bind; [apply appends_emit|]. intros _.
  apply appends_bind; [apply appends_quiet, quiet_lift|].
  intros [v|items failure].
  - apply appends_bind; [apply appends_emit|]. intros _.
    apply appends_quiet, quiet_ret.
  - apply appends_bind; [apply appends_emit_all|]. intros _.
    destruct failure; apply appends_quiet; [apply quiet_raise|apply quiet_ret].
Qed.

Lemma appends_exec_chunks (client token : PyVal) (chunks : list PyVal) :
  appends (exec_chunks client token chunks).
Proof.
  induction chunks as [|chunk chunks IH]; cbn [exec_chunks].
  - apply appends_quiet, quiet_ret.
  - apply appends_bind; [apply appends_quiet, quiet_lift|]. intros c.
    apply appends_bind; [apply appends_run_chunk|]. intros ys.
    apply appends_bind; [exact IH|]. intros zs.
    apply appends_quiet, quiet_ret.
Qed.

Lemma disciplined_exec_lowstate (client token : PyVal) :
  lock_released_before_downstream (exec_lowstate client token).
Proof.
  unfold exec_lowstate, exec_lowstate_in, session_release_lock.
  apply disciplined_after_quiet; [apply quiet_getattr|]. intros lowstate.
  apply disciplined_after_release; [apply releases_release_lock|]. intros _.
  destruct lowstate; try (apply appends_quiet, quiet_raise).
  apply appends_exec_chunks.
Qed.

Lemma quiet_session_get (key : string) : quiet (session_get key).
Proof. apply quiet_gets. Qed.

Lemma quiet_set_response_header (name value : string) :
  quiet (set_response_header name value).
Proof. apply quiet_modify. reflexivity. Qed.

Lemma appends_listen_loop (events : list PyVal) : appends (listen_loop events).
Proof.
  induction events as [|data events IH]; cbn [listen_loop].
  - apply appends_quiet, quiet_ret.
  - apply appends_bind; [apply appends_quiet, quiet_lift|]. intros tag.
    apply appends_bind; [apply appends_quiet, quiet_lift|]. intros tag_text.
    apply appends_bind; [apply appends_emit|]. intros _.
    apply appends_bind; [apply appends_quiet, quiet_lift|]. intros encoded.
    apply appends_bind; [apply appends_quiet, quiet_lift|].
    intros data_text.
    apply appends_bind; [apply appends_emit|]. intros _. exact IH.
Qed.

Lemma appends_listen (events : list PyVal) : appends (listen events).
Proof.
  unfold listen.
  repeat (apply appends_bind; [|intros _]);
    first [apply appends_emit | apply appends_listen_loop].
Qed.

Lemma appends_deliver (format_events : bool) (salt_token data : PyVal) :
  appends (deliver format_events salt_token data).
Proof.
  intros s. unfold deliver.
  match goal with
  | |- context [match ?m s with _ => _ end] =>
      assert (Hm : appends m); [|destruct (Hm s) as [t Ht]; destruct (m s)
        as [[[]|e] s1]]
  end.
  - destruct format_events.
    + destruct (salt_info_process data salt_token) as [frames failure].
      apply appends_bind; [apply appends_emit_all|]. intros _.
      destruct failure; apply appends_quiet;
        [apply quiet_raise|apply quiet_ret].
    + apply appends_bind; [apply appends_quiet, quiet_lift|]. intros encoded.
      apply appends_emit.
  - exists t. exact Ht.
  - destruct e; exists t; exact Ht.
Qed.

Lemma appends_event_stream_loop (format_events : bool) (salt_token : PyVal)
    (events : list PyVal) :
  appends (event_stream_loop format_events salt_token events).
Proof.
  induction events as [|data events IH]; cbn [event_stream_loop].
  - apply appends_quiet, quiet_ret.
  - apply appends_bind.
    + apply appends_bind.
      * destruct (py_truthy data);
          [apply appends_deliver|apply appends_quiet, quiet_ret].
      * intros _. apply appends_emit.
    + intros _. exact IH.
Qed.

Lemma appends_event_stream (format_events : bool) (salt_token : PyVal)
    (events : list PyVal) :
  appends (event_stream format_events salt_token events).
Proof.
  unfold event_stream.
  apply appends_bind.
  - apply appends_bind; [apply appends_emit|]. intros _. apply appends_emit.
  - intros _. apply appends_event_stream_loop.
Qed.

Lemma quiet_stream_salt_token (token : PyVal) : quiet (stream_salt_token token).
Proof.
  unfold stream_salt_token. destruct (py_truthy token).
  - apply quiet_bind; [apply quiet_gets|]. intros cache. apply quiet_ret.
  - apply quiet_session_get.
Qed.

Lemma quiet_token_refused (salt_token : PyVal) :
  quiet (token_refused salt_token).
Proof.
  unfold token_refused. destruct (py_truthy salt_token).
  - apply quiet_bind; [apply quiet_lift|]. intros found. apply quiet_ret.
  - apply quiet_ret.
Qed.

Lemma releases_Events_GET (token : PyVal) : releases (Events_GET token).
Proof.
  unfold Events_GET.
  apply releases_after_quiet; [apply quiet_stream_salt_token|].
  intros salt_token.
  apply releases_after_quiet; [apply quiet_token_refused|].
  intros [|]; [apply releases_raise|].
  intros s. cbn. exists []. reflexivity.
Qed.

Lemma releases_WebsocketEndpoint_GET (token : PyVal) :
  releases (WebsocketEndpoint_GET token).
Proof.
  unfold WebsocketEndpoint_GET.
  apply releases_after_quiet; [apply quiet_stream_salt_token|].
  intros salt_token.
  apply releases_after_quiet; [apply quiet_token_refused|].
  intros [|]; [apply releases_raise|].
  intros s. cbn. exists [EvSpawn]. rewrite <- app_assoc. reflexivity.
Qed.

(** C2. In the five requests that reach the engine or the event bus, the
    session lock is released before the first call of the engine and
    before the subscription: whatever the request, the engine and the
    events, the stretch of trace the request adds holds no [EvRun] and no
    [EvSubscribe] that is not behind an [EvReleaseLock], even when the
    request holds the lock when it starts. So none of these calls is made
    under the lock, and a second request of the same session does not
    wait on it for the time they take. *)
Theorem session_lock_released_before_downstream :
  lock_released_before_downstream LowDataAdapter_POST /\
  lock_released_before_downstream Minions_POST /\
  (forall jid, lock_released_before_downstream (Jobs_GET jid)) /\
  (forall token events,
     lock_released_before_downstream (Events_GET_stream token events)) /\
  (forall token format_events events,
     lock_released_before_downstream
       (WebsocketEndpoint_GET_stream token format_events events)).
Proof.
  split; [|split; [|split; [|split]]].
  - unfold LowDataAdapter_POST.
    apply disciplined_after_quiet; [apply quiet_session_get|]. intros token.
    apply disciplined_before_quiet; [apply disciplined_exec_lowstate|].
    intros results. apply quiet_ret.
  - unfold Minions_POST.
    apply disciplined_after_quiet; [apply quiet_session_get|]. intros token.
    apply disciplined_before_quiet; [apply disciplined_exec_lowstate|].
    intros job_data.
    apply quiet_bind; [apply quiet_modify; reflexivity|]. intros _.
    apply quiet_bind; [apply quiet_lift|]. intros jobs. apply quiet_ret.
  - intros jid. unfold Jobs_GET.
    apply disciplined_after_quiet; [apply quiet_modify; reflexivity|].
    intros _.
    apply disciplined_after_quiet; [apply quiet_session_get|]. intros token.
    apply disciplined_before_quiet; [apply disciplined_exec_lowstate|].
    intros job_ret_info.
    destruct (py_truthy jid).
    + destruct job_ret_info as [|job_ret [|job_info [|]]];
        first [apply quiet_ret | apply quiet_raise].
    + destruct job_ret_info; [apply quiet_raise|apply quiet_ret].
  - intros token events. unfold Events_GET_stream.
    apply disciplined_after_release; [apply releases_Events_GET|].
    intros _. apply appends_listen.
  - intros token format_events events. unfold WebsocketEndpoint_GET_stream.
    apply disciplined_after_release; [apply releases_WebsocketEndpoint_GET|].
    intros salt_token. apply appends_event_stream.
Qed.

End LockFacts.

(** ** The properties on the sample deployment *)



Lemma handler_exception_normalised_witness :
  let inner : M PyVal := raise (KeyError "jid") in
  let s := sample_serving None in
  let s1 := set_response_processors (list_to_map ct_out_map) s in
  inner s1 = (Raise (KeyError "jid"), s1) /\
  is_CherryPyException (KeyError "jid") = false /\
  guarded_handler (H := sample) inner s
  = (Ok (error_envelope 500 "An unexpected error occurred"),
     set_response_status 500
       (set_log
          [{| log_level := "debug";
              log_message := "Error while processing request for: %s";
              log_args := [PyStr "/"];
              log_exc_info := Some (KeyError "jid") |}] s1)).
Proof.
  intros inner s s1.
  split; [reflexivity|]. split; [reflexivity|].
  exact (proj1 (handler_exception_normalised (H := sample) inner
                  (KeyError "jid") s s1 eq_refl eq_refl)).
Defined.

Lemma unsupported_accept_raises_406_witness :
  let inner : M PyVal := ret (PyDict {["return" := PyStr "Welcome"]}) in
  let s := sample_html_serving in
  let s1 := set_response_processors (list_to_map ct_out_map) s in
  inner s1 = (Ok (PyDict {["return" := PyStr "Welcome"]}), s1) /\
  request_accept s1 <> [] /\
  Forall (fun e => range_matches supported_media e = false)
    (request_accept s1) /\
  exists msg,
    hypermedia_handler (H := sample) inner s = (Raise (HTTPError 406 msg), s1).
Proof.
  intros inner s s1.
  assert (Hne : request_accept s1 <> []) by discriminate.
  assert (Hall : Forall (fun e => range_matches supported_media e = false)
                   (request_accept s1))
    by (repeat constructor).
  split; [reflexivity|]. split; [exact Hne|]. split; [exact Hall|].
  exact (unsupported_accept_raises_406 (H := sample) inner s s1 _ eq_refl
           Hne Hall).
Defined.

(** C3 as it is written fails: a client that accepts only [text/html]
    posts a single mapping to [/]; the executor raises [HTTPError] 400,
    [hypermedia_handler] lets it through, and the answer is 400, not 406. *)
Lemma unsupported_accept_answer_400 :
  request_accept sample_html_serving <> [] /\
  Forall (fun e => range_matches supported_media e = false)
    (request_accept sample_html_serving) /\
  (hypermedia_handler (H := sample) (LowDataAdapter_POST (H := sample))
     sample_html_serving).1
  = Raise (HTTPError 400 "Lowstates must be a list").
Proof.
  split; [discriminate|]. split; [repeat constructor|].
  vm_compute. reflexivity.
Qed.

Lemma minions_post_accepted_witness :
  let s := sample_serving (Some (PyList (map PyDict [sample_ping]))) in
  let token := PyStr sample_backend_token in
  let prepared :=
    map (fun d => PyDict (annotated (PyStr "local_async") token d))
      [sample_ping] in
  session_data s !! "token" = Some token /\
  request_lowstate s = Some (PyList (map PyDict [sample_ping])) /\
  engine_replies (H := sample) (calls_of (trace s)) prepared
    [RetValue sample_job] /\
  (Minions_POST (H := sample) s).1
  = Ok (PyDict (<["return" := PyList [sample_job]]>
          (<["_links" :=
               PyDict {["jobs" :=
                 PyList [PyDict {["href" :=
                   PyStr ("/jobs/" +:+ sample_jid)]}]]}]> ∅))) /\
  response_status (Minions_POST (H := sample) s).2 = 202.
Proof.
  intros s token prepared.
  assert (Htok : session_data s !! "token" = Some token) by reflexivity.
  assert (Hrep : engine_replies (H := sample) (calls_of (trace s)) prepared
                   [RetValue sample_job]).
  { repeat (constructor; try (vm_compute; reflexivity)). }
  assert (Hjobs : Forall (fun i => py_truthy i = true ->
                            exists jid, py_getitem i "jid" = Ok jid)
                    (concat (map yields_of [RetValue sample_job]))).
  { repeat constructor. intros _. exists (PyStr sample_jid). reflexivity. }
  pose proof (minions_post_accepted (H := sample) [sample_ping]
                [RetValue sample_job] token s Htok eq_refl Hrep Hjobs)
    as (_ & _ & Hret & Hstatus & _).
  split; [exact Htok|]. split; [reflexivity|]. split; [exact Hrep|].
  split; [exact Hret|exact Hstatus].
Defined.

Lemma login_token_is_session_id_witness :
  let s := sample_serving (Some sample_creds) in
  request_lowstate s = Some sample_creds /\
  credentials_of sample_creds = Some sample_creds /\
  (exists t, mk_token (Collaborators := sample) sample_creds = Ok (PyDict t) /\
             t !! "token" = Some (PyStr sample_backend_token)) /\
  response_headers (Login_POST (H := sample) s).2 !! "X-Auth-Token"
  = Some (session_id s) /\
  session_data (Login_POST (H := sample) s).2 !! "token"
  = Some (PyStr sample_backend_token) /\
  session_data (Login_POST (H := sample) s).2 !! "timeout"
  = Some (PyFloat (((1363849143 # 1) - (1363805943 # 1)) / inject_Z 60)) /\
  session_timeout (Login_POST (H := sample) s).2 = session_timeout s.
Proof.
  intros s.
  set (t := <["token" := PyStr sample_backend_token]>
              (<["start" := PyFloat (1363805943 # 1)]>
                 (<["expire" := PyFloat (1363849143 # 1)]>
                    (<["name" := PyStr "saltuser"]>
                       (<["eauth" := PyStr "pam"]> (∅ : gmap string PyVal)))))).
  pose proof (login_token_is_session_id (H := sample) sample_creds
                sample_creds t
                (PyStr sample_backend_token)
                (PyFloat (1363849143 # 1)) (PyFloat (1363805943 # 1))
                (PyStr "saltuser") (PyStr "pam")
                (PyFloat ((1363849143 # 1) - (1363805943 # 1)))
                (PyFloat (((1363849143 # 1) - (1363805943 # 1)) / inject_Z 60))
                (PyList [PyStr "test.*"; PyStr "grains.*"])
                (PyDict {["pam" :=
                   PyDict {["saltuser" :=
                     PyList [PyStr "test.*"; PyStr "grains.*"]]}]})
                (PyDict {["saltuser" :=
                   PyList [PyStr "test.*"; PyStr "grains.*"]]})
                s eq_refl eq_refl eq_refl eq_refl eq_refl eq_refl eq_refl
                eq_refl eq_refl eq_refl eq_refl eq_refl eq_refl)
    as (Hrun & Hidle & _).
  split; [reflexivity|]. split; [reflexivity|]. split.
  - exists t. split; reflexivity.
  - split; [|split; [|split; [|exact Hidle]]]; rewrite Hrun; reflexivity.
Defined.

(** C10 as it is written fails: a login with the credentials of the
    sample user, whose token lives 43200 seconds, puts 720 into the
    session as the item [timeout], and the idle timeout of the session is
    still the 600 minutes of [tools.sessions.timeout]. *)
Lemma login_idle_timeout_unchanged :
  let s := sample_serving (Some (PyList [sample_creds])) in
  let after := (Login_POST (H := sample) s).2 in
  (exists v, (Login_POST (H := sample) s).1 = Ok v) /\
  session_data after !! "timeout"
  = Some (PyFloat (((1363849143 # 1) - (1363805943 # 1)) / inject_Z 60)) /\
  session_timeout after = 600 /\
  ~ (inject_Z (session_timeout after)
     == ((1363849143 # 1) - (1363805943 # 1)) / inject_Z 60)%Q.
Proof.
  cbv zeta. split; [eexists; vm_compute; reflexivity|].
  split; [vm_compute; reflexivity|]. split; [vm_compute; reflexivity|].
  intros E. vm_compute in E. discriminate.
Qed.

(** * Further properties of the decoder *)

Section DecoderProperties.

Context `{Collaborators}.

Lemma hypermedia_in_declared_length (len : string) (s : Serving) :
  request_headers s !! "Content-Length" = Some len -> len <> "0" ->
  hypermedia_in s = (Ok tt, s).
Proof.
  intros Hlen Hne. unfold hypermedia_in, bind, gets. rewrite Hlen. cbn.
  destruct (String.eqb_spec len "0") as [E|_]; [contradiction|].
  rewrite andb_false_r. reflexivity.
Qed.

Lemma body_process_processor (p : Processor) (len ct : string) (s : Serving) :
  request_process_request_body s = true ->
  request_headers s !! "Content-Length" = Some len ->
  request_headers s !! "Content-Type" = Some ct ->
  ct_in_map (content_type_value ct) = Some p ->
  body_process s = run_processor p s.
Proof.
  intros Hflag Hlen Hct Hp. unfold body_process, bind, gets.
  rewrite Hflag, Hlen, Hct. cbn -[content_type_value ct_in_map].
  rewrite Hp. reflexivity.
Qed.

Lemma content_type_value_not_form (ct media : string) :
  content_type_value ct = media ->
  media <> "application/x-www-form-urlencoded" ->
  ct <> "application/x-www-form-urlencoded".
Proof. intros Hval Hne ->. apply Hne. rewrite <- Hval. reflexivity. Qed.

Lemma lowdata_fmt_other_type (data : PyVal) (ct : string) (s : Serving) :
  upper (request_method s) = "POST" ->
  request_unserialized_data s = Some data ->
  request_headers s !! "Content-Type" = Some ct ->
  ct <> "application/x-www-form-urlencoded" ->
  lowdata_fmt s = (Ok tt, set_request_lowstate (Some data) s).
Proof.
  intros Hm Hd Hct Hne.
  unfold lowdata_fmt, bind, gets, getattr. rewrite Hm. cbn.
  rewrite Hd. cbn. rewrite Hct. cbn.
  destruct (String.eqb_spec ct "application/x-www-form-urlencoded")
    as [E|_]; [contradiction|]. reflexivity.
Qed.

(** X1. A [POST] with a declared length whose body is JSON (whatever the
    parameters of its [Content-Type]) and that [json.loads] takes goes
    through the three steps of the decoder without an error, and the
    decoded value is the lowstate as it is, list or not. *)
Theorem decode_request_json (v : PyVal) (ct len : string) (s : Serving) :
  upper (request_method s) = "POST" ->
  request_process_request_body s = true ->
  request_headers s !! "Content-Length" = Some len ->
  len <> "0" ->
  request_headers s !! "Content-Type" = Some ct ->
  content_type_value ct = "application/json" ->
  json_loads (request_body s) = Ok v ->
  decode_request s
  = (Ok tt,
     set_request_lowstate (Some v) (set_request_unserialized_data (Some v) s)).
Proof.
  intros Hm Hflag Hlen Hne Hct Hval Hload.
  unfold decode_request. unfold bind at 1. unfold bind at 1.
  rewrite (hypermedia_in_declared_length len s Hlen Hne).
  rewrite (body_process_processor json_processor len ct s Hflag Hlen Hct)
    by (rewrite Hval; reflexivity).
  unfold run_processor, bind at 1, gets. rewrite Hload.
  unfold set_unserialized_data, modify.
  apply lowdata_fmt_other_type with (ct := ct); try assumption;
    try reflexivity.
  apply (content_type_value_not_form ct _ Hval). discriminate.
Qed.

(** X2. A body that the loader refuses with [ValueError], or with its
    subclass [UnicodeDecodeError], ends the request in [HTTPError] 400,
    'Invalid JSON document' or 'Invalid YAML document', with nothing
    decoded; an exception of the loader that [except ValueError] does not
    catch leaves the decoder as it is. *)
Theorem decode_request_malformed (ct len : string) (exc : PyExc)
    (s : Serving) :
  request_process_request_body s = true ->
  request_headers s !! "Content-Length" = Some len ->
  len <> "0" ->
  request_headers s !! "Content-Type" = Some ct ->
  (content_type_value ct = "application/json" ->
   json_loads (request_body s) = Raise exc ->
   decode_request s
   = (Raise (if is_ValueError exc
             then HTTPError 400 "Invalid JSON document"
             else exc), s)) /\
  (content_type_value ct = "application/x-yaml"
   \/ content_type_value ct = "text/yaml" ->
   yaml_safe_load (request_body s) = Raise exc ->
   decode_request s
   = (Raise (if is_ValueError exc
             then HTTPError 400 "Invalid YAML document"
             else exc), s)).
Proof.
  intros Hflag Hlen Hne Hct. split.
  - intros Hval Hload.
    unfold decode_request. unfold bind at 1. unfold bind at 1.
    rewrite (hypermedia_in_declared_length len s Hlen Hne).
    rewrite (body_process_processor json_processor len ct s Hflag Hlen Hct)
      by (rewrite Hval; reflexivity).
    unfold run_processor, bind at 1, gets. rewrite Hload.
    destruct (is_ValueError exc); reflexivity.
  - intros Hval Hload.
    unfold decode_request. unfold bind at 1. unfold bind at 1.
    rewrite (hypermedia_in_declared_length len s Hlen Hne).
    rewrite (body_process_processor yaml_processor len ct s Hflag Hlen Hct)
      by (destruct Hval as [-> | ->]; reflexivity).
    unfold run_processor, bind at 1, gets. rewrite Hload.
    destruct (is_ValueError exc); reflexivity.
Qed.

(** X3. A [POST] of [text/plain] never fails on a body that is not JSON:
    when [json.loads] raises [ValueError], or its subclass
    [UnicodeDecodeError], the body itself, as a string, becomes the
    decoded data and the lowstate. *)
Theorem decode_request_text_fallback (ct len : string) (exc : PyExc)
    (s : Serving) :
  upper (request_method s) = "POST" ->
  request_process_request_body s = true ->
  request_headers s !! "Content-Length" = Some len ->
  len <> "0" ->
  request_headers s !! "Content-Type" = Some ct ->
  content_type_value ct = "text/plain" ->
  json_loads (request_body s) = Raise exc ->
  is_ValueError exc = true ->
  decode_request s
  = (Ok tt,
     set_request_lowstate (Some (PyStr (request_body s)))
       (set_request_unserialized_data (Some (PyStr (request_body s))) s)).
Proof.
  intros Hm Hflag Hlen Hne Hct Hval Hload Hcaught.
  unfold decode_request. unfold bind at 1. unfold bind at 1.
  rewrite (hypermedia_in_declared_length len s Hlen Hne).
  rewrite (body_process_processor text_processor len ct s Hflag Hlen Hct)
    by (rewrite Hval; reflexivity).
  unfold run_processor, bind at 1, gets. rewrite Hload, Hcaught.
  unfold set_unserialized_data, modify.
  apply lowdata_fmt_other_type with (ct := ct); try assumption;
    try reflexivity.
  apply (content_type_value_not_form ct _ Hval). discriminate.
Qed.

(** X4. A body of a media type that [ct_in_map] does not list is refused
    with [HTTPError] 406, 'Content type not supported', before anything is
    decoded. *)
Theorem decode_request_unsupported_type (ct len : string) (s : Serving) :
  request_process_request_body s = true ->
  request_headers s !! "Content-Length" = Some len ->
  len <> "0" ->
  request_headers s !! "Content-Type" = Some ct ->
  ct_in_map (content_type_value ct) = None ->
  decode_request s = (Raise (HTTPError 406 "Content type not supported"), s).
Proof.
  intros Hflag Hlen Hne Hct Hnone.
  unfold decode_request. unfold bind at 1. unfold bind at 1.
  rewrite (hypermedia_in_declared_length len s Hlen Hne).
  unfold body_process, bind, gets. rewrite Hflag, Hlen, Hct.
  cbn -[content_type_value ct_in_map]. rewrite Hnone. reflexivity.
Qed.

Lemma run_processor_lowstate (p : Processor) (s : Serving) :
  request_lowstate (run_processor p s).2 = request_lowstate s.
Proof.
  unfold run_processor, bind, gets, lift, set_unserialized_data, modify, raise.
  destruct p; cbn.
  - destruct (process_urlencoded (request_body s)); reflexivity.
  - destruct (json_loads (request_body s)) as [|e]; [reflexivity|].
    destruct (is_ValueError e); reflexivity.
  - destruct (yaml_safe_load (request_body s)) as [|e]; [reflexivity|].
    destruct (is_ValueError e); reflexivity.
  - destruct (json_loads (request_body s)) as [|e]; [reflexivity|].
    destruct (is_ValueError e); reflexivity.
Qed.

(** X5. The decoder gives a lowstate to a [POST] only: for any other
    method, whatever the body and whether it decodes or not, the lowstate
    of the request is left as it was. *)
Theorem decode_request_post_only (s : Serving) :
  upper (request_method s) <> "POST" ->
  request_lowstate (decode_request s).2 = request_lowstate s.
Proof.
  intros Hm.
  assert (Hneq : String.eqb (upper (request_method s)) "POST" = false)
    by (destruct (String.eqb_spec (upper (request_method s)) "POST");
        [contradiction|reflexivity]).
  unfold decode_request. unfold bind at 1. unfold bind at 1.
  assert (Hin : hypermedia_in s = (Ok tt, s)).
  { unfold hypermedia_in, bind, gets. rewrite Hneq. reflexivity. }
  rewrite Hin.
  assert (Hbody : request_lowstate (body_process s).2 = request_lowstate s
                  /\ request_method (body_process s).2 = request_method s).
  { unfold body_process, bind, gets.
    destruct (request_process_request_body s); [|split; reflexivity].
    destruct (request_headers s !! "Content-Length"),
             (request_headers s !! "Transfer-Encoding");
      try (split; reflexivity);
      (destruct (ct_in_map _) as [p|]; [|split; reflexivity];
       split; [apply run_processor_lowstate|];
       unfold run_processor, bind, gets, lift, set_unserialized_data,
         modify, raise;
       destruct p; cbn;
       repeat match goal with
              | |- context [match ?x with _ => _ end] => destruct x
              end; reflexivity). }
  destruct Hbody as [Hlow Hmeth].
  destruct (body_process s) as [[[]|e] s1]; cbn in *; [|exact Hlow].
  unfold lowdata_fmt, bind at 1, gets. rewrite Hmeth, Hneq. cbn.
  exact Hlow.
Qed.

End DecoderProperties.

(** * Further properties of the negotiator *)

Section NegotiatorProperties.

Context `{Collaborators}.

Lemma existsb_find_none {A} (f : A -> bool) (l : list A) :
  List.find f l = None -> existsb f l = false.
Proof.
  induction l as [|x l IH]; cbn; [reflexivity|].
  destruct (f x); [discriminate|exact IH].
Qed.

Lemma wildcard_not_supported (value : string) :
  ends_with "/*" value = true ->
  existsb (String.eqb value) supported_media = false.
Proof.
  intros Hends. cbn.
  destruct (String.eqb_spec value "application/json") as [->|_];
    [discriminate|].
  destruct (String.eqb_spec value "application/x-yaml") as [->|_];
    [discriminate|]. reflexivity.
Qed.

Lemma accept_ranges_member (ranges : list AcceptElement)
    (media : list string) (m : string) :
  accept_ranges ranges media = Some m -> In m media.
Proof.
  induction ranges as [|e ranges IH]; cbn; [discriminate|].
  destruct (ae_qvalue_positive e); [|exact IH].
  destruct (String.eqb (ae_value e) "*/*").
  { destruct media; cbn; [discriminate|]. intros [= ->]. left. reflexivity. }
  destruct (ends_with "/*" (ae_value e)).
  { destruct (List.find _ media) as [m'|] eqn:Hfind; [|exact IH].
    intros [= <-]. apply (find_some _ _ Hfind). }
  destruct (existsb (String.eqb (ae_value e)) media) eqn:Hex; [|exact IH].
  intros [= <-]. apply existsb_exists in Hex as (x & Hin & Heq).
  apply String.eqb_eq in Heq. subst x. exact Hin.
Qed.

Lemma accept_ranges_none_unmatched (ranges : list AcceptElement) :
  accept_ranges ranges supported_media = None ->
  Forall (fun e => range_matches supported_media e = false) ranges.
Proof.
  induction ranges as [|e ranges IH]; [constructor|].
  intros Hnone. cbn [accept_ranges] in Hnone.
  assert (Hboth : range_matches supported_media e = false
                  /\ accept_ranges ranges supported_media = None);
    [|destruct Hboth as [He Hrest]; constructor; [exact He|exact (IH Hrest)]].
  unfold range_matches.
  destruct (ae_qvalue_positive e); cbn [andb]; [|auto].
  destruct (String.eqb (ae_value e) "*/*"); [discriminate|].
  cbn [orb].
  destruct (ends_with "/*" (ae_value e)) eqn:Hends; cbn [andb].
  - destruct (List.find _ supported_media) eqn:Hfind; [discriminate|].
    rewrite (existsb_find_none _ _ Hfind).
    rewrite (wildcard_not_supported _ Hends). auto.
  - destruct (existsb (String.eqb (ae_value e)) supported_media);
      [discriminate|]. auto.
Qed.

Lemma accept_ranges_supported (ranges : list AcceptElement) (m : string) :
  accept_ranges ranges supported_media = Some m ->
  m = "application/json" \/ m = "application/x-yaml".
Proof.
  intros Hm. apply accept_ranges_member in Hm. cbn in Hm.
  destruct Hm as [<-|[<-|[]]]; auto.
Qed.

(** X6. What [hypermedia_handler] does with the [Accept] header once the
    handler has returned: a request without the header is answered in
    JSON, the first entry of [ct_out_map]; and the handler's result is
    given up for the 406 exactly when the header has ranges and none of
    them is met by a supported type. *)
Theorem hypermedia_handler_negotiation (inner : M PyVal) (v : PyVal)
    (s s1 : Serving) :
  inner (set_response_processors (list_to_map ct_out_map) s) = (Ok v, s1) ->
  response_processors s1 = list_to_map ct_out_map ->
  (request_accept s1 = [] ->
   hypermedia_handler inner s
   = (run_serializer JsonDumps v,
      set_trace (trace s1 ++ [EvSerialize "application/json" v])
        (set_response_headers
           (<["Content-Type" := "application/json"]> (response_headers s1))
           s1))) /\
  ((exists msg,
      hypermedia_handler inner s = (Raise (HTTPError 406 msg), s1)) <->
   request_accept s1 <> [] /\
   Forall (fun e => range_matches supported_media e = false)
     (request_accept s1)).
Proof.
  intros Hin Hproc.
  pose proof (guarded_handler_unfold inner s s1 _ Hin) as Hg. cbn in Hg.
  assert (Hh : hypermedia_handler inner s = negotiate v s1)
    by (unfold hypermedia_handler, bind; rewrite Hg; reflexivity).
  rewrite Hh. split; [|split].
  - intros Hempty. apply negotiate_negotiated.
    + unfold negotiated. rewrite Hempty. reflexivity.
    + rewrite Hproc. reflexivity.
  - intros [msg Hmsg].
    destruct (negotiated supported_media (request_accept s1)) as [best|]
      eqn:Hbest.
    + exfalso.
      assert (Hout : exists out, response_processors s1 !! best = Some out).
      { assert (Hmem : best = "application/json"
                       \/ best = "application/x-yaml").
        { unfold negotiated in Hbest.
          destruct (request_accept s1) as [|e ranges].
          - cbn in Hbest. injection Hbest as <-. auto.
          - exact (accept_ranges_supported (e :: ranges) best Hbest). }
        rewrite Hproc. destruct Hmem as [-> | ->]; eexists; reflexivity. }
      destruct Hout as [out Hout].
      rewrite (negotiate_negotiated v best out s1 Hbest Hout) in Hmsg.
      injection Hmsg as _ Hstate.
      apply (f_equal (fun x => length (trace x))) in Hstate.
      cbn in Hstate. rewrite length_app in Hstate. cbn in Hstate. lia.
    + unfold negotiated in Hbest.
      destruct (request_accept s1) as [|e ranges] eqn:Hr; [discriminate|].
      split; [discriminate|].
      apply accept_ranges_none_unmatched. exact Hbest.
  - intros [Hne Hall]. apply negotiate_unmatched; assumption.
Qed.

(** X7. When the handler returns and leaves the processors alone, the
    response is the 406 of the negotiator or the result of the handler,
    unchanged, through the serializer of the media type that
    [Content-Type] then names, JSON or YAML: the look-up of the processor
    cannot fail, and an exception of the serializer is not caught. *)
Theorem hypermedia_handler_returns (inner : M PyVal) (v : PyVal)
    (s s1 : Serving) :
  inner (set_response_processors (list_to_map ct_out_map) s) = (Ok v, s1) ->
  response_processors s1 = list_to_map ct_out_map ->
  (exists msg, hypermedia_handler inner s = (Raise (HTTPError 406 msg), s1)) \/
  (exists best out,
     In (best, out) ct_out_map /\
     hypermedia_handler inner s
     = (run_serializer out v,
        set_trace (trace s1 ++ [EvSerialize best v])
          (set_response_headers
             (<["Content-Type" := best]> (response_headers s1)) s1))).
Proof.
  intros Hin Hproc.
  pose proof (guarded_handler_unfold inner s s1 _ Hin) as Hg. cbn in Hg.
  unfold hypermedia_handler, bind. rewrite Hg.
  destruct (negotiated supported_media (request_accept s1)) as [best|]
    eqn:Hbest.
  - right.
    assert (Hmem : best = "application/json" \/ best = "application/x-yaml").
    { unfold negotiated in Hbest.
      destruct (request_accept s1) as [|e ranges].
      - cbn in Hbest. injection Hbest as <-. auto.
      - exact (accept_ranges_supported (e :: ranges) best Hbest). }
    destruct Hmem as [-> | ->].
    + exists "application/json", JsonDumps. split; [left; reflexivity|].
      apply negotiate_negotiated; [exact Hbest|]. rewrite Hproc.
      reflexivity.
    + exists "application/x-yaml", YamlSafeDump.
      split; [right; left; reflexivity|].
      apply negotiate_negotiated; [exact Hbest|]. rewrite Hproc.
      reflexivity.
  - left. unfold negotiated in Hbest.
    destruct (request_accept s1) as [|e ranges] eqn:Hr; [discriminate|].
    apply negotiate_unmatched.
    + rewrite Hr. discriminate.
    + rewrite Hr. apply accept_ranges_none_unmatched. exact Hbest.
Qed.

End NegotiatorProperties.

(** * Further properties of the executor and its resources *)

Section ExecutorProperties.

Context `{Collaborators}.

Lemma as_sequence_idempotent (a : PyVal) :
  as_sequence (as_sequence a) = as_sequence a.
Proof. unfold as_sequence. destruct a; reflexivity. Qed.

Lemma annotated_idempotent (client token : PyVal) (d : gmap string PyVal) :
  annotated client token (annotated client token d) = annotated client token d.
Proof.
  apply map_eq. intros k.
  destruct (annotated_lookup client token (annotated client token d))
    as (Ht2 & Hc2 & Ha2 & Ho2).
  destruct (annotated_lookup client token d) as (Ht & Hc & Ha & Ho).
  destruct (decide (k = "token")) as [->|Hkt].
  { rewrite Ht2, Ht. destruct (py_truthy token); reflexivity. }
  destruct (decide (k = "client")) as [->|Hkc].
  { rewrite Hc2, Hc. destruct (py_truthy client); reflexivity. }
  destruct (decide (k = "arg")) as [->|Hka].
  { rewrite Ha2, Ha. destruct (d !! "arg"); cbn; [|reflexivity].
    rewrite as_sequence_idempotent. reflexivity. }
  rewrite (Ho2 k Hkt Hkc Hka). reflexivity.
Qed.

(** X9. The additions of the executor to a descriptor are idempotent: a
    descriptor that has been through them comes out of them unchanged.
    The dict is changed in place, so a mapping that a batch holds twice
    is prepared twice, and reaches the engine the same both times. *)
Theorem prepare_chunk_idempotent (client token : PyVal)
    (d : gmap string PyVal) :
  res_bind (prepare_chunk client token (PyDict d))
    (prepare_chunk client token)
  = prepare_chunk client token (PyDict d).
Proof.
  rewrite prepare_chunk_dict. cbn [res_bind]. rewrite prepare_chunk_dict.
  rewrite annotated_idempotent. reflexivity.
Qed.

Lemma exec_chunks_engine_failure (client token : PyVal)
    (ds1 : list (gmap string PyVal)) (d : gmap string PyVal)
    (ds2 : list (gmap string PyVal)) (rets : list EngineRet) (exc : PyExc)
    (s : Serving) :
  engine_replies (calls_of (trace s))
    (map (fun c => PyDict (annotated client token c)) ds1) rets ->
  api_run
    (calls_of (trace s) ++ map (fun c => PyDict (annotated client token c)) ds1)
    (PyDict (annotated client token d)) = Raise exc ->
  exec_chunks client token (map PyDict (ds1 ++ d :: ds2)) s
  = (Raise exc,
     set_trace
       (trace s
        ++ concat (zip_with block
                     (map (fun c => PyDict (annotated client token c)) ds1)
                     rets)
        ++ [EvRun (PyDict (annotated client token d))]) s).
Proof.
  revert rets s. induction ds1 as [|d1 ds1 IH]; intros rets s Hrep Hfail.
  - inversion Hrep; subst. cbn in Hfail. rewrite app_nil_r in Hfail.
    cbn [app map exec_chunks]. unfold bind at 1, lift at 1.
    rewrite prepare_chunk_dict. unfold bind at 1.
    rewrite run_chunk_unfold, Hfail. reflexivity.
  - cbn [map] in Hrep. inversion Hrep as [|h c cs r rs Hr Hf Hrest]; subst.
    cbn [app map exec_chunks]. unfold bind at 1, lift at 1.
    rewrite prepare_chunk_dict. unfold bind at 1.
    rewrite (run_chunk_replied _ r s Hr Hf). unfold bind at 1.
    rewrite (IH rs).
    + cbn. rewrite <- !app_assoc. reflexivity.
    + cbn. rewrite calls_of_app, calls_of_block. exact Hrest.
    + cbn. rewrite calls_of_app, calls_of_block, <- app_assoc.
      exact Hfail.
Qed.

(** X10. When the engine raises on a descriptor of the batch, the
    exception leaves [exec_lowstate]: the descriptors before it have been
    run and their results are not returned, and the descriptors after it
    are never given to the engine. *)
Theorem exec_lowstate_engine_failure (client token : PyVal)
    (ds1 : list (gmap string PyVal)) (d : gmap string PyVal)
    (ds2 : list (gmap string PyVal)) (rets : list EngineRet) (exc : PyExc)
    (s : Serving) :
  request_lowstate s = Some (PyList (map PyDict (ds1 ++ d :: ds2))) ->
  engine_replies (calls_of (trace s))
    (map (fun c => PyDict (annotated client token c)) ds1) rets ->
  api_run
    (calls_of (trace s) ++ map (fun c => PyDict (annotated client token c)) ds1)
    (PyDict (annotated client token d)) = Raise exc ->
  exec_lowstate client token s
  = (Raise exc,
     set_trace
       (trace s
        ++ EvReleaseLock
           :: concat (zip_with block
                        (map (fun c => PyDict (annotated client token c)) ds1)
                        rets)
        ++ [EvRun (PyDict (annotated client token d))])
       (set_session_locked false s)).
Proof.
  intros Hlow Hrep Hfail.
  rewrite (exec_lowstate_unfold _ _ _ _ Hlow).
  rewrite (exec_chunks_engine_failure client token ds1 d ds2 rets exc).
  - cbn. rewrite <- app_assoc. reflexivity.
  - cbn. rewrite calls_of_app. cbn. rewrite app_nil_r. exact Hrep.
  - cbn. rewrite calls_of_app. cbn. rewrite app_nil_r. exact Hfail.
Qed.

(** X11. A batch whose first element is not a mapping, run with a token or
    a client to put in, is not refused with 400: the assignment to the
    element raises [TypeError] after the lock is released, and the engine
    is not called. *)
Theorem exec_lowstate_non_mapping (client token chunk : PyVal)
    (rest : list PyVal) (s : Serving) :
  request_lowstate s = Some (PyList (chunk :: rest)) ->
  isinstance_dict chunk = false ->
  py_truthy token = true \/ py_truthy client = true ->
  exists detail,
    exec_lowstate client token s
    = (Raise (TypeError detail),
       set_trace (trace s ++ [EvReleaseLock]) (set_session_locked false s)).
Proof.
  intros Hlow Hdict Hfixed.
  rewrite (exec_lowstate_unfold _ _ _ _ Hlow).
  cbn [exec_chunks]. unfold bind at 1, lift at 1.
  assert (Hprep : exists detail,
            prepare_chunk client token chunk = Raise (TypeError detail)).
  { unfold prepare_chunk.
    destruct (py_truthy token) eqn:Ht.
    - destruct chunk; try discriminate; cbn; eexists; reflexivity.
    - destruct Hfixed as [Hf|Hf]; [discriminate|]. rewrite Hf.
      destruct chunk; try discriminate; cbn; eexists; reflexivity. }
  destruct Hprep as [detail Hprep]. rewrite Hprep. exists detail.
  reflexivity.
Qed.

(** X12. [Run.POST] never reaches the engine. The sessions tool is off
    for [/run], and the executor it inherits calls
    [cherrypy.session.release_lock()] all the same: whatever the request,
    the handler ends in [AttributeError] with the state untouched, before
    the test of the lowstate and before any call, and
    [hypermedia_handler] makes of it the result of status 500. *)
Theorem run_post_session_missing (s : Serving) :
  exists name,
    Run_POST s = (Raise (AttributeError name), s) /\
    (guarded_handler Run_POST s).1
    = Ok (error_envelope 500
            (if config_debug s then format_exc (AttributeError name)
             else "An unexpected error occurred")) /\
    response_status (guarded_handler Run_POST s).2 = 500 /\
    trace (guarded_handler Run_POST s).2 = trace s.
Proof.
  assert (Hrun : forall s0, exists name,
            Run_POST s0 = (Raise (AttributeError name), s0)).
  { intros s0. unfold Run_POST, exec_lowstate_in, session_release_lock.
    unfold bind, getattr, raise.
    destruct (request_lowstate s0); eexists; reflexivity. }
  destruct (Hrun (set_response_processors (list_to_map ct_out_map) s))
    as [name Hs1].
  exists name. split.
  - unfold Run_POST, exec_lowstate_in, session_release_lock in Hs1 |- *.
    unfold bind, getattr, raise in Hs1 |- *.
    cbn [request_lowstate set_response_processors] in Hs1.
    destruct (request_lowstate s); [|injection Hs1 as <-; reflexivity].
    injection Hs1 as <-. reflexivity.
  - rewrite (guarded_handler_unfold Run_POST s _ _ Hs1). cbn.
    repeat split.
Qed.

Lemma exec_chunks_single_call (client token : PyVal) (d : gmap string PyVal)
    (s : Serving) :
  calls_of (trace (exec_chunks client token [PyDict d] s).2)
  = calls_of (trace s) ++ [PyDict (annotated client token d)].
Proof.
  cbn [exec_chunks]. unfold bind at 1, lift at 1.
  rewrite prepare_chunk_dict. unfold bind at 1.
  pose proof (run_chunk_calls (PyDict (annotated client token d)) s) as Hc.
  destruct (run_chunk (PyDict (annotated client token d)) s) as [[ys|e] s1];
    cbn in *; exact Hc.
Qed.

(** X13. [Minions.GET] asks the engine one thing, once: [grains.items]
    with the client [local], for the minion of the URL or for ['*'],
    under the token of the session; a lowstate that came with the request
    is replaced and plays no part. *)
Theorem minions_get_single_call (mid : PyVal) (s : Serving) :
  calls_of (trace (Minions_GET mid s).2)
  = calls_of (trace s)
    ++ [PyDict
          (annotated PyNone (default_val (session_data s) "token" PyNone)
             (<["client" := PyStr "local"]>
                (<["tgt" := if py_truthy mid then mid else PyStr "*"]>
                   (<["fun" := PyStr "grains.items"]> ∅))))].
Proof.
  unfold Minions_GET. unfold bind at 1, modify at 1.
  unfold bind at 1, session_get at 1, gets at 1.
  cbn [session_data set_request_lowstate].
  unfold bind at 1.
  erewrite exec_lowstate_unfold by reflexivity. cbv beta iota.
  match goal with
  | |- context [exec_chunks ?c ?t [PyDict ?d] ?s1] =>
      pose proof (exec_chunks_single_call c t d s1) as Hc;
      destruct (exec_chunks c t [PyDict d] s1) as [[ys|e] s2]
  end; cbn in Hc |- *; rewrite Hc, calls_of_app; cbn;
    rewrite app_nil_r; reflexivity.
Qed.

(** X14. [Jobs.GET]: with a job id the engine is asked for the return of
    the job and then for its description, without one for the list of the
    jobs, each time by the runner client. With a job id the response
    pairs the two results as [return] and [info], and raises [ValueError]
    when the engine did not yield exactly two values; without one it
    returns the first value, and raises [IndexError] when there is
    none. *)
Theorem jobs_get_result (jid : PyVal) (rets : list EngineRet) (s : Serving) :
  let token := default_val (session_data s) "token" PyNone in
  let prepared (function : string) :=
    PyDict (annotated PyNone token
              (<["client" := PyStr "runner"]>
                 (<["fun" := PyStr function]> (<["jid" := jid]> ∅)))) in
  engine_replies (calls_of (trace s))
    (if py_truthy jid
     then [prepared "jobs.lookup_jid"; prepared "jobs.list_job"]
     else [prepared "jobs.list_jobs"]) rets ->
  (Jobs_GET jid s).1
  = if py_truthy jid then
      match concat (map yields_of rets) with
      | [job_ret; job_info] =>
          Ok (PyDict (<["info" := PyList [job_info]]>
                (<["return" := PyList [job_ret]]> ∅)))
      | _ => Raise (ValueError "wrong number of values to unpack")
      end
    else
      match concat (map yields_of rets) with
      | job_ret :: _ => Ok (PyDict {["return" := PyList [job_ret]]})
      | [] => Raise (IndexError "list index out of range")
      end.
Proof.
  intros token prepared Hrep. subst prepared token.
  unfold Jobs_GET. unfold bind at 1, modify at 1.
  unfold bind at 1, session_get at 1, gets at 1.
  cbn [session_data set_request_lowstate].
  unfold bind at 1.
  erewrite exec_lowstate_unfold by reflexivity.
  destruct (py_truthy jid) eqn:Hjid; cbv beta iota.
  - match goal with
    | |- context [exec_chunks PyNone ?t [PyDict ?a; PyDict ?b] ?s1] =>
        pose proof (exec_chunks_replied PyNone t [a; b] rets s1) as Hx
    end.
    cbn [map] in Hx. rewrite Hx.
    + destruct (concat (map yields_of rets)) as [|a [|b [|c l]]]; reflexivity.
    + cbn. rewrite calls_of_app. cbn. rewrite app_nil_r. exact Hrep.
  - match goal with
    | |- context [exec_chunks PyNone ?t [PyDict ?a] ?s1] =>
        pose proof (exec_chunks_replied PyNone t [a] rets s1) as Hx
    end.
    cbn [map] in Hx. rewrite Hx.
    + destruct (concat (map yields_of rets)) as [|a l]; reflexivity.
    + cbn. rewrite calls_of_app. cbn. rewrite app_nil_r. exact Hrep.
Qed.

End ExecutorProperties.

(** * Further properties of the login and of the streams *)

Section LoginProperties.

Context `{Collaborators}.

(** X16. Credentials for which the eauth backend hands out no token are
    refused with [HTTPError] 401, and the request has changed nothing:
    the session gets no token and the response no [X-Auth-Token]. *)
Theorem login_refused (creds tok : PyVal) (rest : list PyVal) (s : Serving) :
  request_lowstate s = Some (PyList (creds :: rest)) ->
  mk_token creds = Ok tok ->
  py_contains "token" tok = Ok false ->
  Login_POST s
  = (Raise (HTTPError 401
              "Could not authenticate using provided credentials"), s).
Proof.
  intros Hlow Hmk Hno.
  unfold Login_POST, bind at 1, getattr. rewrite Hlow.
  unfold bind at 1, ret at 1.
  unfold bind at 1, lift at 1. rewrite Hmk.
  unfold bind at 1, lift at 1. rewrite Hno. reflexivity.
Qed.

(** X17. The session is marked as logged in before the permissions are
    looked up: when the user is not a key of the configured backend, the
    request ends in the [KeyError] of the look-up, which the handler does
    not catch, and yet the session holds the token of the backend and its
    timeout, and the response the header [X-Auth-Token]. *)
Theorem login_perms_failure (creds : PyVal) (rest : list PyVal)
    (t : gmap string PyVal)
    (backend_token expire start name eauth lifetime timeout : PyVal)
    (external_auth backend : PyVal) (key : string) (s : Serving) :
  request_lowstate s = Some (PyList (creds :: rest)) ->
  mk_token creds = Ok (PyDict t) ->
  t !! "token" = Some backend_token ->
  t !! "expire" = Some expire ->
  t !! "start" = Some start ->
  t !! "name" = Some name ->
  t !! "eauth" = Some eauth ->
  py_sub expire start = Ok lifetime ->
  py_div lifetime (PyInt 60) = Ok timeout ->
  py_getitem (saltopts s) "external_auth" = Ok external_auth ->
  py_subscript external_auth eauth = Ok backend ->
  py_subscript backend name = Raise (KeyError key) ->
  Login_POST s
  = (Raise (KeyError key),
     set_session_data
       (<["timeout" := timeout]>
          (<["token" := backend_token]> (session_data s)))
       (set_response_headers
          (<["X-Auth-Token" := session_id s]> (response_headers s)) s)).
Proof.
  intros Hlow Hmk Htok Hexp Hstart Hname Heauth Hsub Hdiv Hext Hback Hperms.
  rewrite (Login_POST_to_perms (PyList (creds :: rest)) creds t
             backend_token expire start lifetime timeout s Hlow eq_refl Hmk
             Htok Hexp Hstart Hsub Hdiv).
  unfold bind at 1. unfold lookup_perms, bind at 1, gets at 1.
  cbn [saltopts set_session_data set_response_headers].
  rewrite Hext. cbn [res_bind].
  rewrite (py_getitem_dict t _ _ Heauth). cbn [res_bind].
  rewrite Hback. cbn [res_bind].
  rewrite (py_getitem_dict t _ _ Hname). cbn [res_bind].
  rewrite Hperms. reflexivity.
Qed.

Lemma calls_of_blocks (history chunks : list PyVal) (rets : list EngineRet) :
  engine_replies history chunks rets ->
  calls_of (concat (zip_with block chunks rets)) = chunks.
Proof.
  induction 1 as [|history chunk chunks r rets _ _ _ IH]; [reflexivity|].
  cbn [zip_with concat]. rewrite calls_of_app, calls_of_block, IH.
  reflexivity.
Qed.

(** X18. What a login leaves in the session is what later requests run
    with: in any request whose session holds the items of a successful
    login, [salt_auth_tool] lets the request through, and
    [LowDataAdapter.POST] gives the engine, when it answers, every
    descriptor of the batch, in the order of the batch, each with the
    token of the eauth backend in it, not the id of the session that the
    client was given; the answers come back under [return]. *)
Theorem login_then_request (creds : PyVal) (rest : list PyVal)
    (t : gmap string PyVal)
    (backend_token expire start name eauth lifetime timeout perms : PyVal)
    (external_auth backend : PyVal) (s later : Serving)
    (ds : list (gmap string PyVal)) (rets : list EngineRet) :
  request_lowstate s = Some (PyList (creds :: rest)) ->
  mk_token creds = Ok (PyDict t) ->
  t !! "token" = Some backend_token ->
  py_truthy backend_token = true ->
  t !! "expire" = Some expire ->
  t !! "start" = Some start ->
  t !! "name" = Some name ->
  t !! "eauth" = Some eauth ->
  py_sub expire start = Ok lifetime ->
  py_div lifetime (PyInt 60) = Ok timeout ->
  py_getitem (saltopts s) "external_auth" = Ok external_auth ->
  py_subscript external_auth eauth = Ok backend ->
  py_subscript backend name = Ok perms ->
  session_data later = session_data (Login_POST s).2 ->
  request_lowstate later = Some (PyList (map PyDict ds)) ->
  engine_replies (calls_of (trace later))
    (map (fun d => PyDict (annotated PyNone backend_token d)) ds) rets ->
  (salt_auth_tool later).1 = Ok tt /\
  LowDataAdapter_POST later
  = (Ok (PyDict {["return" := PyList (concat (map yields_of rets))]}),
     set_trace
       (trace later
        ++ EvReleaseLock
           :: concat (zip_with block
                        (map (fun d => PyDict (annotated PyNone backend_token d))
                           ds) rets))
       (set_session_locked false later)) /\
  calls_of (trace (LowDataAdapter_POST later).2)
  = calls_of (trace later)
    ++ map (fun d => PyDict (annotated PyNone backend_token d)) ds /\
  (forall d : gmap string PyVal,
     annotated PyNone backend_token d !! "token" = Some backend_token).
Proof.
  intros Hlow Hmk Htok Htrue Hexp Hstart Hname Heauth Hsub Hdiv Hext Hback
    Hperms Hsess Hbatch Hrep.
  assert (Hdata : session_data later
                  = <["timeout" := timeout]>
                      (<["token" := backend_token]> (session_data s))).
  { rewrite Hsess.
    rewrite (Login_POST_to_perms (PyList (creds :: rest)) creds t
               backend_token expire start lifetime timeout s Hlow eq_refl
               Hmk Htok Hexp Hstart Hsub Hdiv).
    unfold bind at 1. unfold lookup_perms, bind at 1, gets at 1.
    cbn [saltopts set_session_data set_response_headers].
    rewrite Hext. cbn [res_bind].
    rewrite (py_getitem_dict t _ _ Heauth). cbn [res_bind].
    rewrite Hback. cbn [res_bind].
    rewrite (py_getitem_dict t _ _ Hname). cbn [res_bind].
    rewrite Hperms.
    unfold ret at 1, bind, gets, lift, ret.
    rewrite (py_getitem_dict t _ _ Hexp). cbv beta iota.
    rewrite (py_getitem_dict t _ _ Hstart). reflexivity. }
  assert (Hlook : session_data later !! "token" = Some backend_token).
  { rewrite Hdata. rewrite lookup_insert_ne by discriminate.
    apply lookup_insert_eq. }
  assert (Hrun : LowDataAdapter_POST later
            = (Ok (PyDict {["return" :=
                     PyList (concat (map yields_of rets))]}),
               set_trace
                 (trace later
                  ++ EvReleaseLock
                     :: concat (zip_with block
                          (map (fun d =>
                                  PyDict (annotated PyNone backend_token d))
                             ds) rets))
                 (set_session_locked false later))).
  { unfold LowDataAdapter_POST, bind at 1, session_get, gets.
    unfold default_val. rewrite Hlook. unfold bind at 1.
    rewrite (exec_lowstate_unfold _ _ _ _ Hbatch).
    rewrite (exec_chunks_replied PyNone backend_token ds rets).
    - cbn. rewrite <- app_assoc. reflexivity.
    - cbn. rewrite calls_of_app. cbn. rewrite app_nil_r. exact Hrep. }
  split; [|split; [exact Hrun|split]].
  - unfold salt_auth_tool, bind, gets. rewrite Hlook. reflexivity.
  - rewrite Hrun. cbn [snd trace set_trace].
    rewrite calls_of_app. cbn [calls_of].
    rewrite (calls_of_blocks _ _ _ Hrep). reflexivity.
  - intros d.
    destruct (annotated_lookup PyNone backend_token d) as (Ht & _).
    rewrite Ht, Htrue. reflexivity.
Qed.

End LoginProperties.

Section StreamProperties.

Context `{Collaborators}.

(** X19. A stream asked for with a token in the URL is judged by the
    session of that token alone: when the session store knows no such
    session the request is refused, by the redirect to [/login] for
    [/events] and by [HTTPError] 401 for [/ws], whatever token the
    session of the request itself holds; the lock is not released and
    nothing is subscribed to or started. *)
Theorem stream_url_token_unknown (t : string) (s : Serving) :
  t <> "" ->
  session_cache s !! t = None ->
  Events_GET (PyStr t) s = (Raise (InternalRedirect "/login"), s) /\
  WebsocketEndpoint_GET (PyStr t) s = (Raise (HTTPError 401 ""), s).
Proof.
  intros Hne Hcache.
  assert (Htrue : py_truthy (PyStr t) = true).
  { cbn. destruct (String.eqb_spec t ""); [contradiction|reflexivity]. }
  split.
  - unfold Events_GET, bind at 1, stream_salt_token. rewrite Htrue.
    unfold bind at 1, gets at 1, ret at 1. rewrite Hcache. reflexivity.
  - unfold WebsocketEndpoint_GET, bind at 1, stream_salt_token.
    rewrite Htrue.
    unfold bind at 1, gets at 1, ret at 1. rewrite Hcache. reflexivity.
Qed.

Lemma listen_loop_prefix (events more : list PyVal) (s : Serving) :
  Forall sse_deliverable events ->
  listen_loop (events ++ more) s
  = listen_loop more (set_trace (trace s ++ flat_map sse_frames events) s).
Proof.
  intros Hall. revert s.
  induction Hall
    as [|data events [(tag & Htag & Htext) (encoded & Henc & Hdata)] _ IH];
    intros s.
  - cbn. rewrite app_nil_r. destruct s; reflexivity.
  - cbn [app listen_loop flat_map]. unfold sse_frames at 1.
    rewrite Htag, Henc.
    unfold bind at 1, lift at 1.
    unfold bind at 1, lift at 1, py_uformat at 1. rewrite Htext.
    unfold bind at 1, emit at 1, modify at 1.
    unfold bind at 1, lift at 1.
    unfold bind at 1, lift at 1, py_uformat at 1. cbn [py_format].
    rewrite Hdata.
    unfold bind at 1, emit at 1, modify at 1.
    rewrite IH. cbn [trace set_trace]. rewrite <- !app_assoc. reflexivity.
Qed.

Lemma listen_unfold (events : list PyVal) (s : Serving) :
  listen events s
  = listen_loop events
      (set_trace
         (trace s ++ [EvSubscribe; EvSend ("retry: " +:+ "400" +:+ nl)]) s).
Proof.
  unfold listen. unfold bind at 1. unfold bind at 1. unfold emit, modify.
  cbn [fst snd trace set_trace]. rewrite <- app_assoc. reflexivity.
Qed.

(** X20. The framing of the SSE stream: after the subscription the client
    gets the advice ['retry: 400'] once, and then, for every event in
    the order of the bus, a line ['tag: ...'] and a line ['data: ...']
    with the event as [json.dumps] gives it, closed by an empty line, as
    long as the events have a tag to read whose text is ASCII and an
    encoding that is ASCII. The template of the line of the tag is a
    [unicode] string: at the first event whose tag is not ASCII the
    generator ends with [UnicodeDecodeError], the events before it
    delivered and nothing of that event sent. *)
Theorem listen_frames (events : list PyVal) (s : Serving) :
  Forall sse_deliverable events ->
  listen events s
  = (Ok tt,
     set_trace
       (trace s
        ++ EvSubscribe :: EvSend ("retry: " +:+ "400" +:+ nl)
           :: flat_map sse_frames events) s) /\
  forall (data tag : PyVal) (rest : list PyVal),
    py_get data "tag" (PyStr "") = Ok tag ->
    is_ascii (py_format tag) = false ->
    listen (events ++ data :: rest) s
    = (Raise (UnicodeDecodeError "'ascii' codec can't decode byte"),
       set_trace
         (trace s
          ++ EvSubscribe :: EvSend ("retry: " +:+ "400" +:+ nl)
             :: flat_map sse_frames events) s).
Proof.
  intros Hall. split.
  - rewrite listen_unfold.
    rewrite <- (app_nil_r events) at 1.
    rewrite (listen_loop_prefix events [] _ Hall).
    cbn [listen_loop ret trace set_trace]. rewrite <- !app_assoc.
    reflexivity.
  - intros data tag rest Htag Htext.
    rewrite listen_unfold.
    rewrite (listen_loop_prefix events (data :: rest) _ Hall).
    cbn [listen_loop]. unfold bind at 1, lift at 1. rewrite Htag.
    unfold bind at 1, lift at 1, py_uformat at 1. rewrite Htext.
    cbn [trace set_trace]. rewrite <- !app_assoc. reflexivity.
Qed.

(** X21. Only [UnicodeDecodeError] is caught in the loop of the WebSocket
    stream: any other exception of the encoding of an event leaves the
    loop there, with nothing sent and nothing logged for that event, and
    the events behind it are not delivered. *)
Theorem event_stream_other_exception (salt_token data : PyVal)
    (rest : list PyVal) (exc : PyExc) (s : Serving) :
  py_truthy data = true ->
  json_dumps data = Raise exc ->
  (forall detail, exc <> UnicodeDecodeError detail) ->
  event_stream_loop false salt_token (data :: rest) s = (Raise exc, s).
Proof.
  intros Htrue Hdumps Hother. cbn [event_stream_loop]. rewrite Htrue.
  unfold bind at 1. unfold bind at 1. unfold deliver.
  unfold bind at 1, lift at 1. rewrite Hdumps.
  destruct exc; try reflexivity.
  exfalso. exact (Hother detail eq_refl).
Qed.

End StreamProperties.

(** * Further properties of the tools, the hook and the configuration *)

Section ToolProperties.

Context `{Collaborators}.

Lemma py_truthy_dict_lookup (d : gmap string PyVal) (k : string) (x : PyVal) :
  d !! k = Some x -> py_truthy (PyDict d) = true.
Proof.
  intros Hk. cbn. destruct (size d) eqn:Hsize; [|reflexivity].
  apply map_size_empty_inv in Hsize. subst d.
  rewrite lookup_empty in Hk. discriminate.
Qed.

(** X22. With a list of authorized addresses configured, an address that
    is not in it is logged as blocked and the status is set to 403, but
    the tool raises nothing: it returns a dict, the hook ends normally and
    whatever runs after it runs, from the state with that status. An
    address in the list gets the header [Access-Control-Allow-Origin],
    which a blocked one does not. *)
Theorem salt_ip_verify_tool_verdict {A} (opts conf : gmap string PyVal)
    (ips : PyVal) (listed : bool) (after : M A) (s : Serving) :
  saltopts s = PyDict opts ->
  opts !! "rest_cherrypy" = Some (PyDict conf) ->
  conf !! "authorized_ips" = Some ips ->
  py_truthy ips = true ->
  py_in_header (request_headers s !! "Remote-Addr") ips = Ok listed ->
  let rem_ip := header_value (request_headers s !! "Remote-Addr") in
  let seen :=
    log s ++ [{| log_level := "debug"; log_message := "Found IP list: {0}";
                 log_args := [ips]; log_exc_info := None |};
              {| log_level := "debug"; log_message := "Request from IP: {0}";
                 log_args := [rem_ip]; log_exc_info := None |}] in
  let blocked :=
    set_response_status 403
      (set_log (seen ++ [{| log_level := "error";
                            log_message := "Blocked IP: {0}";
                            log_args := [rem_ip];
                            log_exc_info := None |}]) s) in
  if listed then
    salt_ip_verify_tool s
    = (Ok None,
       set_response_headers
         (<["Access-Control-Allow-Origin" := "*"]> (response_headers s))
         (set_log seen s))
  else
    salt_ip_verify_tool s
    = (Ok (Some (PyDict (<["status" := PyInt 403]>
                           (<["return" := PyStr "Bad IP"]> ∅)))), blocked) /\
    (salt_ip_verify_tool >> after) s = after blocked.
Proof.
  intros Hopts Hconf Hips Htrue Hin rem_ip seen blocked.
  assert (Hrun : salt_ip_verify_tool s
                 = if negb listed
                   then (Ok (Some (PyDict (<["status" := PyInt 403]>
                                  (<["return" := PyStr "Bad IP"]> ∅)))),
                         blocked)
                   else (Ok None,
                         set_response_headers
                           (<["Access-Control-Allow-Origin" := "*"]>
                              (response_headers s))
                           (set_log seen s))).
  { unfold salt_ip_verify_tool. unfold bind at 1, gets at 1. rewrite Hopts.
    rewrite (py_truthy_dict_lookup opts _ _ Hconf).
    unfold bind at 1, lift at 1. cbn [py_get]. unfold default_val.
    rewrite Hconf. rewrite (py_truthy_dict_lookup conf _ _ Hips).
    unfold bind at 1, lift at 1. cbn [py_get]. unfold default_val.
    rewrite Hips, Htrue.
    unfold bind at 1. unfold bind at 1. unfold bind at 1.
    unfold logger at 1, modify at 1.
    unfold gets at 1. cbn [request_headers set_log].
    unfold bind at 1. unfold logger at 1, modify at 1.
    unfold bind at 1, lift at 1. rewrite Hin.
    destruct listed; cbn [negb].
    - unfold bind, set_response_header, modify, ret.
      cbn [log set_log response_headers]. rewrite <- app_assoc. reflexivity.
    - unfold bind, logger, modify, gets, ret.
      cbn [log set_log response_status set_response_status].
      subst blocked seen. rewrite <- !app_assoc. reflexivity. }
  destruct listed; cbn [negb] in Hrun; [exact Hrun|].
  split; [exact Hrun|]. unfold bind at 1. rewrite Hrun. reflexivity.
Qed.

(** X23. What [_update_url_map] binds a path to, when the configured paths
    are strings: the path of the single-page app if [app] is configured,
    else the path of the hook, else [ws] if the WebSocket library is
    there, else what the map held. The configured paths are taken without
    their leading slashes, and a later binding replaces an earlier one or
    a fixed one. *)
Theorem update_url_map_lookup (has_websockets : bool)
    (apiopts : gmap string PyVal) (urls : gmap string Resource)
    (hook app : string) :
  default_val apiopts "webhook_url" (PyStr "hook") = PyStr hook ->
  default_val apiopts "app_path" (PyStr "app") = PyStr app ->
  exists urls',
    _update_url_map has_websockets apiopts urls = Ok urls' /\
    forall path : string,
      urls' !! path
      = if bool_decide (is_Some (apiopts !! "app"))
           && bool_decide (path = lstrip_slash app)
        then Some App
        else if bool_decide (path = lstrip_slash hook) then Some Webhook
        else if has_websockets && bool_decide (path = "ws")
        then Some WebsocketEndpoint
        else urls !! path.
Proof.
  intros Hhook Happ. unfold _update_url_map, configured_path.
  rewrite Hhook. cbn [res_bind].
  assert (Hbase : forall path : string,
            <[lstrip_slash hook := Webhook]>
              (if has_websockets then <["ws" := WebsocketEndpoint]> urls
               else urls) !! path
            = if bool_decide (path = lstrip_slash hook) then Some Webhook
              else if has_websockets && bool_decide (path = "ws")
              then Some WebsocketEndpoint
              else urls !! path).
  { intros path. rewrite lookup_insert.
    destruct (decide (lstrip_slash hook = path)) as [<-|Hne].
    - rewrite bool_decide_eq_true_2 by reflexivity. reflexivity.
    - rewrite bool_decide_eq_false_2 by (intros ->; contradiction).
      destruct has_websockets; cbn [andb]; [|reflexivity].
      rewrite lookup_insert.
      destruct (decide ("ws" = path)) as [<-|Hws].
      + rewrite bool_decide_eq_true_2 by reflexivity. reflexivity.
      + rewrite bool_decide_eq_false_2 by (intros ->; contradiction).
        reflexivity. }
  destruct (bool_decide (is_Some (apiopts !! "app"))); cbn [andb].
  - rewrite Happ. cbn [res_bind]. eexists. split; [reflexivity|].
    intros path. rewrite lookup_insert.
    destruct (decide (lstrip_slash app = path)) as [<-|Hne].
    + rewrite bool_decide_eq_true_2 by reflexivity. reflexivity.
    + rewrite bool_decide_eq_false_2 by (intros ->; contradiction).
      apply Hbase.
  - eexists. split; [reflexivity|]. exact Hbase.
Qed.

Lemma get_conf_production_debug (apiopts : gmap string PyVal) :
  get_conf_global apiopts !! "environment" = Some (PyStr "production") ->
  exists debug,
    get_conf_global apiopts !! "debug" = Some debug /\
    py_truthy debug = false.
Proof.
  unfold get_conf_global.
  destruct (py_eq_False (default_val apiopts "debug" (PyBool false)))
    eqn:Heq; intros Henv.
  - exists (default_val apiopts "debug" (PyBool false)). split.
    + rewrite !lookup_insert_ne by discriminate. apply lookup_insert_eq.
    + unfold py_eq_False in Heq.
      destruct (default_val apiopts "debug" (PyBool false)) as [|b|n|q| | |];
        cbn in Heq |- *; try discriminate.
      * destruct b; [discriminate|reflexivity].
      * apply Qeq_bool_iff in Heq. unfold Qeq in Heq. cbn in Heq.
        destruct (Z.eqb_spec n 0) as [|Hn]; [reflexivity|]. lia.
      * rewrite Heq. reflexivity.
  - rewrite !lookup_insert_ne in Henv by discriminate.
    rewrite lookup_empty in Henv. discriminate.
Qed.

(** X24. A deployment that [get_conf] puts into the environment
    [production] shows no traceback: there the configured [debug] is
    unset, [False] or zero, so when a handler raises an exception that is
    not CherryPy's nor the eauth one, the result is status 500 with the
    fixed message. *)
Theorem production_hides_traceback (apiopts : gmap string PyVal)
    (debug : PyVal) (inner : M PyVal) (exc : PyExc) (s s1 : Serving) :
  get_conf_global apiopts !! "environment" = Some (PyStr "production") ->
  get_conf_global apiopts !! "debug" = Some debug ->
  config_debug s1 = py_truthy debug ->
  inner (set_response_processors (list_to_map ct_out_map) s)
  = (Raise exc, s1) ->
  is_CherryPyException exc = false ->
  is_EauthAuthenticationError exc = false ->
  (guarded_handler inner s).1
  = Ok (error_envelope 500 "An unexpected error occurred") /\
  response_status (guarded_handler inner s).2 = 500.
Proof.
  intros Henv Hdebug Hconf Hin Hcp Heauth.
  destruct (get_conf_production_debug apiopts Henv) as (d & Hd & Hfalse).
  rewrite Hdebug in Hd. injection Hd as <-. rewrite Hfalse in Hconf.
  pose proof (guarded_handler_unfold inner s s1 _ Hin) as Hg.
  cbn in Hg. rewrite Hcp, Heauth, Hconf in Hg. rewrite Hg.
  split; reflexivity.
Qed.

Lemma append_assoc (a b c : string) : (a +:+ b) +:+ c = a +:+ (b +:+ c).
Proof.
  induction a as [|x a IH]; [reflexivity|].
  change (String x ((a +:+ b) +:+ c) = String x (a +:+ (b +:+ c))).
  rewrite IH. reflexivity.
Qed.

Lemma fold_left_prefix (sep : string) (l : list string) (a b : string) :
  fold_left (fun prefix segment => prefix +:+ sep +:+ segment) l (a +:+ b)
  = a +:+ fold_left (fun prefix segment => prefix +:+ sep +:+ segment) l b.
Proof.
  revert b. induction l as [|x l IH]; intros b; cbn [fold_left];
    [reflexivity|].
  rewrite append_assoc. apply IH.
Qed.

Lemma join_fold_left (sep x : string) (l : list string) :
  join sep (x :: l)
  = fold_left (fun prefix segment => prefix +:+ sep +:+ segment) l x.
Proof.
  revert x. induction l as [|y l IH]; intros x; [reflexivity|].
  change (join sep (x :: y :: l)) with (x +:+ sep +:+ join sep (y :: l)).
  rewrite IH. cbn [fold_left]. rewrite !fold_left_prefix. reflexivity.
Qed.

Lemma Webhook_POST_unfold (fire_event : PyVal -> string -> Res PyVal)
    (args : list string) (data : PyVal) (s : Serving) :
  request_unserialized_data s = Some data ->
  Webhook_POST fire_event args s
  = (match fire_event
             (PyDict (<["post" := data]>
                (<["headers" := PyDict (PyStr <$> request_headers s)]> ∅)))
             (fold_left (fun prefix segment => prefix +:+ "/" +:+ segment)
                args "salt/netapi/hook") with
     | Ok fired => Ok (PyDict {["success" := fired]})
     | Raise e => Raise e
     end, s).
Proof.
  intros Hd. unfold Webhook_POST, bind, getattr, gets, lift, ret.
  rewrite Hd. unfold tag_base. cbn [app]. rewrite join_fold_left.
  cbn [fold_left].
  destruct (fire_event _ _); reflexivity.
Qed.

(** X25. A [POST] of JSON to the hook fires one event: its tag is
    [salt/netapi/hook] followed by the segments of the path after the
    hook, each behind a slash; its data holds the decoded body under
    [post] and the headers of the request under [headers]. The answer is
    what [fire_event] returned, under [success], and an exception of
    [fire_event] is not caught. *)
Theorem webhook_post_event (fire_event : PyVal -> string -> Res PyVal)
    (args : list string) (v : PyVal) (ct len : string) (s : Serving) :
  upper (request_method s) = "POST" ->
  request_process_request_body s = true ->
  request_headers s !! "Content-Length" = Some len ->
  len <> "0" ->
  request_headers s !! "Content-Type" = Some ct ->
  content_type_value ct = "application/json" ->
  json_loads (request_body s) = Ok v ->
  (decode_request >> Webhook_POST fire_event args) s
  = (match fire_event
             (PyDict (<["post" := v]>
                (<["headers" := PyDict (PyStr <$> request_headers s)]> ∅)))
             (fold_left (fun prefix segment => prefix +:+ "/" +:+ segment)
                args "salt/netapi/hook") with
     | Ok fired => Ok (PyDict {["success" := fired]})
     | Raise e => Raise e
     end,
     set_request_lowstate (Some v) (set_request_unserialized_data (Some v) s)).
Proof.
  intros Hm Hflag Hlen Hne Hct Hval Hload.
  assert (Hdec : decode_request s
                 = (Ok tt,
                    set_request_lowstate (Some v)
                      (set_request_unserialized_data (Some v) s))).
  { unfold decode_request. unfold bind at 1. unfold bind at 1.
    rewrite (hypermedia_in_declared_length len s Hlen Hne).
    rewrite (body_process_processor json_processor len ct s Hflag Hlen Hct)
      by (rewrite Hval; reflexivity).
    unfold run_processor, bind at 1, gets. rewrite Hload.
    unfold set_unserialized_data, modify.
    apply lowdata_fmt_other_type with (ct := ct); try assumption;
      try reflexivity.
    apply (content_type_value_not_form ct _ Hval). discriminate. }
  unfold bind at 1. rewrite Hdec.
  rewrite (Webhook_POST_unfold fire_event args v) by reflexivity.
  reflexivity.
Qed.

Lemma lowdata_fmt_form (d : gmap string PyVal) (s : Serving) :
  upper (request_method s) = "POST" ->
  request_headers s !! "Content-Type"
    = Some "application/x-www-form-urlencoded" ->
  request_unserialized_data s = Some (PyDict d) ->
  lowdata_fmt s
  = (Ok tt,
     set_request_lowstate (Some (PyList [PyDict (arg_normalized d)]))
       (set_request_unserialized_data (Some (PyDict (arg_normalized d))) s)).
Proof.
  intros Hm Hct Hd.
  unfold lowdata_fmt, bind, gets, getattr. rewrite Hm. cbn.
  rewrite Hd. cbn. rewrite Hct. cbn.
  unfold arg_normalized, as_sequence.
  destruct (d !! "arg") as [a|] eqn:Ha.
  - rewrite bool_decide_eq_true_2 by eauto. cbn.
    destruct (isinstance_list a); cbn.
    + rewrite insert_id by exact Ha. reflexivity.
    + reflexivity.
  - rewrite bool_decide_eq_false_2 by (intros [? ?]; discriminate).
    reflexivity.
Qed.

(** X26. The hook does not get a form as it was sent: [lowdata_fmt] is on
    for it and replaces a scalar [arg] inside the dict that
    [unserialized_data] names, so the event carries the form with its
    [arg] wrapped in a list under [post], every other key as it was. *)
Theorem webhook_form_arg_wrapped (fire_event : PyVal -> string -> Res PyVal)
    (args : list string) (d : gmap string PyVal) (a : PyVal) (s : Serving) :
  upper (request_method s) = "POST" ->
  request_headers s !! "Content-Type"
    = Some "application/x-www-form-urlencoded" ->
  request_unserialized_data s = Some (PyDict d) ->
  d !! "arg" = Some a ->
  isinstance_list a = false ->
  ((lowdata_fmt >> Webhook_POST fire_event args) s).1
  = match fire_event
            (PyDict (<["post" := PyDict (<["arg" := PyList [a]]> d)]>
               (<["headers" := PyDict (PyStr <$> request_headers s)]> ∅)))
            (fold_left (fun prefix segment => prefix +:+ "/" +:+ segment)
               args "salt/netapi/hook") with
    | Ok fired => Ok (PyDict {["success" := fired]})
    | Raise e => Raise e
    end.
Proof.
  intros Hm Hct Hd Ha Hl.
  unfold bind at 1. rewrite (lowdata_fmt_form d s Hm Hct Hd).
  rewrite (Webhook_POST_unfold fire_event args (PyDict (arg_normalized d)))
    by reflexivity.
  cbn [fst request_headers set_request_lowstate
       set_request_unserialized_data].
  unfold arg_normalized, as_sequence. rewrite Ha, Hl. reflexivity.
Qed.

End ToolProperties.

(** ** The further properties on the sample deployment *)

Lemma decode_request_json_witness :
  let s := sample_arrival "POST" (sample_json_headers "2") "[]" (PyDict ∅) in
  json_loads (Collaborators := sample) (request_body s) = Ok (PyList []) /\
  decode_request (H := sample) s
  = (Ok tt,
     set_request_lowstate (Some (PyList []))
       (set_request_unserialized_data (Some (PyList [])) s)).
Proof.
  intros s. split; [reflexivity|].
  assert (Hne : "2" <> "0") by discriminate.
  exact (decode_request_json (H := sample) (PyList [])
           "application/json; charset=UTF-8" "2" s eq_refl eq_refl eq_refl
           Hne eq_refl eq_refl eq_refl).
Defined.

Lemma decode_request_malformed_witness :
  let s :=
    sample_arrival "POST" (sample_json_headers "11")
      ("{" +:+ quote +:+ "id" +:+ quote +:+ ": " +:+ quote
       +:+ String (Ascii.ascii_of_nat 255) quote +:+ "}") (PyDict ∅) in
  json_loads (Collaborators := sample) (request_body s)
  = Raise (UnicodeDecodeError "'utf8' codec can't decode byte") /\
  decode_request (H := sample) s
  = (Raise (HTTPError 400 "Invalid JSON document"), s).
Proof.
  intros s. split; [reflexivity|].
  assert (Hne : "11" <> "0") by discriminate.
  exact (proj1 (decode_request_malformed (H := sample)
                  "application/json; charset=UTF-8" "11"
                  (UnicodeDecodeError "'utf8' codec can't decode byte") s
                  eq_refl eq_refl Hne eq_refl) eq_refl eq_refl).
Defined.

Lemma decode_request_text_fallback_witness :
  let s :=
    sample_arrival "POST"
      (<["Content-Type" := "text/plain"]> (<["Content-Length" := "9"]> ∅))
      "test.ping" (PyDict ∅) in
  decode_request (H := sample) s
  = (Ok tt,
     set_request_lowstate (Some (PyStr "test.ping"))
       (set_request_unserialized_data (Some (PyStr "test.ping")) s)).
Proof.
  intros s.
  assert (Hne : "9" <> "0") by discriminate.
  exact (decode_request_text_fallback (H := sample) "text/plain" "9"
           (ValueError "No JSON object could be decoded") s eq_refl eq_refl
           eq_refl Hne eq_refl eq_refl eq_refl eq_refl).
Defined.

Lemma decode_request_unsupported_type_witness :
  let s :=
    sample_arrival "POST"
      (<["Content-Type" := "text/html"]> (<["Content-Length" := "9"]> ∅))
      "<p>hi</p>" (PyDict ∅) in
  ct_in_map (content_type_value "text/html") = None /\
  decode_request (H := sample) s
  = (Raise (HTTPError 406 "Content type not supported"), s).
Proof.
  intros s. split; [reflexivity|].
  assert (Hne : "9" <> "0") by discriminate.
  exact (decode_request_unsupported_type (H := sample) "text/html" "9" s
           eq_refl eq_refl Hne eq_refl eq_refl).
Defined.

Lemma decode_request_post_only_witness :
  let s := sample_arrival "PUT" (sample_json_headers "2") "[]" (PyDict ∅) in
  request_lowstate (decode_request (H := sample) s).2 = None.
Proof.
  intros s.
  assert (Hne : upper (request_method s) <> "POST")
    by (intros E; vm_compute in E; discriminate).
  exact (decode_request_post_only (H := sample) s Hne).
Defined.

Lemma hypermedia_handler_negotiation_witness :
  let v := PyDict {["return" := PyStr "Welcome"]} in
  let inner : M PyVal := ret v in
  let s := sample_html_serving in
  let s1 := set_response_processors (list_to_map ct_out_map) s in
  request_accept s1
  = [{| ae_value := "text/html"; ae_qvalue_positive := true |}] /\
  exists msg,
    hypermedia_handler (H := sample) inner s
    = (Raise (HTTPError 406 msg), s1).
Proof.
  intros v inner s s1. split; [reflexivity|].
  apply (proj2 (proj2 (hypermedia_handler_negotiation (H := sample) inner v
                         s s1 eq_refl eq_refl))).
  split; [discriminate|repeat constructor].
Defined.

Lemma hypermedia_handler_returns_witness :
  let v := PyDict {["return" := PyStr "Welcome"]} in
  let inner : M PyVal := ret v in
  let s := sample_serving None in
  let s1 := set_response_processors (list_to_map ct_out_map) s in
  (exists msg,
     hypermedia_handler (H := sample) inner s
     = (Raise (HTTPError 406 msg), s1)) \/
  (exists best out,
     In (best, out) ct_out_map /\
     hypermedia_handler (H := sample) inner s
     = (run_serializer (H := sample) out v,
        set_trace (trace s1 ++ [EvSerialize best v])
          (set_response_headers
             (<["Content-Type" := best]> (response_headers s1)) s1))).
Proof.
  intros v inner s s1.
  exact (hypermedia_handler_returns (H := sample) inner v s s1 eq_refl
           eq_refl).
Defined.

Lemma lowdata_fmt_form_with_parameter_witness :
  let content_type := "application/x-www-form-urlencoded; charset=UTF-8" in
  let s :=
    set_request_unserialized_data (Some (PyDict sample_ping))
      (sample_arrival "POST"
         (<["Content-Type" := content_type]> (<["Content-Length" := "45"]> ∅))
         sample_form_body (PyDict ∅)) in
  ct_in_map (content_type_value content_type) = Some urlencoded_processor /\
  lowdata_fmt s
  = (Ok tt, set_request_lowstate (Some (PyDict sample_ping)) s).
Proof.
  intros content_type s.
  assert (Hne : content_type <> "application/x-www-form-urlencoded")
    by discriminate.
  exact (lowdata_fmt_form_with_parameter (PyDict sample_ping) content_type
           s eq_refl eq_refl eq_refl Hne eq_refl).
Defined.

Lemma exec_lowstate_engine_failure_witness :
  let token := PyStr sample_backend_token in
  let batch := [sample_ping] ++ sample_clientless :: [sample_batch_command] in
  let s := sample_serving (Some (PyList (map PyDict batch))) in
  let rets :=
    [RetValue (PyDict (<["ms-0" := PyBool true]>
                         (<["ms-1" := PyBool true]> ∅)))] in
  exec_lowstate (H := sample) PyNone token s
  = (Raise (SaltException "No client specified"),
     set_trace
       (trace s
        ++ EvReleaseLock
           :: concat (zip_with block
                        (map (fun c => PyDict (annotated PyNone token c))
                           [sample_ping]) rets)
        ++ [EvRun (PyDict (annotated PyNone token sample_clientless))])
       (set_session_locked false s)).
Proof.
  intros token batch s rets.
  assert (Hrep : engine_replies (H := sample) (calls_of (trace s))
                   (map (fun c => PyDict (annotated PyNone token c))
                      [sample_ping]) rets).
  { repeat (constructor; try (vm_compute; reflexivity)). }
  assert (Hfail : api_run (Collaborators := sample)
                    (calls_of (trace s)
                     ++ map (fun c => PyDict (annotated PyNone token c))
                          [sample_ping])
                    (PyDict (annotated PyNone token sample_clientless))
                  = Raise (SaltException "No client specified")).
  { vm_compute. reflexivity. }
  exact (exec_lowstate_engine_failure (H := sample) PyNone token
           [sample_ping] sample_clientless [sample_batch_command] rets
           (SaltException "No client specified") s eq_refl Hrep Hfail).
Defined.

Lemma exec_lowstate_non_mapping_witness :
  let token := PyStr sample_backend_token in
  let s := sample_serving (Some (PyList [PyStr "test.ping"])) in
  exists detail,
    exec_lowstate (H := sample) PyNone token s
    = (Raise (TypeError detail),
       set_trace (trace s ++ [EvReleaseLock]) (set_session_locked false s)).
Proof.
  intros token s.
  exact (exec_lowstate_non_mapping (H := sample) PyNone token
           (PyStr "test.ping") [] s eq_refl eq_refl (or_introl eq_refl)).
Defined.

Lemma jobs_get_result_witness :
  let jid := PyStr sample_jid in
  let s := sample_serving None in
  let reply :=
    PyDict (<["ms-0" := PyBool true]> (<["ms-1" := PyBool true]> ∅)) in
  (Jobs_GET (H := sample) jid s).1
  = Ok (PyDict (<["info" := PyList [reply]]>
          (<["return" := PyList [reply]]> ∅))).
Proof.
  intros jid s reply.
  assert (Hrep : engine_replies (H := sample) (calls_of (trace s))
            [PyDict (annotated PyNone
                       (default_val (session_data s) "token" PyNone)
                       (<["client" := PyStr "runner"]>
                          (<["fun" := PyStr "jobs.lookup_jid"]>
                             (<["jid" := jid]> ∅))));
             PyDict (annotated PyNone
                       (default_val (session_data s) "token" PyNone)
                       (<["client" := PyStr "runner"]>
                          (<["fun" := PyStr "jobs.list_job"]>
                             (<["jid" := jid]> ∅))))]
            [RetValue reply; RetValue reply]).
  { repeat (constructor; try (vm_compute; reflexivity)). }
  exact (jobs_get_result (H := sample) jid [RetValue reply; RetValue reply]
           s Hrep).
Defined.

Lemma event_stream_loop_delivers_witness :
  let events := [sample_unsafe_event; sample_safe_event] in
  let s := sample_serving None in
  (event_stream_loop (H := sample) false PyNone events s).1 = Ok tt /\
  sent (trace (event_stream_loop (H := sample) false PyNone events s).2)
  = sent (trace s) ++ websocket_frames (H := sample) events.
Proof.
  intros events s.
  assert (Hall : Forall (fun data =>
                    forall exc, json_dumps (Collaborators := sample) data
                                = Raise exc ->
                    exists detail, exc = UnicodeDecodeError detail) events).
  { repeat constructor.
    - intros exc E. vm_compute in E. injection E as <-. eexists. reflexivity.
    - intros exc E. vm_compute in E. discriminate. }
  exact (event_stream_loop_delivers (H := sample) PyNone events s Hall).
Defined.

Lemma login_refused_witness :
  let s := sample_serving (Some (PyList [sample_wrong_creds])) in
  mk_token (Collaborators := sample) sample_wrong_creds = Ok (PyDict ∅) /\
  Login_POST (H := sample) s
  = (Raise (HTTPError 401
              "Could not authenticate using provided credentials"), s).
Proof.
  intros s. split; [reflexivity|].
  exact (login_refused (H := sample) sample_wrong_creds (PyDict ∅) [] s
           eq_refl eq_refl eq_refl).
Defined.

Lemma login_perms_failure_witness :
  let s := sample_serving (Some (PyList [sample_stranger_creds])) in
  let timeout :=
    PyFloat (((1363849143 # 1) - (1363805943 # 1)) / inject_Z 60) in
  mk_token (Collaborators := sample) sample_stranger_creds
  = Ok (PyDict (sample_token "mallory")) /\
  Login_POST (H := sample) s
  = (Raise (KeyError "mallory"),
     set_session_data
       (<["timeout" := timeout]>
          (<["token" := PyStr sample_backend_token]> (session_data s)))
       (set_response_headers
          (<["X-Auth-Token" := session_id s]> (response_headers s)) s)).
Proof.
  intros s timeout. split; [reflexivity|].
  exact (login_perms_failure (H := sample) sample_stranger_creds []
           (sample_token "mallory") (PyStr sample_backend_token)
           (PyFloat (1363849143 # 1)) (PyFloat (1363805943 # 1))
           (PyStr "mallory") (PyStr "pam")
           (PyFloat ((1363849143 # 1) - (1363805943 # 1))) timeout
           (PyDict {["pam" :=
              PyDict {["saltuser" :=
                PyList [PyStr "test.*"; PyStr "grains.*"]]}]})
           (PyDict {["saltuser" :=
              PyList [PyStr "test.*"; PyStr "grains.*"]]})
           "mallory" s eq_refl eq_refl eq_refl eq_refl eq_refl eq_refl
           eq_refl eq_refl eq_refl eq_refl eq_refl eq_refl).
Defined.

Lemma login_then_request_witness :
  let s := sample_arrival "POST" (sample_json_headers "42") ""
             (saltopts (sample_serving None)) in
  let login := set_request_lowstate (Some (PyList [sample_creds])) s in
  let later :=
    set_request_lowstate (Some (PyList (map PyDict sample_batch)))
      (set_session_data (session_data (Login_POST (H := sample) login).2) s) in
  let prepared :=
    map (fun d => PyDict (annotated PyNone (PyStr sample_backend_token) d))
      sample_batch in
  (salt_auth_tool later).1 = Ok tt /\
  calls_of (trace (LowDataAdapter_POST (H := sample) later).2) = prepared /\
  (LowDataAdapter_POST (H := sample) later).1
  = Ok (PyDict {["return" :=
          PyList [PyDict (<["ms-0" := PyBool true]>
                            (<["ms-1" := PyBool true]> ∅));
                  PyDict {["ms-0" := PyBool true]};
                  PyDict {["ms-1" := PyBool true]}]]}).
Proof.
  intros s login later prepared.
  assert (Hrep : engine_replies (H := sample) (calls_of (trace later))
            prepared
            [RetValue (PyDict (<["ms-0" := PyBool true]>
                                 (<["ms-1" := PyBool true]> ∅)));
             RetIterator [PyDict {["ms-0" := PyBool true]};
                          PyDict {["ms-1" := PyBool true]}] None]).
  { repeat (constructor; try (vm_compute; reflexivity)). }
  pose proof (login_then_request (H := sample) sample_creds []
           (sample_token "saltuser") (PyStr sample_backend_token)
           (PyFloat (1363849143 # 1)) (PyFloat (1363805943 # 1))
           (PyStr "saltuser") (PyStr "pam")
           (PyFloat ((1363849143 # 1) - (1363805943 # 1)))
           (PyFloat (((1363849143 # 1) - (1363805943 # 1)) / inject_Z 60))
           (PyList [PyStr "test.*"; PyStr "grains.*"])
           (PyDict {["pam" :=
              PyDict {["saltuser" :=
                PyList [PyStr "test.*"; PyStr "grains.*"]]}]})
           (PyDict {["saltuser" :=
              PyList [PyStr "test.*"; PyStr "grains.*"]]})
           login later sample_batch _
           eq_refl eq_refl eq_refl eq_refl eq_refl eq_refl eq_refl eq_refl
           eq_refl eq_refl eq_refl eq_refl eq_refl eq_refl eq_refl Hrep)
    as (Hauth & Hrun & Hcalls & _).
  split; [exact Hauth|]. split; [exact Hcalls|].
  rewrite Hrun. reflexivity.
Defined.

Lemma stream_url_token_unknown_witness :
  let s := sample_serving None in
  session_data s !! "token" = Some (PyStr sample_backend_token) /\
  Events_GET (H := sample) (PyStr "0f3a9c") s
  = (Raise (InternalRedirect "/login"), s) /\
  WebsocketEndpoint_GET (H := sample) (PyStr "0f3a9c") s
  = (Raise (HTTPError 401 ""), s).
Proof.
  intros s. split; [reflexivity|].
  assert (Hne : "0f3a9c" <> "") by discriminate.
  exact (stream_url_token_unknown (H := sample) "0f3a9c" s Hne eq_refl).
Defined.

Lemma listen_frames_witness :
  let events := [sample_safe_event; sample_safe_event] in
  let s := sample_serving None in
  listen (H := sample) events s
  = (Ok tt,
     set_trace
       (trace s
        ++ EvSubscribe :: EvSend ("retry: " +:+ "400" +:+ nl)
           :: flat_map (sse_frames (H := sample)) events) s) /\
  listen (H := sample) (events ++ [sample_latin_event; sample_safe_event]) s
  = (Raise (UnicodeDecodeError "'ascii' codec can't decode byte"),
     set_trace
       (trace s
        ++ EvSubscribe :: EvSend ("retry: " +:+ "400" +:+ nl)
           :: flat_map (sse_frames (H := sample)) events) s).
Proof.
  intros events s.
  assert (Hall : Forall (sse_deliverable (H := sample)) events).
  { repeat constructor; eexists; split; vm_compute; reflexivity. }
  destruct (listen_frames (H := sample) events s Hall) as [Hrun Hstop].
  split; [exact Hrun|].
  exact (Hstop sample_latin_event _ [sample_safe_event] eq_refl eq_refl).
Defined.

Lemma event_stream_other_exception_witness :
  let s := sample_serving None in
  let exc := TypeError "datetime.datetime is not JSON serializable" in
  json_dumps (Collaborators := sample_strict) sample_stamped_event
  = Raise exc /\
  event_stream_loop (H := sample_strict) false PyNone
    [sample_stamped_event; sample_safe_event] s
  = (Raise exc, s).
Proof.
  intros s exc.
  assert (Hdumps : json_dumps (Collaborators := sample_strict)
                     sample_stamped_event = Raise exc)
    by (vm_compute; reflexivity).
  split; [exact Hdumps|].
  assert (Hother : forall detail, exc <> UnicodeDecodeError detail)
    by (intros detail; discriminate).
  assert (Htrue : py_truthy sample_stamped_event = true)
    by (vm_compute; reflexivity).
  exact (event_stream_other_exception (H := sample_strict) PyNone
           sample_stamped_event [sample_safe_event] exc s Htrue Hdumps
           Hother).
Defined.

Lemma salt_ip_verify_tool_verdict_witness :
  let s :=
    sample_arrival "GET" {["Remote-Addr" := "10.0.0.9"]} ""
      sample_restricted_opts in
  py_in_header (Some "10.0.0.9")
    (PyList [PyStr "10.0.0.1"; PyStr "10.0.0.2"]) = Ok false /\
  (salt_ip_verify_tool s).1
  = Ok (Some (PyDict (<["status" := PyInt 403]>
                        (<["return" := PyStr "Bad IP"]> ∅)))) /\
  response_status (salt_ip_verify_tool s).2 = 403 /\
  response_headers (salt_ip_verify_tool s).2 = ∅ /\
  ((salt_ip_verify_tool >> Minions_GET (H := sample) PyNone) s).1
  = Ok (PyDict {["return" :=
          PyList [PyDict (<["ms-0" := PyBool true]>
                            (<["ms-1" := PyBool true]> ∅))]]}).
Proof.
  intros s.
  pose proof (salt_ip_verify_tool_verdict
                {["rest_cherrypy" :=
                    PyDict (<["port" := PyInt 8000]>
                      (<["authorized_ips" :=
                           PyList [PyStr "10.0.0.1"; PyStr "10.0.0.2"]]> ∅))]}
                (<["port" := PyInt 8000]>
                   (<["authorized_ips" :=
                        PyList [PyStr "10.0.0.1"; PyStr "10.0.0.2"]]> ∅))
                (PyList [PyStr "10.0.0.1"; PyStr "10.0.0.2"]) false
                (Minions_GET (H := sample) PyNone) s
                eq_refl eq_refl eq_refl eq_refl eq_refl) as [Hrun Hafter].
  split; [reflexivity|]. rewrite Hafter, Hrun.
  split; [reflexivity|]. split; [reflexivity|]. split; [reflexivity|].
  vm_compute. reflexivity.
Defined.

Lemma update_url_map_lookup_witness :
  let apiopts : gmap string PyVal := {["webhook_url" := PyStr "/login"]} in
  exists urls',
    _update_url_map true apiopts url_map = Ok urls' /\
    urls' !! "login" = Some Webhook /\
    urls' !! "hook" = None /\
    urls' !! "ws" = Some WebsocketEndpoint /\
    urls' !! "minions" = Some Minions.
Proof.
  intros apiopts.
  destruct (update_url_map_lookup true apiopts url_map "/login" "app"
              eq_refl eq_refl) as (urls' & Hrun & Hlook).
  exists urls'. split; [exact Hrun|]. rewrite !Hlook.
  split; [reflexivity|]. split; [reflexivity|]. split; reflexivity.
Defined.

Lemma production_hides_traceback_witness :
  let apiopts : gmap string PyVal := {["debug" := PyInt 0]} in
  let inner : M PyVal := raise (KeyError "jid") in
  let s := sample_serving None in
  get_conf_global apiopts !! "environment" = Some (PyStr "production") /\
  (guarded_handler (H := sample) inner s).1
  = Ok (error_envelope 500 "An unexpected error occurred") /\
  response_status (guarded_handler (H := sample) inner s).2 = 500.
Proof.
  intros apiopts inner s. split; [reflexivity|].
  exact (production_hides_traceback (H := sample) apiopts (PyInt 0) inner
           (KeyError "jid") s
           (set_response_processors (list_to_map ct_out_map) s)
           eq_refl eq_refl eq_refl eq_refl eq_refl eq_refl).
Defined.

Lemma webhook_post_event_witness :
  let s := sample_arrival "POST" (sample_json_headers "2") "{}" (PyDict ∅) in
  (decode_request (H := sample)
   >> Webhook_POST sample_fire_event ["travis"; "build"]) s
  = (Ok (PyDict {["success" := PyBool true]}),
     set_request_lowstate (Some (PyDict ∅))
       (set_request_unserialized_data (Some (PyDict ∅)) s)) /\
  fold_left (fun prefix segment => prefix +:+ "/" +:+ segment)
    ["travis"; "build"] "salt/netapi/hook"
  = "salt/netapi/hook/travis/build".
Proof.
  intros s. split; [|reflexivity].
  assert (Hne : "2" <> "0") by discriminate.
  exact (webhook_post_event (H := sample) sample_fire_event
           ["travis"; "build"] (PyDict ∅) "application/json; charset=UTF-8"
           "2" s eq_refl eq_refl eq_refl Hne eq_refl eq_refl eq_refl).
Defined.

Lemma webhook_form_arg_wrapped_witness :
  let s :=
    set_request_unserialized_data (Some (PyDict sample_ping))
      sample_form_serving in
  sample_ping !! "arg" = Some (PyStr "one=1") /\
  ((lowdata_fmt >> Webhook_POST sample_fire_event ["travis"]) s).1
  = Ok (PyDict {["success" := PyBool true]}).
Proof.
  intros s. split; [reflexivity|].
  exact (webhook_form_arg_wrapped sample_fire_event ["travis"] sample_ping
           (PyStr "one=1") s eq_refl eq_refl eq_refl eq_refl eq_refl).
Defined.
